(** * Registration validation: a shallow embedding of the two validators

    The repository holds one field-validation ruleset written twice:

    - [server_validation.py], class [RegistrationValidator]
      (first_name / last_name variant, errors kept in a dict);
    - [forms/registration_form.py], class [RegistrationForm]
      (username variant with optional age and phone, errors kept in a list).

    Both are embedded below as state-passing programs over the instance's
    mutable attributes, with Python exceptions as an explicit outcome.  The
    Python primitives they rely on ([str.strip], [str.split], [str.join],
    [str.title], [int], [len], truthiness, the [re] patterns) are modelled
    first, in module [Py].  A field holds [None], an integer, a float or a
    string, which is what a JSON document gives apart from booleans (which
    behave as the integers 0 and 1 in all that is done here), lists and
    objects.  The HTTP layer of [example_flask_app.py] is outside the
    model. *)

From Stdlib Require Import ZArith NArith List String Ascii Bool Lia.
From Stdlib Require Import Floats.SpecFloat.
From stdpp Require Import base option list gmap strings.

Local Open Scope N_scope.
Local Open Scope list_scope.

(** ** Python primitives *)

Module Py.

(** A Python [str] is a sequence of Unicode code points. *)
Definition char := N.
Definition pystr := list char.

(** Literals of the source, written as Rocq strings. *)
Definition lit (s : string) : pystr :=
  map N_of_ascii (list_ascii_of_string s).

(** The values a field of the input mapping can hold: [None], an integer,
    a float or a string.  A float is a zero, an infinity, a NaN or a finite
    number [m * 2^e] with its sign; the binary64 numbers of Python are among
    them. *)
Inductive value :=
| VNone
| VInt (z : Z)
| VFloat (f : spec_float)
| VStr (s : pystr).

Inductive exn := TypeError | AttributeError | ValueError | OverflowError.

Inductive result (A : Type) :=
| Ok (a : A)
| Raise (e : exn).
Arguments Ok {A} a.
Arguments Raise {A} e.

(** The floats that compare equal to zero: [0.0] and [-0.0]. *)
Definition float_is_zero (f : spec_float) : bool :=
  match f with
  | S754_zero _ => true
  | _ => false
  end.

(** Truthiness, as used by [not value]: a number is false when it is zero
    (a NaN is true). *)
Definition truthy (v : value) : bool :=
  match v with
  | VNone => false
  | VInt z => negb (z =? 0)%Z
  | VFloat f => negb (float_is_zero f)
  | VStr s => match s with [] => false | _ :: _ => true end
  end.

(** A finite float as an integer times a power of two. *)
Definition float_dyadic (f : spec_float) : option (Z * Z) :=
  match f with
  | S754_zero _ => Some (0, 0)%Z
  | S754_finite s m e => Some (if s then Z.neg m else Z.pos m, e)
  | S754_infinity _ | S754_nan => None
  end.

(** [n * 2^e = n' * 2^e'], the numbers being compared exactly. *)
Definition dyadic_eqb (a b : Z * Z) : bool :=
  let '(n, e) := a in
  let '(n', e') := b in
  let d := Z.min e e' in
  (n * 2 ^ (e - d) =? n' * 2 ^ (e' - d))%Z.

(** [x == y] on floats: a NaN equals nothing, the two zeros are equal. *)
Definition float_eqb (f g : spec_float) : bool :=
  match f, g with
  | S754_infinity s, S754_infinity s' => eqb s s'
  | _, _ =>
      match float_dyadic f, float_dyadic g with
      | Some a, Some b => dyadic_eqb a b
      | _, _ => false
      end
  end.

(** [x == z] for a float and an integer, compared by value. *)
Definition float_eqb_int (f : spec_float) (z : Z) : bool :=
  match float_dyadic f with
  | Some a => dyadic_eqb a (z, 0%Z)
  | None => false
  end.

(** [a != b] on values: numbers are compared by value, and objects of
    different types are never equal otherwise. *)
Definition value_eqb (a b : value) : bool :=
  match a, b with
  | VNone, VNone => true
  | VInt x, VInt y => (x =? y)%Z
  | VFloat f, VFloat g => float_eqb f g
  | VFloat f, VInt z | VInt z, VFloat f => float_eqb_int f z
  | VStr s, VStr t => bool_decide (s = t)
  | _, _ => false
  end.

(** [len(v)]: defined on strings only. *)
Definition len (v : value) : result Z :=
  match v with
  | VStr s => Ok (Z.of_nat (length s))
  | _ => Raise TypeError
  end.

(** *** Character classes *)

Definition between (lo hi c : char) : bool := (lo <=? c) && (c <=? hi).

(** [str.isspace] for one code point; the regular expression class [\s]
    and the separators of [str.split()] and [str.strip()] are the same set. *)
Definition isspace (c : char) : bool :=
  between 0x09 0x0D c || between 0x1C 0x20 c || (c =? 0x85) || (c =? 0xA0)
  || (c =? 0x1680) || between 0x2000 0x200A c || (c =? 0x2028)
  || (c =? 0x2029) || (c =? 0x202F) || (c =? 0x205F) || (c =? 0x3000).

(** Code points of the digit zero of every block of decimal digits (general
    category Nd) of the Unicode character database; each block holds the ten
    digits in order. *)
Definition decimal_zeros : list char :=
  [0x30; 0x660; 0x6F0; 0x7C0; 0x966; 0x9E6; 0xA66; 0xAE6; 0xB66; 0xBE6;
   0xC66; 0xCE6; 0xD66; 0xDE6; 0xE50; 0xED0; 0xF20; 0x1040; 0x1090; 0x17E0;
   0x1810; 0x1946; 0x19D0; 0x1A80; 0x1A90; 0x1B50; 0x1BB0; 0x1C40; 0x1C50;
   0xA620; 0xA8D0; 0xA900; 0xA9D0; 0xA9F0; 0xAA50; 0xABF0; 0xFF10; 0x104A0;
   0x10D30; 0x11066; 0x110F0; 0x11136; 0x111D0; 0x112F0; 0x11450; 0x114D0;
   0x11650; 0x116C0; 0x11730; 0x118E0; 0x11950; 0x11C50; 0x11D50; 0x11DA0;
   0x16A60; 0x16AC0; 0x16B50; 0x1D7CE; 0x1D7D8; 0x1D7E2; 0x1D7EC; 0x1D7F6;
   0x1E140; 0x1E2F0; 0x1E950; 0x1FBF0].

(** The decimal value of a code point, when it is a decimal digit. *)
Fixpoint decimal_in (zeros : list char) (c : char) : option Z :=
  match zeros with
  | [] => None
  | z :: zs => if between z (z + 9) c then Some (Z.of_N (c - z))
               else decimal_in zs c
  end.

Definition decimal (c : char) : option Z := decimal_in decimal_zeros c.

(** [str.isdecimal] for one code point, which is also the class [\d]. *)
Definition isdecimal (c : char) : bool :=
  match decimal c with Some _ => true | None => false end.

(** *** String methods *)

Fixpoint drop_while (p : char -> bool) (s : pystr) : pystr :=
  match s with
  | [] => []
  | c :: s' => if p c then drop_while p s' else s
  end.

Definition lstrip (s : pystr) : pystr := drop_while isspace s.
Definition rstrip (s : pystr) : pystr := rev (drop_while isspace (rev s)).

(** [s.strip()] *)
Definition strip (s : pystr) : pystr := rstrip (lstrip s).

(** [s.split()]: the maximal runs of non-whitespace characters, in order.
    [cur] holds the word being read, reversed. *)
Fixpoint split_from (cur : pystr) (s : pystr) : list pystr :=
  match s with
  | [] => match cur with [] => [] | _ :: _ => [rev cur] end
  | c :: s' =>
      if isspace c then
        match cur with
        | [] => split_from [] s'
        | _ :: _ => rev cur :: split_from [] s'
        end
      else split_from (c :: cur) s'
  end.

Definition split (s : pystr) : list pystr := split_from [] s.

(** [sep.join(words)] *)
Fixpoint join (sep : pystr) (words : list pystr) : pystr :=
  match words with
  | [] => []
  | [w] => w
  | w :: ws => w ++ sep ++ join sep ws
  end.

(** [s.replace(old, new)] for a one-character [old]. *)
Definition replace (old : char) (new : pystr) (s : pystr) : pystr :=
  flat_map (fun c => if c =? old then new else [c]) s.

(** *** Case mapping

    [str.title] goes by four tables of the Unicode character database
    (version 14.0, the one CPython 3.11 holds): the cased characters, the
    case-ignorable ones, and the lower-case and title-case mappings.  A
    mapping is given by runs: [(lo, hi, step, to)] sends [lo], [lo + step],
    and so on up to [hi], to [to], [to + step], and so on; the characters
    that map to more than one character are listed apart. *)

(** The cased characters, as ranges of code points. *)
Definition cased_ranges : list (char * char) :=
  [(0x41, 0x5A); (0x61, 0x7A); (0xAA, 0xAA); (0xB5, 0xB5); (0xBA, 0xBA);
   (0xC0, 0xD6); (0xD8, 0xF6); (0xF8, 0x1BA); (0x1BC, 0x1BF); (0x1C4, 0x293);
   (0x295, 0x2B8); (0x2C0, 0x2C1); (0x2E0, 0x2E4); (0x345, 0x345);
   (0x370, 0x373); (0x376, 0x377); (0x37A, 0x37D); (0x37F, 0x37F);
   (0x386, 0x386); (0x388, 0x38A); (0x38C, 0x38C); (0x38E, 0x3A1);
   (0x3A3, 0x3F5); (0x3F7, 0x481); (0x48A, 0x52F); (0x531, 0x556);
   (0x560, 0x588); (0x10A0, 0x10C5); (0x10C7, 0x10C7); (0x10CD, 0x10CD);
   (0x10D0, 0x10FA); (0x10FD, 0x10FF); (0x13A0, 0x13F5); (0x13F8, 0x13FD);
   (0x1C80, 0x1C88); (0x1C90, 0x1CBA); (0x1CBD, 0x1CBF); (0x1D00, 0x1DBF);
   (0x1E00, 0x1F15); (0x1F18, 0x1F1D); (0x1F20, 0x1F45); (0x1F48, 0x1F4D);
   (0x1F50, 0x1F57); (0x1F59, 0x1F59); (0x1F5B, 0x1F5B); (0x1F5D, 0x1F5D);
   (0x1F5F, 0x1F7D); (0x1F80, 0x1FB4); (0x1FB6, 0x1FBC); (0x1FBE, 0x1FBE);
   (0x1FC2, 0x1FC4); (0x1FC6, 0x1FCC); (0x1FD0, 0x1FD3); (0x1FD6, 0x1FDB);
   (0x1FE0, 0x1FEC); (0x1FF2, 0x1FF4); (0x1FF6, 0x1FFC); (0x2071, 0x2071);
   (0x207F, 0x207F); (0x2090, 0x209C); (0x2102, 0x2102); (0x2107, 0x2107);
   (0x210A, 0x2113); (0x2115, 0x2115); (0x2119, 0x211D); (0x2124, 0x2124);
   (0x2126, 0x2126); (0x2128, 0x2128); (0x212A, 0x212D); (0x212F, 0x2134);
   (0x2139, 0x2139); (0x213C, 0x213F); (0x2145, 0x2149); (0x214E, 0x214E);
   (0x2160, 0x217F); (0x2183, 0x2184); (0x24B6, 0x24E9); (0x2C00, 0x2CE4);
   (0x2CEB, 0x2CEE); (0x2CF2, 0x2CF3); (0x2D00, 0x2D25); (0x2D27, 0x2D27);
   (0x2D2D, 0x2D2D); (0xA640, 0xA66D); (0xA680, 0xA69D); (0xA722, 0xA787);
   (0xA78B, 0xA78E); (0xA790, 0xA7CA); (0xA7D0, 0xA7D1); (0xA7D3, 0xA7D3);
   (0xA7D5, 0xA7D9); (0xA7F5, 0xA7F6); (0xA7F8, 0xA7FA); (0xAB30, 0xAB5A);
   (0xAB5C, 0xAB68); (0xAB70, 0xABBF); (0xFB00, 0xFB06); (0xFB13, 0xFB17);
   (0xFF21, 0xFF3A); (0xFF41, 0xFF5A); (0x10400, 0x1044F);
   (0x104B0, 0x104D3); (0x104D8, 0x104FB); (0x10570, 0x1057A);
   (0x1057C, 0x1058A); (0x1058C, 0x10592); (0x10594, 0x10595);
   (0x10597, 0x105A1); (0x105A3, 0x105B1); (0x105B3, 0x105B9);
   (0x105BB, 0x105BC); (0x10780, 0x10780); (0x10783, 0x10785);
   (0x10787, 0x107B0); (0x107B2, 0x107BA); (0x10C80, 0x10CB2);
   (0x10CC0, 0x10CF2); (0x118A0, 0x118DF); (0x16E40, 0x16E7F);
   (0x1D400, 0x1D454); (0x1D456, 0x1D49C); (0x1D49E, 0x1D49F);
   (0x1D4A2, 0x1D4A2); (0x1D4A5, 0x1D4A6); (0x1D4A9, 0x1D4AC);
   (0x1D4AE, 0x1D4B9); (0x1D4BB, 0x1D4BB); (0x1D4BD, 0x1D4C3);
   (0x1D4C5, 0x1D505); (0x1D507, 0x1D50A); (0x1D50D, 0x1D514);
   (0x1D516, 0x1D51C); (0x1D51E, 0x1D539); (0x1D53B, 0x1D53E);
   (0x1D540, 0x1D544); (0x1D546, 0x1D546); (0x1D54A, 0x1D550);
   (0x1D552, 0x1D6A5); (0x1D6A8, 0x1D6C0); (0x1D6C2, 0x1D6DA);
   (0x1D6DC, 0x1D6FA); (0x1D6FC, 0x1D714); (0x1D716, 0x1D734);
   (0x1D736, 0x1D74E); (0x1D750, 0x1D76E); (0x1D770, 0x1D788);
   (0x1D78A, 0x1D7A8); (0x1D7AA, 0x1D7C2); (0x1D7C4, 0x1D7CB);
   (0x1DF00, 0x1DF09); (0x1DF0B, 0x1DF1E); (0x1E900, 0x1E943);
   (0x1F130, 0x1F149); (0x1F150, 0x1F169); (0x1F170, 0x1F189)].

(** The case-ignorable characters. *)
Definition case_ignorable_ranges : list (char * char) :=
  [(0x27, 0x27); (0x2E, 0x2E); (0x3A, 0x3A); (0x5E, 0x5E); (0x60, 0x60);
   (0xA8, 0xA8); (0xAD, 0xAD); (0xAF, 0xAF); (0xB4, 0xB4); (0xB7, 0xB8);
   (0x2B0, 0x36F); (0x374, 0x375); (0x37A, 0x37A); (0x384, 0x385);
   (0x387, 0x387); (0x483, 0x489); (0x559, 0x559); (0x55F, 0x55F);
   (0x591, 0x5BD); (0x5BF, 0x5BF); (0x5C1, 0x5C2); (0x5C4, 0x5C5);
   (0x5C7, 0x5C7); (0x5F4, 0x5F4); (0x600, 0x605); (0x610, 0x61A);
   (0x61C, 0x61C); (0x640, 0x640); (0x64B, 0x65F); (0x670, 0x670);
   (0x6D6, 0x6DD); (0x6DF, 0x6E8); (0x6EA, 0x6ED); (0x70F, 0x70F);
   (0x711, 0x711); (0x730, 0x74A); (0x7A6, 0x7B0); (0x7EB, 0x7F5);
   (0x7FA, 0x7FA); (0x7FD, 0x7FD); (0x816, 0x82D); (0x859, 0x85B);
   (0x888, 0x888); (0x890, 0x891); (0x898, 0x89F); (0x8C9, 0x902);
   (0x93A, 0x93A); (0x93C, 0x93C); (0x941, 0x948); (0x94D, 0x94D);
   (0x951, 0x957); (0x962, 0x963); (0x971, 0x971); (0x981, 0x981);
   (0x9BC, 0x9BC); (0x9C1, 0x9C4); (0x9CD, 0x9CD); (0x9E2, 0x9E3);
   (0x9FE, 0x9FE); (0xA01, 0xA02); (0xA3C, 0xA3C); (0xA41, 0xA42);
   (0xA47, 0xA48); (0xA4B, 0xA4D); (0xA51, 0xA51); (0xA70, 0xA71);
   (0xA75, 0xA75); (0xA81, 0xA82); (0xABC, 0xABC); (0xAC1, 0xAC5);
   (0xAC7, 0xAC8); (0xACD, 0xACD); (0xAE2, 0xAE3); (0xAFA, 0xAFF);
   (0xB01, 0xB01); (0xB3C, 0xB3C); (0xB3F, 0xB3F); (0xB41, 0xB44);
   (0xB4D, 0xB4D); (0xB55, 0xB56); (0xB62, 0xB63); (0xB82, 0xB82);
   (0xBC0, 0xBC0); (0xBCD, 0xBCD); (0xC00, 0xC00); (0xC04, 0xC04);
   (0xC3C, 0xC3C); (0xC3E, 0xC40); (0xC46, 0xC48); (0xC4A, 0xC4D);
   (0xC55, 0xC56); (0xC62, 0xC63); (0xC81, 0xC81); (0xCBC, 0xCBC);
   (0xCBF, 0xCBF); (0xCC6, 0xCC6); (0xCCC, 0xCCD); (0xCE2, 0xCE3);
   (0xD00, 0xD01); (0xD3B, 0xD3C); (0xD41, 0xD44); (0xD4D, 0xD4D);
   (0xD62, 0xD63); (0xD81, 0xD81); (0xDCA, 0xDCA); (0xDD2, 0xDD4);
   (0xDD6, 0xDD6); (0xE31, 0xE31); (0xE34, 0xE3A); (0xE46, 0xE4E);
   (0xEB1, 0xEB1); (0xEB4, 0xEBC); (0xEC6, 0xEC6); (0xEC8, 0xECD);
   (0xF18, 0xF19); (0xF35, 0xF35); (0xF37, 0xF37); (0xF39, 0xF39);
   (0xF71, 0xF7E); (0xF80, 0xF84); (0xF86, 0xF87); (0xF8D, 0xF97);
   (0xF99, 0xFBC); (0xFC6, 0xFC6); (0x102D, 0x1030); (0x1032, 0x1037);
   (0x1039, 0x103A); (0x103D, 0x103E); (0x1058, 0x1059); (0x105E, 0x1060);
   (0x1071, 0x1074); (0x1082, 0x1082); (0x1085, 0x1086); (0x108D, 0x108D);
   (0x109D, 0x109D); (0x10FC, 0x10FC); (0x135D, 0x135F); (0x1712, 0x1714);
   (0x1732, 0x1733); (0x1752, 0x1753); (0x1772, 0x1773); (0x17B4, 0x17B5);
   (0x17B7, 0x17BD); (0x17C6, 0x17C6); (0x17C9, 0x17D3); (0x17D7, 0x17D7);
   (0x17DD, 0x17DD); (0x180B, 0x180F); (0x1843, 0x1843); (0x1885, 0x1886);
   (0x18A9, 0x18A9); (0x1920, 0x1922); (0x1927, 0x1928); (0x1932, 0x1932);
   (0x1939, 0x193B); (0x1A17, 0x1A18); (0x1A1B, 0x1A1B); (0x1A56, 0x1A56);
   (0x1A58, 0x1A5E); (0x1A60, 0x1A60); (0x1A62, 0x1A62); (0x1A65, 0x1A6C);
   (0x1A73, 0x1A7C); (0x1A7F, 0x1A7F); (0x1AA7, 0x1AA7); (0x1AB0, 0x1ACE);
   (0x1B00, 0x1B03); (0x1B34, 0x1B34); (0x1B36, 0x1B3A); (0x1B3C, 0x1B3C);
   (0x1B42, 0x1B42); (0x1B6B, 0x1B73); (0x1B80, 0x1B81); (0x1BA2, 0x1BA5);
   (0x1BA8, 0x1BA9); (0x1BAB, 0x1BAD); (0x1BE6, 0x1BE6); (0x1BE8, 0x1BE9);
   (0x1BED, 0x1BED); (0x1BEF, 0x1BF1); (0x1C2C, 0x1C33); (0x1C36, 0x1C37);
   (0x1C78, 0x1C7D); (0x1CD0, 0x1CD2); (0x1CD4, 0x1CE0); (0x1CE2, 0x1CE8);
   (0x1CED, 0x1CED); (0x1CF4, 0x1CF4); (0x1CF8, 0x1CF9); (0x1D2C, 0x1D6A);
   (0x1D78, 0x1D78); (0x1D9B, 0x1DFF); (0x1FBD, 0x1FBD); (0x1FBF, 0x1FC1);
   (0x1FCD, 0x1FCF); (0x1FDD, 0x1FDF); (0x1FED, 0x1FEF); (0x1FFD, 0x1FFE);
   (0x200B, 0x200F); (0x2018, 0x2019); (0x2024, 0x2024); (0x2027, 0x2027);
   (0x202A, 0x202E); (0x2060, 0x2064); (0x2066, 0x206F); (0x2071, 0x2071);
   (0x207F, 0x207F); (0x2090, 0x209C); (0x20D0, 0x20F0); (0x2C7C, 0x2C7D);
   (0x2CEF, 0x2CF1); (0x2D6F, 0x2D6F); (0x2D7F, 0x2D7F); (0x2DE0, 0x2DFF);
   (0x2E2F, 0x2E2F); (0x3005, 0x3005); (0x302A, 0x302D); (0x3031, 0x3035);
   (0x303B, 0x303B); (0x3099, 0x309E); (0x30FC, 0x30FE); (0xA015, 0xA015);
   (0xA4F8, 0xA4FD); (0xA60C, 0xA60C); (0xA66F, 0xA672); (0xA674, 0xA67D);
   (0xA67F, 0xA67F); (0xA69C, 0xA69F); (0xA6F0, 0xA6F1); (0xA700, 0xA721);
   (0xA770, 0xA770); (0xA788, 0xA78A); (0xA7F2, 0xA7F4); (0xA7F8, 0xA7F9);
   (0xA802, 0xA802); (0xA806, 0xA806); (0xA80B, 0xA80B); (0xA825, 0xA826);
   (0xA82C, 0xA82C); (0xA8C4, 0xA8C5); (0xA8E0, 0xA8F1); (0xA8FF, 0xA8FF);
   (0xA926, 0xA92D); (0xA947, 0xA951); (0xA980, 0xA982); (0xA9B3, 0xA9B3);
   (0xA9B6, 0xA9B9); (0xA9BC, 0xA9BD); (0xA9CF, 0xA9CF); (0xA9E5, 0xA9E6);
   (0xAA29, 0xAA2E); (0xAA31, 0xAA32); (0xAA35, 0xAA36); (0xAA43, 0xAA43);
   (0xAA4C, 0xAA4C); (0xAA70, 0xAA70); (0xAA7C, 0xAA7C); (0xAAB0, 0xAAB0);
   (0xAAB2, 0xAAB4); (0xAAB7, 0xAAB8); (0xAABE, 0xAABF); (0xAAC1, 0xAAC1);
   (0xAADD, 0xAADD); (0xAAEC, 0xAAED); (0xAAF3, 0xAAF4); (0xAAF6, 0xAAF6);
   (0xAB5B, 0xAB5F); (0xAB69, 0xAB6B); (0xABE5, 0xABE5); (0xABE8, 0xABE8);
   (0xABED, 0xABED); (0xFB1E, 0xFB1E); (0xFBB2, 0xFBC2); (0xFE00, 0xFE0F);
   (0xFE13, 0xFE13); (0xFE20, 0xFE2F); (0xFE52, 0xFE52); (0xFE55, 0xFE55);
   (0xFEFF, 0xFEFF); (0xFF07, 0xFF07); (0xFF0E, 0xFF0E); (0xFF1A, 0xFF1A);
   (0xFF3E, 0xFF3E); (0xFF40, 0xFF40); (0xFF70, 0xFF70); (0xFF9E, 0xFF9F);
   (0xFFE3, 0xFFE3); (0xFFF9, 0xFFFB); (0x101FD, 0x101FD);
   (0x102E0, 0x102E0); (0x10376, 0x1037A); (0x10780, 0x10785);
   (0x10787, 0x107B0); (0x107B2, 0x107BA); (0x10A01, 0x10A03);
   (0x10A05, 0x10A06); (0x10A0C, 0x10A0F); (0x10A38, 0x10A3A);
   (0x10A3F, 0x10A3F); (0x10AE5, 0x10AE6); (0x10D24, 0x10D27);
   (0x10EAB, 0x10EAC); (0x10F46, 0x10F50); (0x10F82, 0x10F85);
   (0x11001, 0x11001); (0x11038, 0x11046); (0x11070, 0x11070);
   (0x11073, 0x11074); (0x1107F, 0x11081); (0x110B3, 0x110B6);
   (0x110B9, 0x110BA); (0x110BD, 0x110BD); (0x110C2, 0x110C2);
   (0x110CD, 0x110CD); (0x11100, 0x11102); (0x11127, 0x1112B);
   (0x1112D, 0x11134); (0x11173, 0x11173); (0x11180, 0x11181);
   (0x111B6, 0x111BE); (0x111C9, 0x111CC); (0x111CF, 0x111CF);
   (0x1122F, 0x11231); (0x11234, 0x11234); (0x11236, 0x11237);
   (0x1123E, 0x1123E); (0x112DF, 0x112DF); (0x112E3, 0x112EA);
   (0x11300, 0x11301); (0x1133B, 0x1133C); (0x11340, 0x11340);
   (0x11366, 0x1136C); (0x11370, 0x11374); (0x11438, 0x1143F);
   (0x11442, 0x11444); (0x11446, 0x11446); (0x1145E, 0x1145E);
   (0x114B3, 0x114B8); (0x114BA, 0x114BA); (0x114BF, 0x114C0);
   (0x114C2, 0x114C3); (0x115B2, 0x115B5); (0x115BC, 0x115BD);
   (0x115BF, 0x115C0); (0x115DC, 0x115DD); (0x11633, 0x1163A);
   (0x1163D, 0x1163D); (0x1163F, 0x11640); (0x116AB, 0x116AB);
   (0x116AD, 0x116AD); (0x116B0, 0x116B5); (0x116B7, 0x116B7);
   (0x1171D, 0x1171F); (0x11722, 0x11725); (0x11727, 0x1172B);
   (0x1182F, 0x11837); (0x11839, 0x1183A); (0x1193B, 0x1193C);
   (0x1193E, 0x1193E); (0x11943, 0x11943); (0x119D4, 0x119D7);
   (0x119DA, 0x119DB); (0x119E0, 0x119E0); (0x11A01, 0x11A0A);
   (0x11A33, 0x11A38); (0x11A3B, 0x11A3E); (0x11A47, 0x11A47);
   (0x11A51, 0x11A56); (0x11A59, 0x11A5B); (0x11A8A, 0x11A96);
   (0x11A98, 0x11A99); (0x11C30, 0x11C36); (0x11C38, 0x11C3D);
   (0x11C3F, 0x11C3F); (0x11C92, 0x11CA7); (0x11CAA, 0x11CB0);
   (0x11CB2, 0x11CB3); (0x11CB5, 0x11CB6); (0x11D31, 0x11D36);
   (0x11D3A, 0x11D3A); (0x11D3C, 0x11D3D); (0x11D3F, 0x11D45);
   (0x11D47, 0x11D47); (0x11D90, 0x11D91); (0x11D95, 0x11D95);
   (0x11D97, 0x11D97); (0x11EF3, 0x11EF4); (0x13430, 0x13438);
   (0x16AF0, 0x16AF4); (0x16B30, 0x16B36); (0x16B40, 0x16B43);
   (0x16F4F, 0x16F4F); (0x16F8F, 0x16F9F); (0x16FE0, 0x16FE1);
   (0x16FE3, 0x16FE4); (0x1AFF0, 0x1AFF3); (0x1AFF5, 0x1AFFB);
   (0x1AFFD, 0x1AFFE); (0x1BC9D, 0x1BC9E); (0x1BCA0, 0x1BCA3);
   (0x1CF00, 0x1CF2D); (0x1CF30, 0x1CF46); (0x1D167, 0x1D169);
   (0x1D173, 0x1D182); (0x1D185, 0x1D18B); (0x1D1AA, 0x1D1AD);
   (0x1D242, 0x1D244); (0x1DA00, 0x1DA36); (0x1DA3B, 0x1DA6C);
   (0x1DA75, 0x1DA75); (0x1DA84, 0x1DA84); (0x1DA9B, 0x1DA9F);
   (0x1DAA1, 0x1DAAF); (0x1E000, 0x1E006); (0x1E008, 0x1E018);
   (0x1E01B, 0x1E021); (0x1E023, 0x1E024); (0x1E026, 0x1E02A);
   (0x1E130, 0x1E13D); (0x1E2AE, 0x1E2AE); (0x1E2EC, 0x1E2EF);
   (0x1E8D0, 0x1E8D6); (0x1E944, 0x1E94B); (0x1F3FB, 0x1F3FF);
   (0xE0001, 0xE0001); (0xE0020, 0xE007F); (0xE0100, 0xE01EF)].

(** The lower-case mapping of the characters it changes. *)
Definition lower_runs : list (char * char * N * char) :=
  [(0x41, 0x5A, 1, 0x61); (0xC0, 0xD6, 1, 0xE0); (0xD8, 0xDE, 1, 0xF8);
   (0x100, 0x12E, 2, 0x101); (0x132, 0x136, 2, 0x133);
   (0x139, 0x147, 2, 0x13A); (0x14A, 0x176, 2, 0x14B);
   (0x178, 0x178, 1, 0xFF); (0x179, 0x17D, 2, 0x17A);
   (0x181, 0x181, 1, 0x253); (0x182, 0x184, 2, 0x183);
   (0x186, 0x186, 1, 0x254); (0x187, 0x187, 1, 0x188);
   (0x189, 0x18A, 1, 0x256); (0x18B, 0x18B, 1, 0x18C);
   (0x18E, 0x18E, 1, 0x1DD); (0x18F, 0x18F, 1, 0x259);
   (0x190, 0x190, 1, 0x25B); (0x191, 0x191, 1, 0x192);
   (0x193, 0x193, 1, 0x260); (0x194, 0x194, 1, 0x263);
   (0x196, 0x196, 1, 0x269); (0x197, 0x197, 1, 0x268);
   (0x198, 0x198, 1, 0x199); (0x19C, 0x19C, 1, 0x26F);
   (0x19D, 0x19D, 1, 0x272); (0x19F, 0x19F, 1, 0x275);
   (0x1A0, 0x1A4, 2, 0x1A1); (0x1A6, 0x1A6, 1, 0x280);
   (0x1A7, 0x1A7, 1, 0x1A8); (0x1A9, 0x1A9, 1, 0x283);
   (0x1AC, 0x1AC, 1, 0x1AD); (0x1AE, 0x1AE, 1, 0x288);
   (0x1AF, 0x1AF, 1, 0x1B0); (0x1B1, 0x1B2, 1, 0x28A);
   (0x1B3, 0x1B5, 2, 0x1B4); (0x1B7, 0x1B7, 1, 0x292);
   (0x1B8, 0x1B8, 1, 0x1B9); (0x1BC, 0x1BC, 1, 0x1BD);
   (0x1C4, 0x1C4, 1, 0x1C6); (0x1C5, 0x1C5, 1, 0x1C6);
   (0x1C7, 0x1C7, 1, 0x1C9); (0x1C8, 0x1C8, 1, 0x1C9);
   (0x1CA, 0x1CA, 1, 0x1CC); (0x1CB, 0x1DB, 2, 0x1CC);
   (0x1DE, 0x1EE, 2, 0x1DF); (0x1F1, 0x1F1, 1, 0x1F3);
   (0x1F2, 0x1F4, 2, 0x1F3); (0x1F6, 0x1F6, 1, 0x195);
   (0x1F7, 0x1F7, 1, 0x1BF); (0x1F8, 0x21E, 2, 0x1F9);
   (0x220, 0x220, 1, 0x19E); (0x222, 0x232, 2, 0x223);
   (0x23A, 0x23A, 1, 0x2C65); (0x23B, 0x23B, 1, 0x23C);
   (0x23D, 0x23D, 1, 0x19A); (0x23E, 0x23E, 1, 0x2C66);
   (0x241, 0x241, 1, 0x242); (0x243, 0x243, 1, 0x180);
   (0x244, 0x244, 1, 0x289); (0x245, 0x245, 1, 0x28C);
   (0x246, 0x24E, 2, 0x247); (0x370, 0x372, 2, 0x371);
   (0x376, 0x376, 1, 0x377); (0x37F, 0x37F, 1, 0x3F3);
   (0x386, 0x386, 1, 0x3AC); (0x388, 0x38A, 1, 0x3AD);
   (0x38C, 0x38C, 1, 0x3CC); (0x38E, 0x38F, 1, 0x3CD);
   (0x391, 0x3A1, 1, 0x3B1); (0x3A3, 0x3AB, 1, 0x3C3);
   (0x3CF, 0x3CF, 1, 0x3D7); (0x3D8, 0x3EE, 2, 0x3D9);
   (0x3F4, 0x3F4, 1, 0x3B8); (0x3F7, 0x3F7, 1, 0x3F8);
   (0x3F9, 0x3F9, 1, 0x3F2); (0x3FA, 0x3FA, 1, 0x3FB);
   (0x3FD, 0x3FF, 1, 0x37B); (0x400, 0x40F, 1, 0x450);
   (0x410, 0x42F, 1, 0x430); (0x460, 0x480, 2, 0x461);
   (0x48A, 0x4BE, 2, 0x48B); (0x4C0, 0x4C0, 1, 0x4CF);
   (0x4C1, 0x4CD, 2, 0x4C2); (0x4D0, 0x52E, 2, 0x4D1);
   (0x531, 0x556, 1, 0x561); (0x10A0, 0x10C5, 1, 0x2D00);
   (0x10C7, 0x10C7, 1, 0x2D27); (0x10CD, 0x10CD, 1, 0x2D2D);
   (0x13A0, 0x13EF, 1, 0xAB70); (0x13F0, 0x13F5, 1, 0x13F8);
   (0x1C90, 0x1CBA, 1, 0x10D0); (0x1CBD, 0x1CBF, 1, 0x10FD);
   (0x1E00, 0x1E94, 2, 0x1E01); (0x1E9E, 0x1E9E, 1, 0xDF);
   (0x1EA0, 0x1EFE, 2, 0x1EA1); (0x1F08, 0x1F0F, 1, 0x1F00);
   (0x1F18, 0x1F1D, 1, 0x1F10); (0x1F28, 0x1F2F, 1, 0x1F20);
   (0x1F38, 0x1F3F, 1, 0x1F30); (0x1F48, 0x1F4D, 1, 0x1F40);
   (0x1F59, 0x1F5F, 2, 0x1F51); (0x1F68, 0x1F6F, 1, 0x1F60);
   (0x1F88, 0x1F8F, 1, 0x1F80); (0x1F98, 0x1F9F, 1, 0x1F90);
   (0x1FA8, 0x1FAF, 1, 0x1FA0); (0x1FB8, 0x1FB9, 1, 0x1FB0);
   (0x1FBA, 0x1FBB, 1, 0x1F70); (0x1FBC, 0x1FBC, 1, 0x1FB3);
   (0x1FC8, 0x1FCB, 1, 0x1F72); (0x1FCC, 0x1FCC, 1, 0x1FC3);
   (0x1FD8, 0x1FD9, 1, 0x1FD0); (0x1FDA, 0x1FDB, 1, 0x1F76);
   (0x1FE8, 0x1FE9, 1, 0x1FE0); (0x1FEA, 0x1FEB, 1, 0x1F7A);
   (0x1FEC, 0x1FEC, 1, 0x1FE5); (0x1FF8, 0x1FF9, 1, 0x1F78);
   (0x1FFA, 0x1FFB, 1, 0x1F7C); (0x1FFC, 0x1FFC, 1, 0x1FF3);
   (0x2126, 0x2126, 1, 0x3C9); (0x212A, 0x212A, 1, 0x6B);
   (0x212B, 0x212B, 1, 0xE5); (0x2132, 0x2132, 1, 0x214E);
   (0x2160, 0x216F, 1, 0x2170); (0x2183, 0x2183, 1, 0x2184);
   (0x24B6, 0x24CF, 1, 0x24D0); (0x2C00, 0x2C2F, 1, 0x2C30);
   (0x2C60, 0x2C60, 1, 0x2C61); (0x2C62, 0x2C62, 1, 0x26B);
   (0x2C63, 0x2C63, 1, 0x1D7D); (0x2C64, 0x2C64, 1, 0x27D);
   (0x2C67, 0x2C6B, 2, 0x2C68); (0x2C6D, 0x2C6D, 1, 0x251);
   (0x2C6E, 0x2C6E, 1, 0x271); (0x2C6F, 0x2C6F, 1, 0x250);
   (0x2C70, 0x2C70, 1, 0x252); (0x2C72, 0x2C72, 1, 0x2C73);
   (0x2C75, 0x2C75, 1, 0x2C76); (0x2C7E, 0x2C7F, 1, 0x23F);
   (0x2C80, 0x2CE2, 2, 0x2C81); (0x2CEB, 0x2CED, 2, 0x2CEC);
   (0x2CF2, 0x2CF2, 1, 0x2CF3); (0xA640, 0xA66C, 2, 0xA641);
   (0xA680, 0xA69A, 2, 0xA681); (0xA722, 0xA72E, 2, 0xA723);
   (0xA732, 0xA76E, 2, 0xA733); (0xA779, 0xA77B, 2, 0xA77A);
   (0xA77D, 0xA77D, 1, 0x1D79); (0xA77E, 0xA786, 2, 0xA77F);
   (0xA78B, 0xA78B, 1, 0xA78C); (0xA78D, 0xA78D, 1, 0x265);
   (0xA790, 0xA792, 2, 0xA791); (0xA796, 0xA7A8, 2, 0xA797);
   (0xA7AA, 0xA7AA, 1, 0x266); (0xA7AB, 0xA7AB, 1, 0x25C);
   (0xA7AC, 0xA7AC, 1, 0x261); (0xA7AD, 0xA7AD, 1, 0x26C);
   (0xA7AE, 0xA7AE, 1, 0x26A); (0xA7B0, 0xA7B0, 1, 0x29E);
   (0xA7B1, 0xA7B1, 1, 0x287); (0xA7B2, 0xA7B2, 1, 0x29D);
   (0xA7B3, 0xA7B3, 1, 0xAB53); (0xA7B4, 0xA7C2, 2, 0xA7B5);
   (0xA7C4, 0xA7C4, 1, 0xA794); (0xA7C5, 0xA7C5, 1, 0x282);
   (0xA7C6, 0xA7C6, 1, 0x1D8E); (0xA7C7, 0xA7C9, 2, 0xA7C8);
   (0xA7D0, 0xA7D0, 1, 0xA7D1); (0xA7D6, 0xA7D8, 2, 0xA7D7);
   (0xA7F5, 0xA7F5, 1, 0xA7F6); (0xFF21, 0xFF3A, 1, 0xFF41);
   (0x10400, 0x10427, 1, 0x10428); (0x104B0, 0x104D3, 1, 0x104D8);
   (0x10570, 0x1057A, 1, 0x10597); (0x1057C, 0x1058A, 1, 0x105A3);
   (0x1058C, 0x10592, 1, 0x105B3); (0x10594, 0x10595, 1, 0x105BB);
   (0x10C80, 0x10CB2, 1, 0x10CC0); (0x118A0, 0x118BF, 1, 0x118C0);
   (0x16E40, 0x16E5F, 1, 0x16E60); (0x1E900, 0x1E921, 1, 0x1E922)].

(** The one character whose lower case is two characters. *)
Definition lower_special : list (char * pystr) :=
  [(0x130, [0x69; 0x307])].

(** The title-case mapping of the characters it changes. *)
Definition title_runs : list (char * char * N * char) :=
  [(0x61, 0x7A, 1, 0x41); (0xB5, 0xB5, 1, 0x39C); (0xE0, 0xF6, 1, 0xC0);
   (0xF8, 0xFE, 1, 0xD8); (0xFF, 0xFF, 1, 0x178); (0x101, 0x12F, 2, 0x100);
   (0x131, 0x131, 1, 0x49); (0x133, 0x137, 2, 0x132);
   (0x13A, 0x148, 2, 0x139); (0x14B, 0x177, 2, 0x14A);
   (0x17A, 0x17E, 2, 0x179); (0x17F, 0x17F, 1, 0x53);
   (0x180, 0x180, 1, 0x243); (0x183, 0x185, 2, 0x182);
   (0x188, 0x188, 1, 0x187); (0x18C, 0x18C, 1, 0x18B);
   (0x192, 0x192, 1, 0x191); (0x195, 0x195, 1, 0x1F6);
   (0x199, 0x199, 1, 0x198); (0x19A, 0x19A, 1, 0x23D);
   (0x19E, 0x19E, 1, 0x220); (0x1A1, 0x1A5, 2, 0x1A0);
   (0x1A8, 0x1A8, 1, 0x1A7); (0x1AD, 0x1AD, 1, 0x1AC);
   (0x1B0, 0x1B0, 1, 0x1AF); (0x1B4, 0x1B6, 2, 0x1B3);
   (0x1B9, 0x1B9, 1, 0x1B8); (0x1BD, 0x1BD, 1, 0x1BC);
   (0x1BF, 0x1BF, 1, 0x1F7); (0x1C4, 0x1C4, 1, 0x1C5);
   (0x1C6, 0x1C6, 1, 0x1C5); (0x1C7, 0x1C7, 1, 0x1C8);
   (0x1C9, 0x1C9, 1, 0x1C8); (0x1CA, 0x1CA, 1, 0x1CB);
   (0x1CC, 0x1DC, 2, 0x1CB); (0x1DD, 0x1DD, 1, 0x18E);
   (0x1DF, 0x1EF, 2, 0x1DE); (0x1F1, 0x1F1, 1, 0x1F2);
   (0x1F3, 0x1F5, 2, 0x1F2); (0x1F9, 0x21F, 2, 0x1F8);
   (0x223, 0x233, 2, 0x222); (0x23C, 0x23C, 1, 0x23B);
   (0x23F, 0x240, 1, 0x2C7E); (0x242, 0x242, 1, 0x241);
   (0x247, 0x24F, 2, 0x246); (0x250, 0x250, 1, 0x2C6F);
   (0x251, 0x251, 1, 0x2C6D); (0x252, 0x252, 1, 0x2C70);
   (0x253, 0x253, 1, 0x181); (0x254, 0x254, 1, 0x186);
   (0x256, 0x257, 1, 0x189); (0x259, 0x259, 1, 0x18F);
   (0x25B, 0x25B, 1, 0x190); (0x25C, 0x25C, 1, 0xA7AB);
   (0x260, 0x260, 1, 0x193); (0x261, 0x261, 1, 0xA7AC);
   (0x263, 0x263, 1, 0x194); (0x265, 0x265, 1, 0xA78D);
   (0x266, 0x266, 1, 0xA7AA); (0x268, 0x268, 1, 0x197);
   (0x269, 0x269, 1, 0x196); (0x26A, 0x26A, 1, 0xA7AE);
   (0x26B, 0x26B, 1, 0x2C62); (0x26C, 0x26C, 1, 0xA7AD);
   (0x26F, 0x26F, 1, 0x19C); (0x271, 0x271, 1, 0x2C6E);
   (0x272, 0x272, 1, 0x19D); (0x275, 0x275, 1, 0x19F);
   (0x27D, 0x27D, 1, 0x2C64); (0x280, 0x280, 1, 0x1A6);
   (0x282, 0x282, 1, 0xA7C5); (0x283, 0x283, 1, 0x1A9);
   (0x287, 0x287, 1, 0xA7B1); (0x288, 0x288, 1, 0x1AE);
   (0x289, 0x289, 1, 0x244); (0x28A, 0x28B, 1, 0x1B1);
   (0x28C, 0x28C, 1, 0x245); (0x292, 0x292, 1, 0x1B7);
   (0x29D, 0x29D, 1, 0xA7B2); (0x29E, 0x29E, 1, 0xA7B0);
   (0x345, 0x345, 1, 0x399); (0x371, 0x373, 2, 0x370);
   (0x377, 0x377, 1, 0x376); (0x37B, 0x37D, 1, 0x3FD);
   (0x3AC, 0x3AC, 1, 0x386); (0x3AD, 0x3AF, 1, 0x388);
   (0x3B1, 0x3C1, 1, 0x391); (0x3C2, 0x3C2, 1, 0x3A3);
   (0x3C3, 0x3CB, 1, 0x3A3); (0x3CC, 0x3CC, 1, 0x38C);
   (0x3CD, 0x3CE, 1, 0x38E); (0x3D0, 0x3D0, 1, 0x392);
   (0x3D1, 0x3D1, 1, 0x398); (0x3D5, 0x3D5, 1, 0x3A6);
   (0x3D6, 0x3D6, 1, 0x3A0); (0x3D7, 0x3D7, 1, 0x3CF);
   (0x3D9, 0x3EF, 2, 0x3D8); (0x3F0, 0x3F0, 1, 0x39A);
   (0x3F1, 0x3F1, 1, 0x3A1); (0x3F2, 0x3F2, 1, 0x3F9);
   (0x3F3, 0x3F3, 1, 0x37F); (0x3F5, 0x3F5, 1, 0x395);
   (0x3F8, 0x3F8, 1, 0x3F7); (0x3FB, 0x3FB, 1, 0x3FA);
   (0x430, 0x44F, 1, 0x410); (0x450, 0x45F, 1, 0x400);
   (0x461, 0x481, 2, 0x460); (0x48B, 0x4BF, 2, 0x48A);
   (0x4C2, 0x4CE, 2, 0x4C1); (0x4CF, 0x4CF, 1, 0x4C0);
   (0x4D1, 0x52F, 2, 0x4D0); (0x561, 0x586, 1, 0x531);
   (0x13F8, 0x13FD, 1, 0x13F0); (0x1C80, 0x1C80, 1, 0x412);
   (0x1C81, 0x1C81, 1, 0x414); (0x1C82, 0x1C82, 1, 0x41E);
   (0x1C83, 0x1C84, 1, 0x421); (0x1C85, 0x1C85, 1, 0x422);
   (0x1C86, 0x1C86, 1, 0x42A); (0x1C87, 0x1C87, 1, 0x462);
   (0x1C88, 0x1C88, 1, 0xA64A); (0x1D79, 0x1D79, 1, 0xA77D);
   (0x1D7D, 0x1D7D, 1, 0x2C63); (0x1D8E, 0x1D8E, 1, 0xA7C6);
   (0x1E01, 0x1E95, 2, 0x1E00); (0x1E9B, 0x1E9B, 1, 0x1E60);
   (0x1EA1, 0x1EFF, 2, 0x1EA0); (0x1F00, 0x1F07, 1, 0x1F08);
   (0x1F10, 0x1F15, 1, 0x1F18); (0x1F20, 0x1F27, 1, 0x1F28);
   (0x1F30, 0x1F37, 1, 0x1F38); (0x1F40, 0x1F45, 1, 0x1F48);
   (0x1F51, 0x1F57, 2, 0x1F59); (0x1F60, 0x1F67, 1, 0x1F68);
   (0x1F70, 0x1F71, 1, 0x1FBA); (0x1F72, 0x1F75, 1, 0x1FC8);
   (0x1F76, 0x1F77, 1, 0x1FDA); (0x1F78, 0x1F79, 1, 0x1FF8);
   (0x1F7A, 0x1F7B, 1, 0x1FEA); (0x1F7C, 0x1F7D, 1, 0x1FFA);
   (0x1F80, 0x1F87, 1, 0x1F88); (0x1F90, 0x1F97, 1, 0x1F98);
   (0x1FA0, 0x1FA7, 1, 0x1FA8); (0x1FB0, 0x1FB1, 1, 0x1FB8);
   (0x1FB3, 0x1FB3, 1, 0x1FBC); (0x1FBE, 0x1FBE, 1, 0x399);
   (0x1FC3, 0x1FC3, 1, 0x1FCC); (0x1FD0, 0x1FD1, 1, 0x1FD8);
   (0x1FE0, 0x1FE1, 1, 0x1FE8); (0x1FE5, 0x1FE5, 1, 0x1FEC);
   (0x1FF3, 0x1FF3, 1, 0x1FFC); (0x214E, 0x214E, 1, 0x2132);
   (0x2170, 0x217F, 1, 0x2160); (0x2184, 0x2184, 1, 0x2183);
   (0x24D0, 0x24E9, 1, 0x24B6); (0x2C30, 0x2C5F, 1, 0x2C00);
   (0x2C61, 0x2C61, 1, 0x2C60); (0x2C65, 0x2C65, 1, 0x23A);
   (0x2C66, 0x2C66, 1, 0x23E); (0x2C68, 0x2C6C, 2, 0x2C67);
   (0x2C73, 0x2C73, 1, 0x2C72); (0x2C76, 0x2C76, 1, 0x2C75);
   (0x2C81, 0x2CE3, 2, 0x2C80); (0x2CEC, 0x2CEE, 2, 0x2CEB);
   (0x2CF3, 0x2CF3, 1, 0x2CF2); (0x2D00, 0x2D25, 1, 0x10A0);
   (0x2D27, 0x2D27, 1, 0x10C7); (0x2D2D, 0x2D2D, 1, 0x10CD);
   (0xA641, 0xA66D, 2, 0xA640); (0xA681, 0xA69B, 2, 0xA680);
   (0xA723, 0xA72F, 2, 0xA722); (0xA733, 0xA76F, 2, 0xA732);
   (0xA77A, 0xA77C, 2, 0xA779); (0xA77F, 0xA787, 2, 0xA77E);
   (0xA78C, 0xA78C, 1, 0xA78B); (0xA791, 0xA793, 2, 0xA790);
   (0xA794, 0xA794, 1, 0xA7C4); (0xA797, 0xA7A9, 2, 0xA796);
   (0xA7B5, 0xA7C3, 2, 0xA7B4); (0xA7C8, 0xA7CA, 2, 0xA7C7);
   (0xA7D1, 0xA7D1, 1, 0xA7D0); (0xA7D7, 0xA7D9, 2, 0xA7D6);
   (0xA7F6, 0xA7F6, 1, 0xA7F5); (0xAB53, 0xAB53, 1, 0xA7B3);
   (0xAB70, 0xABBF, 1, 0x13A0); (0xFF41, 0xFF5A, 1, 0xFF21);
   (0x10428, 0x1044F, 1, 0x10400); (0x104D8, 0x104FB, 1, 0x104B0);
   (0x10597, 0x105A1, 1, 0x10570); (0x105A3, 0x105B1, 1, 0x1057C);
   (0x105B3, 0x105B9, 1, 0x1058C); (0x105BB, 0x105BC, 1, 0x10594);
   (0x10CC0, 0x10CF2, 1, 0x10C80); (0x118C0, 0x118DF, 1, 0x118A0);
   (0x16E60, 0x16E7F, 1, 0x16E40); (0x1E922, 0x1E943, 1, 0x1E900)].

(** The characters whose title case is more than one character. *)
Definition title_special : list (char * pystr) :=
  [(0xDF, [0x53; 0x73]); (0x149, [0x2BC; 0x4E]); (0x1F0, [0x4A; 0x30C]);
   (0x390, [0x399; 0x308; 0x301]); (0x3B0, [0x3A5; 0x308; 0x301]);
   (0x587, [0x535; 0x582]); (0x1E96, [0x48; 0x331]); (0x1E97, [0x54; 0x308]);
   (0x1E98, [0x57; 0x30A]); (0x1E99, [0x59; 0x30A]); (0x1E9A, [0x41; 0x2BE]);
   (0x1F50, [0x3A5; 0x313]); (0x1F52, [0x3A5; 0x313; 0x300]);
   (0x1F54, [0x3A5; 0x313; 0x301]); (0x1F56, [0x3A5; 0x313; 0x342]);
   (0x1FB2, [0x1FBA; 0x345]); (0x1FB4, [0x386; 0x345]);
   (0x1FB6, [0x391; 0x342]); (0x1FB7, [0x391; 0x342; 0x345]);
   (0x1FC2, [0x1FCA; 0x345]); (0x1FC4, [0x389; 0x345]);
   (0x1FC6, [0x397; 0x342]); (0x1FC7, [0x397; 0x342; 0x345]);
   (0x1FD2, [0x399; 0x308; 0x300]); (0x1FD3, [0x399; 0x308; 0x301]);
   (0x1FD6, [0x399; 0x342]); (0x1FD7, [0x399; 0x308; 0x342]);
   (0x1FE2, [0x3A5; 0x308; 0x300]); (0x1FE3, [0x3A5; 0x308; 0x301]);
   (0x1FE4, [0x3A1; 0x313]); (0x1FE6, [0x3A5; 0x342]);
   (0x1FE7, [0x3A5; 0x308; 0x342]); (0x1FF2, [0x1FFA; 0x345]);
   (0x1FF4, [0x38F; 0x345]); (0x1FF6, [0x3A9; 0x342]);
   (0x1FF7, [0x3A9; 0x342; 0x345]); (0xFB00, [0x46; 0x66]);
   (0xFB01, [0x46; 0x69]); (0xFB02, [0x46; 0x6C]);
   (0xFB03, [0x46; 0x66; 0x69]); (0xFB04, [0x46; 0x66; 0x6C]);
   (0xFB05, [0x53; 0x74]); (0xFB06, [0x53; 0x74]); (0xFB13, [0x544; 0x576]);
   (0xFB14, [0x544; 0x565]); (0xFB15, [0x544; 0x56B]);
   (0xFB16, [0x54E; 0x576]); (0xFB17, [0x544; 0x56D])].

Definition in_ranges (ranges : list (char * char)) (c : char) : bool :=
  existsb (fun r => between (fst r) (snd r) c) ranges.

Definition iscased (c : char) : bool := in_ranges cased_ranges c.

Definition iscase_ignorable (c : char) : bool :=
  in_ranges case_ignorable_ranges c.

Fixpoint map_in (runs : list (char * char * N * char)) (c : char)
  : option char :=
  match runs with
  | [] => None
  | (lo, hi, step, to) :: runs' =>
      if between lo hi c && ((c - lo) mod step =? 0) then Some (to + (c - lo))
      else map_in runs' c
  end.

Fixpoint special_in (specials : list (char * pystr)) (c : char)
  : option pystr :=
  match specials with
  | [] => None
  | (x, s) :: specials' => if c =? x then Some s else special_in specials' c
  end.

(** The full mapping of one character: what the tables give, or the
    character itself. *)
Definition map_full (runs : list (char * char * N * char))
    (specials : list (char * pystr)) (c : char) : pystr :=
  match special_in specials c with
  | Some s => s
  | None => match map_in runs c with
            | Some c' => [c']
            | None => [c]
            end
  end.

Definition tolower_full (c : char) : pystr :=
  map_full lower_runs lower_special c.

Definition totitle_full (c : char) : pystr :=
  map_full title_runs title_special c.

(** The first character of [rest] that is not case-ignorable is cased. *)
Definition cased_ahead (rest : pystr) : bool :=
  match drop_while iscase_ignorable rest with
  | [] => false
  | c :: _ => iscased c
  end.

(** The lower case of [c] inside a string.  A capital sigma (U+03A3) is a
    final sigma (U+03C2) when a cased character comes before it, and none
    after it, case-ignorable characters apart; [after_cased] tells the
    first and [rest] is what follows [c]. *)
Definition lower_at (after_cased : bool) (c : char) (rest : pystr) : pystr :=
  if c =? 0x3A3 then
    [if after_cased && negb (cased_ahead rest) then 0x3C2 else 0x3C3]
  else tolower_full c.

(** [s.title()]: a character is put in lower case when the one before it is
    cased, and in title case otherwise.  [prev_cased] tells whether the
    previous character is cased, [after_cased] whether the last character
    that is not case-ignorable is. *)
Fixpoint title_from (prev_cased after_cased : bool) (s : pystr) : pystr :=
  match s with
  | [] => []
  | c :: s' =>
      (if prev_cased then lower_at after_cased c s' else totitle_full c)
      ++ title_from (iscased c)
           (if iscase_ignorable c then after_cased else iscased c) s'
  end.

Definition title (s : pystr) : pystr := title_from false false s.

(** *** Regular expressions

    The patterns of the source as data, a matcher by derivatives, and the
    language of a pattern as an inductive relation. *)

(** One item of a bracketed class. *)
Inductive citem :=
| CChar (c : char)           (* a literal character *)
| CRange (lo hi : char)      (* [lo-hi] *)
| CSpace                     (* \s *)
| CDigit.                    (* \d *)

Inductive cclass :=
| Any                        (* every character *)
| Dot                        (* [.]: every character but the line feed *)
| OneOf (items : list citem) (* [...] *)
| NoneOf (items : list citem). (* [^...] *)

Definition item_matches (i : citem) (c : char) : bool :=
  match i with
  | CChar x => c =? x
  | CRange lo hi => between lo hi c
  | CSpace => isspace c
  | CDigit => isdecimal c
  end.

Definition LF : char := 0x0A.

Definition class_matches (k : cclass) (c : char) : bool :=
  match k with
  | Any => true
  | Dot => negb (c =? LF)
  | OneOf items => existsb (fun i => item_matches i c) items
  | NoneOf items => negb (existsb (fun i => item_matches i c) items)
  end.

Inductive re :=
| Void
| Eps
| Chr (k : cclass)
| Cat (r1 r2 : re)
| Alt (r1 r2 : re)
| Star (r : re).

(** [r+], [r{n,}], [r?] and [r{m,m+k}]. *)
Definition plus (r : re) : re := Cat r (Star r).

Fixpoint at_least (n : nat) (r : re) : re :=
  match n with
  | O => Star r
  | S n' => Cat r (at_least n' r)
  end.

Definition opt (r : re) : re := Alt Eps r.

Fixpoint at_most (k : nat) (r : re) : re :=
  match k with
  | O => Eps
  | S k' => opt (Cat r (at_most k' r))
  end.

Fixpoint from_to (m k : nat) (r : re) : re :=
  match m with
  | O => at_most k r
  | S m' => Cat r (from_to m' k r)
  end.

Inductive matches : re -> pystr -> Prop :=
| MEps : matches Eps []
| MChr k c : class_matches k c = true -> matches (Chr k) [c]
| MCat r1 r2 s1 s2 :
    matches r1 s1 -> matches r2 s2 -> matches (Cat r1 r2) (s1 ++ s2)
| MAltL r1 r2 s : matches r1 s -> matches (Alt r1 r2) s
| MAltR r1 r2 s : matches r2 s -> matches (Alt r1 r2) s
| MStarNil r : matches (Star r) []
| MStarApp r s1 s2 :
    matches r s1 -> matches (Star r) s2 -> matches (Star r) (s1 ++ s2).

Fixpoint nullable (r : re) : bool :=
  match r with
  | Void => false
  | Eps => true
  | Chr _ => false
  | Cat r1 r2 => nullable r1 && nullable r2
  | Alt r1 r2 => nullable r1 || nullable r2
  | Star _ => true
  end.

(** Constructors that drop the dead branches a derivative leaves behind. *)
Definition cat (r1 r2 : re) : re :=
  match r1 with
  | Void => Void
  | Eps => r2
  | _ => match r2 with Void => Void | _ => Cat r1 r2 end
  end.

Definition alt (r1 r2 : re) : re :=
  match r1 with
  | Void => r2
  | _ => match r2 with Void => r1 | _ => Alt r1 r2 end
  end.

Fixpoint deriv (c : char) (r : re) : re :=
  match r with
  | Void => Void
  | Eps => Void
  | Chr k => if class_matches k c then Eps else Void
  | Cat r1 r2 =>
      if nullable r1 then alt (cat (deriv c r1) r2) (deriv c r2)
      else cat (deriv c r1) r2
  | Alt r1 r2 => alt (deriv c r1) (deriv c r2)
  | Star r1 => cat (deriv c r1) (Star r1)
  end.

(** The whole of [s] is in the language of [r]. *)
Fixpoint fullmatch (r : re) (s : pystr) : bool :=
  match s with
  | [] => nullable r
  | c :: s' => fullmatch (deriv c r) s'
  end.

(** [$] as the last thing of a pattern: the end of the string, or the line
    feed that ends the string. *)
Definition dollar : re := Alt Eps (Chr (OneOf [CChar LF])).

(** [re.compile("^(?=a1)...(?=an)body$").match(s)] finds a match: every
    lookahead matches some prefix of [s], and [body] matches [s] up to [$]. *)
Definition anchored_match (aheads : list re) (body : re) (s : pystr) : bool :=
  forallb (fun a => fullmatch (Cat a (Star (Chr Any))) s) aheads
  && fullmatch (Cat body dollar) s.

(** [re.search("[k]", s)] finds a match. *)
Definition search_class (k : cclass) (s : pystr) : bool :=
  existsb (class_matches k) s.

(** [re.sub("[k]", repl, s)] *)
Definition sub_class (k : cclass) (repl : pystr) (s : pystr) : pystr :=
  flat_map (fun c => if class_matches k c then repl else [c]) s.

(** Applied to a value: the [re] functions raise [TypeError] on anything
    but a string. *)
Definition on_str {A} (f : pystr -> A) (v : value) : result A :=
  match v with
  | VStr s => Ok (f s)
  | _ => Raise TypeError
  end.

(** *** [int(v)] *)

(** The characters [int] skips at both ends of a string: the Unicode
    whitespace except the four ASCII separators U+001C to U+001F. *)
Definition int_space (c : char) : bool :=
  isspace c && negb (between 0x1C 0x1F c).

(** The digits of a literal, with single underscores allowed between
    digits.  [acc] is the value read so far, [n] the number of digits read
    and [sep] tells whether the previous character was not a digit. *)
Fixpoint int_digits (acc : Z) (n : nat) (sep : bool) (s : pystr)
  : option (Z * nat) :=
  match s with
  | [] => if sep then None else Some (acc, n)
  | c :: s' =>
      if c =? 0x5F then
        if sep then None else int_digits acc n true s'
      else
        match decimal c with
        | Some d => int_digits (10 * acc + d) (S n) false s'
        | None => None
        end
  end.

(** The default of [sys.get_int_max_str_digits()]. *)
Definition int_max_str_digits : nat := 4300.

Definition int_of_str (s : pystr) : option Z :=
  let t := rev (drop_while int_space (rev (drop_while int_space s))) in
  let '(neg, ds) :=
    match t with
    | c :: t' => if c =? 0x2D then (true, t')
                 else if c =? 0x2B then (false, t') else (false, t)
    | [] => (false, t)
    end in
  match int_digits 0 0 true ds with
  | Some (z, n) =>
      if (n <=? int_max_str_digits)%nat
      then Some (if neg then (- z)%Z else z) else None
  | None => None
  end.

(** [int(x)] on a float: the number without its fractional part; an
    infinity is an [OverflowError] and a NaN a [ValueError]. *)
Definition int_of_float (f : spec_float) : result Z :=
  match f with
  | S754_zero _ => Ok 0%Z
  | S754_finite s m e =>
      let n := Z.shiftl (Z.pos m) e in
      Ok (if s then (- n)%Z else n)
  | S754_infinity _ => Raise OverflowError
  | S754_nan => Raise ValueError
  end.

Definition int (v : value) : result Z :=
  match v with
  | VNone => Raise TypeError
  | VInt z => Ok z
  | VFloat f => int_of_float f
  | VStr s => match int_of_str s with
              | Some z => Ok z
              | None => Raise ValueError
              end
  end.

(** [str(n)] for a non-negative integer, as an f-string formats it. *)
Fixpoint digits_of (fuel : nat) (n : N) (acc : pystr) : pystr :=
  match fuel with
  | O => acc
  | S fuel' =>
      let acc' := (0x30 + n mod 10) :: acc in
      if n <? 10 then acc' else digits_of fuel' (n / 10) acc'
  end.

Definition str_of_N (n : N) : pystr := digits_of (S (N.to_nat (N.log2 n))) n [].

End Py.

Import Py.

(** A character of the source as a code point. *)
Definition chr (a : ascii) : char := N_of_ascii a.
Arguments chr a%_char.

(** ** Methods as state-passing programs

    A method runs on the instance's attributes [S]; it returns a value or
    raises, and leaves the attributes as they were at that point. *)

Definition M (S A : Type) : Type := S -> result A * S.

Definition ret {S A} (a : A) : M S A := fun st => (Ok a, st).

Definition bind {S A B} (m : M S A) (k : A -> M S B) : M S B :=
  fun st =>
    match m st with
    | (Ok a, st') => k a st'
    | (Raise e, st') => (Raise e, st')
    end.

(** An expression that may raise, evaluated inside a method. *)
Definition eval {S A} (r : result A) : M S A := fun st => (r, st).

Definition get {S} : M S S := fun st => (Ok st, st).
Definition put {S} (st : S) : M S unit := fun _ => (Ok tt, st).

Notation "'do' x <- m ; k" := (bind m (fun x => k))
  (at level 10, x name, m at level 100, k at level 200,
   format "'[v' 'do'  x  <-  m ; '/' k ']'").
Notation "'run' m ; k" := (bind m (fun _ => k))
  (at level 10, m at level 100, k at level 200,
   format "'[v' 'run'  m ; '/' k ']'").

(** A Python [dict] with string keys and values, in insertion order:
    assigning to a key that is present keeps its position. *)
Definition dict := list (pystr * pystr).

Fixpoint dict_set (k v : pystr) (d : dict) : dict :=
  match d with
  | [] => [(k, v)]
  | (k', v') :: d' =>
      if bool_decide (k' = k) then (k, v) :: d' else (k', v') :: dict_set k v d'
  end.

(** [data.get(key, '')] and [data.get(key)] on the input mapping. *)
Definition get_or_empty (data : gmap pystr value) (key : pystr) : value :=
  default (VStr []) (data !! key).

Definition get_or_none (data : gmap pystr value) (key : pystr) : value :=
  default VNone (data !! key).

(** ** server_validation.py *)

Module RegistrationValidator.

(** The instance: [self.errors]. *)
Record self := { errors : dict }.

Definition set_error (field message : pystr) : M self unit :=
  fun st => (Ok tt, {| errors := dict_set field message (errors st) |}).

(** [^[^\s@]+@[^\s@]+\.[^\s@]+$], without its anchors. *)
Definition EMAIL_REGEX : re :=
  let part := plus (Chr (NoneOf [CSpace; CChar (chr "@")])) in
  Cat part (Cat (Chr (OneOf [CChar (chr "@")]))
    (Cat part (Cat (Chr (OneOf [CChar (chr ".")])) part))).

(** The class [[A-Za-z\d@$!%*?&#]] of PASSWORD_REGEX. *)
Definition password_chars : cclass :=
  OneOf [CRange (chr "A") (chr "Z"); CRange (chr "a") (chr "z"); CDigit;
         CChar (chr "@"); CChar (chr "$"); CChar (chr "!"); CChar (chr "%");
         CChar (chr "*"); CChar (chr "?"); CChar (chr "&"); CChar (chr "#")].

(** The lookaheads [(?=.*[a-z])(?=.*[A-Z])(?=.*\d)(?=.*[@$!%*?&#])]. *)
Definition PASSWORD_REGEX_aheads : list re :=
  [Cat (Star (Chr Dot)) (Chr (OneOf [CRange (chr "a") (chr "z")]));
   Cat (Star (Chr Dot)) (Chr (OneOf [CRange (chr "A") (chr "Z")]));
   Cat (Star (Chr Dot)) (Chr (OneOf [CDigit]));
   Cat (Star (Chr Dot))
     (Chr (OneOf [CChar (chr "@"); CChar (chr "$"); CChar (chr "!");
                  CChar (chr "%"); CChar (chr "*"); CChar (chr "?");
                  CChar (chr "&"); CChar (chr "#")]))].

(** The body [[A-Za-z\d@$!%*?&#]{8,}]. *)
Definition PASSWORD_REGEX_body : re := at_least 8 (Chr password_chars).

(** The pattern [^[a-zA-Z '-]+$] of [validate_name], without its anchors. *)
Definition NAME_REGEX : re :=
  plus (Chr (OneOf [CRange (chr "a") (chr "z"); CRange (chr "A") (chr "Z");
                    CChar (chr " "); CChar (chr "'"); CChar (chr "-")])).

(** [value.strip()]: only a string has the method. *)
Definition attr_strip (v : value) : result pystr :=
  match v with
  | VStr s => Ok (strip s)
  | _ => Raise AttributeError
  end.

(** [f"{field_name.replace('_', ' ').title()}"] *)
Definition label (field_name : pystr) : pystr :=
  title (replace (chr "_") (lit " ") field_name).

Definition validate_required (field_name : pystr) (v : value) : M self bool :=
  (* not value or not value.strip() *)
  do blank <- (if negb (truthy v) then ret true
               else do s <- eval (attr_strip v);
                    ret (negb (truthy (VStr s))));
  if blank : bool then
    run set_error field_name (label field_name ++ lit " is required");
    ret false
  else ret true.

Definition validate_email (email : value) : M self bool :=
  do present <- validate_required (lit "email") email;
  if negb present then ret false else
  do found <- eval (on_str (anchored_match [] EMAIL_REGEX) email);
  if negb found then
    run set_error (lit "email") (lit "Please enter a valid email address");
    ret false
  else
  do n <- eval (len email);
  if (n >? 254)%Z then
    run set_error (lit "email") (lit "Email address is too long");
    ret false
  else ret true.

Definition validate_password (password : value) : M self bool :=
  do present <- validate_required (lit "password") password;
  if negb present then ret false else
  do n <- eval (len password);
  if (n <? 8)%Z then
    run set_error (lit "password")
          (lit "Password must be at least 8 characters long");
    ret false
  else
  do n <- eval (len password);
  if (n >? 128)%Z then
    run set_error (lit "password")
          (lit "Password is too long (max 128 characters)");
    ret false
  else
  do found <- eval (on_str (anchored_match PASSWORD_REGEX_aheads
                              PASSWORD_REGEX_body) password);
  if negb found then
    run set_error (lit "password")
          (lit "Password must contain at least one uppercase letter, "
           ++ lit "one lowercase letter, one digit, and one special character (@$!%*?&#)");
    ret false
  else ret true.

Definition validate_password_match (password confirm_password : value)
  : M self bool :=
  do present <- validate_required (lit "confirm_password") confirm_password;
  if negb present then ret false else
  if negb (value_eqb password confirm_password) then
    run set_error (lit "confirm_password") (lit "Passwords do not match");
    ret false
  else ret true.

Definition validate_name (field_name : pystr) (v : value) : M self bool :=
  do present <- validate_required field_name v;
  if negb present then ret false else
  do s <- eval (attr_strip v);
  if (Z.of_nat (length s) <? 2)%Z then
    run set_error field_name
          (label field_name ++ lit " must be at least 2 characters");
    ret false
  else
  do n <- eval (len v);
  if (n >? 50)%Z then
    run set_error field_name
          (label field_name ++ lit " is too long (max 50 characters)");
    ret false
  else
  do found <- eval (on_str (anchored_match [] NAME_REGEX) v);
  if negb found then
    run set_error field_name
          (label field_name ++ lit " can only contain letters, "
           ++ lit "spaces, hyphens, and apostrophes");
    ret false
  else ret true.

(** The method returns the dict the instance holds; the next full
    validation binds a new one, so a dict already returned is not changed
    by it. *)
Definition validate_registration (data : gmap pystr value)
  : M self (bool * dict) :=
  run put {| errors := [] |};
  let first_name := get_or_empty data (lit "first_name") in
  let last_name := get_or_empty data (lit "last_name") in
  let email := get_or_empty data (lit "email") in
  let password := get_or_empty data (lit "password") in
  let confirm_password := get_or_empty data (lit "confirm_password") in
  do first_name_valid <- validate_name (lit "first_name") first_name;
  do last_name_valid <- validate_name (lit "last_name") last_name;
  do email_valid <- validate_email email;
  do password_valid <- validate_password password;
  do password_match_valid <- validate_password_match password confirm_password;
  let is_valid :=
    first_name_valid && last_name_valid && email_valid && password_valid
    && password_match_valid in
  do st <- get;
  ret (is_valid, errors st).

(** The class [[\x00-\x1F\x7F]] of [sanitize_input]. *)
Definition control_chars : cclass := OneOf [CRange 0x00 0x1F; CChar 0x7F].

(** [sanitize_input] does not touch the instance. *)
Definition sanitize_input (v : value) : result pystr :=
  if negb (truthy v) then Ok []
  else
    match on_str (sub_class control_chars []) v with
    | Ok sanitized =>
        let sanitized := join (lit " ") (split sanitized) in
        Ok (strip sanitized)
    | Raise e => Raise e
    end.

(** A new instance, as [RegistrationValidator()] builds it. *)
Definition new : self := {| errors := [] |}.

(** The module-level [validate_registration_data]. *)
Definition validate_registration_data (data : gmap pystr value)
  : result (bool * dict) :=
  fst (validate_registration data new).

End RegistrationValidator.

(** ** forms/registration_form.py *)

Module RegistrationForm.

(** The instance: [self.errors] and [self.data]. *)
Record self := { errors : list pystr; data : gmap pystr value }.

(** [self.errors.append(message)] *)
Definition append_error (message : pystr) : M self unit :=
  fun st => (Ok tt, {| errors := errors st ++ [message]; data := data st |}).

Definition alnum : list citem :=
  [CRange (chr "a") (chr "z"); CRange (chr "A") (chr "Z");
   CRange (chr "0") (chr "9")].

(** [^[a-zA-Z0-9_]{3,20}$], without its anchors. *)
Definition USERNAME_PATTERN : re :=
  from_to 3 17 (Chr (OneOf (alnum ++ [CChar (chr "_")]))).

(** [^[a-zA-Z0-9._%+-]+@[a-zA-Z0-9.-]+\.[a-zA-Z]{2,}$], without its anchors. *)
Definition EMAIL_PATTERN : re :=
  Cat (plus (Chr (OneOf (alnum ++ [CChar (chr "."); CChar (chr "_");
                                   CChar (chr "%"); CChar (chr "+");
                                   CChar (chr "-")]))))
    (Cat (Chr (OneOf [CChar (chr "@")]))
      (Cat (plus (Chr (OneOf (alnum ++ [CChar (chr "."); CChar (chr "-")]))))
        (Cat (Chr (OneOf [CChar (chr ".")]))
          (at_least 2 (Chr (OneOf [CRange (chr "a") (chr "z");
                                   CRange (chr "A") (chr "Z")])))))).

Definition PASSWORD_MIN_LENGTH : Z := 8.

(** [^[\d\s\-\+\(\)]{10,}$], without its anchors. *)
Definition PHONE_PATTERN : re :=
  at_least 10 (Chr (OneOf [CDigit; CSpace; CChar (chr "-"); CChar (chr "+");
                           CChar (chr "("); CChar (chr ")")])).

Definition MIN_AGE : Z := 13.

(** The classes searched for by [validate_password]: [[A-Z]], [[a-z]], [\d]
    and the bracketed list of twenty punctuation marks (the double quote,
    code point 0x22, among them). *)
Definition upper_class : cclass := OneOf [CRange (chr "A") (chr "Z")].
Definition lower_class : cclass := OneOf [CRange (chr "a") (chr "z")].
Definition digit_class : cclass := OneOf [CDigit].
Definition special_class : cclass :=
  OneOf (map CChar
    [chr "!"; chr "@"; chr "#"; chr "$"; chr "%"; chr "^"; chr "&"; chr "*";
     chr "("; chr ")"; chr ","; chr "."; chr "?"; 0x22; chr ":"; chr "{";
     chr "}"; chr "|"; chr "<"; chr ">"]).

Definition validate_username (username : value) : M self bool :=
  if negb (truthy username) then
    run append_error (lit "Username is required");
    ret false
  else
  do found <- eval (on_str (anchored_match [] USERNAME_PATTERN) username);
  if negb found then
    run append_error
          (lit "Username must be 3-20 characters long and contain only "
           ++ lit "letters, numbers, and underscores");
    ret false
  else ret true.

Definition validate_email (email : value) : M self bool :=
  if negb (truthy email) then
    run append_error (lit "Email is required");
    ret false
  else
  do found <- eval (on_str (anchored_match [] EMAIL_PATTERN) email);
  if negb found then
    run append_error (lit "Invalid email format");
    ret false
  else ret true.

Definition validate_password (password : value) : M self bool :=
  if negb (truthy password) then
    run append_error (lit "Password is required");
    ret false
  else
  do n <- eval (len password);
  if (n <? PASSWORD_MIN_LENGTH)%Z then
    run append_error
          (lit "Password must be at least "
           ++ str_of_N (Z.to_N PASSWORD_MIN_LENGTH) ++ lit " characters long");
    ret false
  else
  do found <- eval (on_str (search_class upper_class) password);
  if negb found then
    run append_error (lit "Password must contain at least one uppercase letter");
    ret false
  else
  do found <- eval (on_str (search_class lower_class) password);
  if negb found then
    run append_error (lit "Password must contain at least one lowercase letter");
    ret false
  else
  do found <- eval (on_str (search_class digit_class) password);
  if negb found then
    run append_error (lit "Password must contain at least one number");
    ret false
  else
  do found <- eval (on_str (search_class special_class) password);
  if negb found then
    run append_error (lit "Password must contain at least one special character");
    ret false
  else ret true.

Definition validate_password_confirmation (password confirm_password : value)
  : M self bool :=
  if negb (truthy confirm_password) then
    run append_error (lit "Password confirmation is required");
    ret false
  else
  if negb (value_eqb password confirm_password) then
    run append_error (lit "Passwords do not match");
    ret false
  else ret true.

Definition validate_age (age : value) : M self bool :=
  match age with
  | VNone => ret true
  | _ =>
      (* try: age_int = int(age) ... except (ValueError, TypeError): ... *)
      match int age with
      | Ok age_int =>
          if (age_int <? MIN_AGE)%Z then
            run append_error
                  (lit "You must be at least " ++ str_of_N (Z.to_N MIN_AGE)
                   ++ lit " years old to register");
            ret false
          else if (age_int >? 150)%Z then
            run append_error (lit "Please enter a valid age");
            ret false
          else ret true
      | Raise ValueError | Raise TypeError =>
          run append_error (lit "Age must be a valid number");
          ret false
      | Raise e => eval (Raise e)
      end
  end.

Definition validate_phone (phone : value) : M self bool :=
  if negb (truthy phone) then ret true
  else
  do found <- eval (on_str (anchored_match [] PHONE_PATTERN) phone);
  if negb found then
    run append_error (lit "Invalid phone number format");
    ret false
  else ret true.

Definition validate (form_data : gmap pystr value) : M self bool :=
  run put {| errors := []; data := form_data |};
  do username_valid <- validate_username (get_or_empty form_data (lit "username"));
  do email_valid <- validate_email (get_or_empty form_data (lit "email"));
  do password_valid <- validate_password (get_or_empty form_data (lit "password"));
  do confirm_valid <-
    validate_password_confirmation
      (get_or_empty form_data (lit "password"))
      (get_or_empty form_data (lit "confirm_password"));
  do age_valid <- validate_age (get_or_none form_data (lit "age"));
  do phone_valid <- validate_phone (get_or_none form_data (lit "phone"));
  ret (forallb id [username_valid; email_valid; password_valid;
                   confirm_valid; age_valid; phone_valid]).

Definition get_errors (st : self) : list pystr := errors st.

Definition get_data (st : self) : gmap pystr value := data st.

(** A new instance, as [RegistrationForm()] builds it. *)
Definition new : self := {| errors := []; data := ∅ |}.

End RegistrationForm.

(** An input mapping written as a list of fields, as a dict display. *)
Definition input (l : list (string * value)) : gmap pystr value :=
  list_to_map (map (fun kv => (lit (fst kv), snd kv)) l).

(** * The specification's wording

    Definitions that follow the specification's text rather than the code,
    to compare the two. *)

Module Spec.

(** "control characters (code points below 0x20 and 0x7F)" *)
Definition is_control (c : char) : bool := (c <? 0x20) || (c =? 0x7F).

(** "strip control characters" *)
Definition strip_controls (s : pystr) : pystr :=
  List.filter (fun c => negb (is_control c)) s.

(** "collapse internal whitespace runs to single spaces": the first
    character of a run becomes one space, the rest of the run goes. *)
Fixpoint collapse_runs (in_run : bool) (s : pystr) : pystr :=
  match s with
  | [] => []
  | c :: s' =>
      if isspace c then
        if in_run then collapse_runs true s' else 0x20 :: collapse_runs true s'
      else c :: collapse_runs false s'
  end.

(** "trim leading/trailing whitespace" *)
Definition trim (s : pystr) : pystr :=
  rev (drop_while isspace (rev (drop_while isspace s))).

Definition sanitize (s : pystr) : pystr :=
  trim (collapse_runs false (strip_controls s)).

(** "local@domain.tld (at least one [.] in domain, no embedded whitespace)":
    three non-empty parts without whitespace or [@], the last two joined by
    a dot. *)
Definition email_shape (s : pystr) : Prop :=
  exists l d t,
    s = l ++ [chr "@"] ++ d ++ [chr "."] ++ t
    /\ l <> [] /\ d <> [] /\ t <> []
    /\ Forall (fun c => isspace c = false /\ c <> chr "@") (l ++ d ++ t).

(** The password rules of the username variant, in the order the form
    checks them, what breaks each and the message of each. *)
Inductive form_rule :=
| FRequired | FMinLength | FUppercase | FLowercase | FDigit | FSpecial.

Definition form_rules : list form_rule :=
  [FRequired; FMinLength; FUppercase; FLowercase; FDigit; FSpecial].

Definition form_violates (r : form_rule) (pw : pystr) : bool :=
  match r with
  | FRequired => match pw with [] => true | _ => false end
  | FMinLength => (length pw <? 8)%nat
  | FUppercase => negb (existsb (between (chr "A") (chr "Z")) pw)
  | FLowercase => negb (existsb (between (chr "a") (chr "z")) pw)
  | FDigit => negb (existsb isdecimal pw)
  | FSpecial => negb (search_class RegistrationForm.special_class pw)
  end.

Definition form_message (r : form_rule) : pystr :=
  match r with
  | FRequired => lit "Password is required"
  | FMinLength => lit "Password must be at least 8 characters long"
  | FUppercase => lit "Password must contain at least one uppercase letter"
  | FLowercase => lit "Password must contain at least one lowercase letter"
  | FDigit => lit "Password must contain at least one number"
  | FSpecial => lit "Password must contain at least one special character"
  end.

(** The password rules of the first_name/last_name variant. *)
Inductive server_rule := SRequired | SMinLength | SMaxLength | SComposition.

Definition server_rules : list server_rule :=
  [SRequired; SMinLength; SMaxLength; SComposition].

Definition server_violates (r : server_rule) (pw : pystr) : bool :=
  match r with
  | SRequired => match strip pw with [] => true | _ => false end
  | SMinLength => (length pw <? 8)%nat
  | SMaxLength => (128 <? length pw)%nat
  | SComposition =>
      negb (anchored_match RegistrationValidator.PASSWORD_REGEX_aheads
              RegistrationValidator.PASSWORD_REGEX_body pw)
  end.

Definition server_message (r : server_rule) : pystr :=
  match r with
  | SRequired => lit "Password is required"
  | SMinLength => lit "Password must be at least 8 characters long"
  | SMaxLength => lit "Password is too long (max 128 characters)"
  | SComposition =>
      lit "Password must contain at least one uppercase letter, one lowercase letter, one digit, and one special character (@$!%*?&#)"
  end.

(** "each missing class or length violation → distinct PolicyViolation
    variant, evaluated independently (every failing rule should be
    discoverable, not just the first)": after validating [pw] on a new
    form, the message of every rule that [pw] breaks is among the errors. *)
Definition reports_every_failing_rule (pw : pystr) : Prop :=
  forall r, form_violates r pw = true ->
    In (form_message r)
       (RegistrationForm.get_errors
          (snd (RegistrationForm.validate_password (VStr pw)
                  RegistrationForm.new))).

End Spec.

(** * Auxiliary notions of the proofs *)

(** The separator of [sanitize_input]. *)
Definition SP : pystr := [0x20].

(** A word: non-empty and free of whitespace. *)
Definition word (w : pystr) : Prop :=
  w <> [] /\ forallb (fun c => negb (isspace c)) w = true.

(** A string that neither starts nor ends with whitespace. *)
Definition tight (s : pystr) : Prop :=
  drop_while isspace s = s /\ drop_while isspace (rev s) = rev s.

(** Padding: nothing or one space. *)
Definition pad (p : pystr) : Prop := p = [] \/ p = SP.

(** Every whitespace character of the string is a U+0020 that is not
    followed by whitespace. *)
Fixpoint single_spaced (s : pystr) : bool :=
  match s with
  | [] => true
  | c :: s' =>
      (if isspace c then
         (c =? 0x20)
         && match s' with [] => true | c' :: _ => negb (isspace c') end
       else true)
      && single_spaced s'
  end.

(** A value the text validators take without raising: a string, [None], or
    a number that is falsy (zero). *)
Definition text_safe (v : value) : bool :=
  match v with
  | VInt z => (z =? 0)%Z
  | VFloat f => float_is_zero f
  | _ => true
  end.

(** An age that [int] refuses with an [OverflowError]: an infinite float. *)
Definition age_overflows (age : value) : bool :=
  match age with
  | VFloat (S754_infinity _) => true
  | _ => false
  end.

(** [not value or not value.strip()] on a string. *)
Definition blank (s : pystr) : bool :=
  match strip s with [] => true | _ :: _ => false end.

(** The instance of the first_name/last_name variant after
    [self.errors[field] = message]. *)
Definition set_err (field message : pystr) (st : RegistrationValidator.self)
  : RegistrationValidator.self :=
  {| RegistrationValidator.errors :=
       dict_set field message (RegistrationValidator.errors st) |}.

(** The instance of the username variant after
    [self.errors.append(message)]. *)
Definition add_err (message : pystr) (st : RegistrationForm.self)
  : RegistrationForm.self :=
  {| RegistrationForm.errors := RegistrationForm.errors st ++ [message];
     RegistrationForm.data := RegistrationForm.data st |}.

(** What one field validator of the first_name/last_name variant can do to
    the instance: pass and leave it alone, fail and record one message under
    its key, or raise before touching it. *)
Definition server_outcome (key : pystr) (v : value)
    (st : RegistrationValidator.self)
    (r : result bool * RegistrationValidator.self) : Prop :=
  if text_safe v then
    r = (Ok true, st) \/ exists m, r = (Ok false, set_err key m st)
  else r = (Raise AttributeError, st).

(** The same for the username variant, where a failure appends a message. *)
Definition form_outcome (raises : bool) (st : RegistrationForm.self)
    (r : result bool * RegistrationForm.self) : Prop :=
  if raises then r = (Raise TypeError, st)
  else r = (Ok true, st) \/ exists m, r = (Ok false, add_err m st).

(** The fields each variant reads as text. *)
Definition server_text_fields : list pystr :=
  [lit "first_name"; lit "last_name"; lit "email"; lit "password";
   lit "confirm_password"].

Definition form_text_fields : list pystr :=
  [lit "username"; lit "email"; lit "password"; lit "phone"].

(** The text fields as [validate] reads them: [phone] has no default. *)
Definition form_field (form_data : gmap pystr value) (k : pystr) : value :=
  if bool_decide (k = lit "phone") then get_or_none form_data k
  else get_or_empty form_data k.

(** A character that is neither whitespace nor [@], as the parts of an
    e-mail address are made of. *)
Definition plain (c : char) : Prop := isspace c = false /\ c <> chr "@".

(** Payloads of the repository's tests and examples. *)
Definition server_payload (email : value) : gmap pystr value :=
  input [("first_name", VStr (lit "John")); ("last_name", VStr (lit "Doe"));
         ("email", email);
         ("password", VStr (lit "SecurePass123!"));
         ("confirm_password", VStr (lit "SecurePass123!"))].

Definition form_payload (email : value) : gmap pystr value :=
  input [("username", VStr (lit "john_doe")); ("email", email);
         ("password", VStr (lit "SecurePass123!"));
         ("confirm_password", VStr (lit "SecurePass123!"));
         ("age", VInt 25); ("phone", VStr (lit "+1 (555) 123-4567"))].

(** * The callers: example_flask_app.py

    The two JSON views, as functions from what [request.get_json()] gave
    ([None] or a JSON object with fields as above; other JSON documents are
    outside the model) to what the view returns: the dict handed to
    [jsonify] and the status code.  An exception that leaves the view is the
    outcome [Raise]. *)


Module ExampleFlaskApp.

#[warning="-register-all"]
Inductive json :=
| JBool (b : bool)
| JStr (s : pystr)
| JObj (members : list (pystr * json)).

(** [jsonify(body), status]; a view that gives no status answers 200. *)
Record response := { body : json; status : Z }.

Definition and_then {A B} (r : result A) (k : A -> result B) : result B :=
  match r with
  | Ok a => k a
  | Raise e => Raise e
  end.

(** A dict of messages as a JSON object. *)
Definition messages (errors : dict) : json :=
  JObj (map (fun kv => (fst kv, JStr (snd kv))) errors).

Definition no_data : response :=
  {| body := JObj [(lit "success", JBool false);
                   (lit "message", JStr (lit "No data provided"));
                   (lit "errors",
                    JObj [(lit "general",
                           JStr (lit "Request must include JSON data"))])];
     status := 400 |}.

(** The dict [sanitized_data] of [register]. *)
Definition sanitized (first_name last_name email : pystr)
    (data : gmap pystr value) : gmap pystr value :=
  list_to_map
    [(lit "first_name", VStr first_name);
     (lit "last_name", VStr last_name);
     (lit "email", VStr email);
     (lit "password", get_or_empty data (lit "password"));
     (lit "confirm_password", get_or_empty data (lit "confirm_password"))].

(** [POST /api/register] *)
Definition register (request_json : option (gmap pystr value))
  : result response :=
  match request_json with
  | None => Ok no_data
  | Some data =>
      if bool_decide (data = ∅) then Ok no_data
      else
        and_then (RegistrationValidator.sanitize_input
                    (get_or_empty data (lit "first_name"))) (fun first_name =>
        and_then (RegistrationValidator.sanitize_input
                    (get_or_empty data (lit "last_name"))) (fun last_name =>
        and_then (RegistrationValidator.sanitize_input
                    (get_or_empty data (lit "email"))) (fun email =>
        let sanitized_data := sanitized first_name last_name email data in
        and_then (RegistrationValidator.validate_registration_data
                    sanitized_data) (fun '(is_valid, errors) =>
        if negb is_valid then
          Ok {| body := JObj [(lit "success", JBool false);
                              (lit "message", JStr (lit "Validation failed"));
                              (lit "errors", messages errors)];
                status := 400 |}
        else
          Ok {| body := JObj [(lit "success", JBool true);
                              (lit "message",
                               JStr (lit "Registration successful"));
                              (lit "data",
                               JObj [(lit "first_name", JStr first_name);
                                     (lit "last_name", JStr last_name);
                                     (lit "email", JStr email)])];
                status := 201 |}))))
  end.





End ExampleFlaskApp.

(** * Further notions of the proofs *)

(** The string without the line feed that ends it, if one does. *)
Definition chomp (s : pystr) : pystr :=
  match rev s with
  | c :: r => if c =? LF then rev r else s
  | [] => s
  end.

(** The field checks of [validate_registration], in the order it runs
    them. *)
Definition server_checks (data : gmap pystr value)
  : list (M RegistrationValidator.self bool) :=
  [RegistrationValidator.validate_name (lit "first_name")
     (get_or_empty data (lit "first_name"));
   RegistrationValidator.validate_name (lit "last_name")
     (get_or_empty data (lit "last_name"));
   RegistrationValidator.validate_email (get_or_empty data (lit "email"));
   RegistrationValidator.validate_password
     (get_or_empty data (lit "password"));
   RegistrationValidator.validate_password_match
     (get_or_empty data (lit "password"))
     (get_or_empty data (lit "confirm_password"))].

(** The field checks of [RegistrationForm.validate], in the order it runs
    them. *)
Definition form_checks (form_data : gmap pystr value)
  : list (M RegistrationForm.self bool) :=
  [RegistrationForm.validate_username (get_or_empty form_data (lit "username"));
   RegistrationForm.validate_email (get_or_empty form_data (lit "email"));
   RegistrationForm.validate_password
     (get_or_empty form_data (lit "password"));
   RegistrationForm.validate_password_confirmation
     (get_or_empty form_data (lit "password"))
     (get_or_empty form_data (lit "confirm_password"));
   RegistrationForm.validate_age (get_or_none form_data (lit "age"));
   RegistrationForm.validate_phone (get_or_none form_data (lit "phone"))].

(** A check run returned [True]. *)
Definition passed {S} (r : result bool * S) : bool :=
  match fst r with
  | Ok true => true
  | _ => false
  end.

(** The character classes of the patterns, by name. *)
Definition name_class : cclass :=
  OneOf [CRange (chr "a") (chr "z"); CRange (chr "A") (chr "Z");
         CChar (chr " "); CChar (chr "'"); CChar (chr "-")].

Definition username_class : cclass :=
  OneOf (RegistrationForm.alnum ++ [CChar (chr "_")]).

Definition phone_class : cclass :=
  OneOf [CDigit; CSpace; CChar (chr "-"); CChar (chr "+");
         CChar (chr "("); CChar (chr ")")].

Definition server_special_class : cclass :=
  OneOf [CChar (chr "@"); CChar (chr "$"); CChar (chr "!");
         CChar (chr "%"); CChar (chr "*"); CChar (chr "?");
         CChar (chr "&"); CChar (chr "#")].

(** The classes of the form's e-mail pattern, by name. *)
Definition email_local_class : cclass :=
  OneOf (RegistrationForm.alnum ++ [CChar (chr "."); CChar (chr "_");
                                    CChar (chr "%"); CChar (chr "+");
                                    CChar (chr "-")]).

Definition email_domain_class : cclass :=
  OneOf (RegistrationForm.alnum ++ [CChar (chr "."); CChar (chr "-")]).

Definition letter_class : cclass :=
  OneOf [CRange (chr "a") (chr "z"); CRange (chr "A") (chr "Z")].

(** Some character of the string is not whitespace. *)
Definition has_text (s : pystr) : bool :=
  existsb (fun c => negb (isspace c)) s.

(** The character classes a password must show: a lowercase letter, an
    uppercase letter, a digit and one of [@$!%*?&#]. *)
Definition has_classes (b : pystr) : Prop :=
  existsb (between (chr "a") (chr "z")) b = true
  /\ existsb (between (chr "A") (chr "Z")) b = true
  /\ existsb isdecimal b = true
  /\ existsb (class_matches server_special_class) b = true.




(** The errors a check leaves on a new instance. *)
Definition server_errors
    (r : result bool * RegistrationValidator.self) : dict :=
  RegistrationValidator.errors (snd r).

Definition form_errors
    (r : result bool * RegistrationForm.self) : list pystr :=
  RegistrationForm.errors (snd r).

(** What a field check does to any instance, once its verdict is known:
    nothing when it passes, one message when it fails. *)
Definition server_verdict (key : pystr) (o : option pystr)
    (st : RegistrationValidator.self)
  : result bool * RegistrationValidator.self :=
  match o with
  | None => (Ok true, st)
  | Some m => (Ok false, set_err key m st)
  end.

Definition form_verdict (o : option pystr) (st : RegistrationForm.self)
  : result bool * RegistrationForm.self :=
  match o with
  | None => (Ok true, st)
  | Some m => (Ok false, add_err m st)
  end.

(** A name as [validate_name] wants it, with nothing after it. *)
Definition clean_name (t : pystr) : Prop :=
  (2 <= length t <= 50)%nat /\ forallb (class_matches name_class) t = true.

(** The body of a successful registration. *)
Definition registered (first_name last_name email : pystr)
  : ExampleFlaskApp.json :=
  ExampleFlaskApp.JObj
    [(lit "success", ExampleFlaskApp.JBool true);
     (lit "message", ExampleFlaskApp.JStr (lit "Registration successful"));
     (lit "data",
      ExampleFlaskApp.JObj
        [(lit "first_name", ExampleFlaskApp.JStr first_name);
         (lit "last_name", ExampleFlaskApp.JStr last_name);
         (lit "email", ExampleFlaskApp.JStr email)])].

(** The body of a refused registration. *)
Definition refused (errors : dict) : ExampleFlaskApp.json :=
  ExampleFlaskApp.JObj
    [(lit "success", ExampleFlaskApp.JBool false);
     (lit "message", ExampleFlaskApp.JStr (lit "Validation failed"));
     (lit "errors", ExampleFlaskApp.messages errors)].




(** * Facts about the Python primitives *)

Section CharFacts.

Lemma isspace_SP : isspace 0x20 = true.
Proof. reflexivity. Qed.

Lemma between_spec lo hi c : between lo hi c = true <-> lo <= c /\ c <= hi.
Proof. unfold between. rewrite andb_true_iff, !N.leb_le. tauto. Qed.

End CharFacts.

(** ** The matcher decides the language of a pattern *)

Section RegexFacts.

Lemma nullable_matches r : nullable r = true <-> matches r [].
Proof.
  induction r; simpl.
  - split; [discriminate | inversion 1].
  - split; [constructor | reflexivity].
  - split; [discriminate | inversion 1].
  - rewrite andb_true_iff, IHr1, IHr2. split.
    + intros [H1 H2]. apply (MCat _ _ [] [] H1 H2).
    + inversion 1 as [| |? ? s1 s2 H1 H2 E1 E2| | | |]; subst.
      apply app_eq_nil in E2 as [-> ->]. tauto.
  - rewrite orb_true_iff, IHr1, IHr2. split.
    + intros [H | H]; [apply MAltL | apply MAltR]; exact H.
    + inversion 1; subst; tauto.
  - split; [constructor | reflexivity].
Qed.

Lemma matches_Void s : ~ matches Void s.
Proof. inversion 1. Qed.

Lemma matches_Eps s : matches Eps s <-> s = [].
Proof. split; [inversion 1; reflexivity | intros ->; constructor]. Qed.

Lemma matches_Chr k s :
  matches (Chr k) s <-> exists c, s = [c] /\ class_matches k c = true.
Proof.
  split.
  - inversion 1; subst; eauto.
  - intros (c & -> & H). constructor; exact H.
Qed.

Lemma matches_Cat r1 r2 s :
  matches (Cat r1 r2) s <->
  exists s1 s2, s = s1 ++ s2 /\ matches r1 s1 /\ matches r2 s2.
Proof.
  split.
  - inversion 1; subst; eauto.
  - intros (s1 & s2 & -> & H1 & H2). constructor; assumption.
Qed.

Lemma matches_Alt r1 r2 s :
  matches (Alt r1 r2) s <-> matches r1 s \/ matches r2 s.
Proof.
  split.
  - inversion 1; subst; tauto.
  - intros [H | H]; [apply MAltL | apply MAltR]; exact H.
Qed.

Lemma matches_cat r1 r2 s : matches (cat r1 r2) s <-> matches (Cat r1 r2) s.
Proof.
  rewrite matches_Cat.
  destruct r1; simpl;
    try (destruct r2; simpl; rewrite ?matches_Cat; try reflexivity;
         split; [intros H; exfalso; revert H; apply matches_Void
                | intros (? & ? & _ & _ & H); exfalso; revert H;
                  apply matches_Void]).
  - split; [inversion 1 | intros (? & ? & _ & H & _); inversion H].
  - split.
    + intros H. exists [], s. repeat split; [constructor | exact H].
    + intros (s1 & s2 & -> & H1 & H2). apply matches_Eps in H1 as ->. exact H2.
Qed.

Lemma matches_alt r1 r2 s : matches (alt r1 r2) s <-> matches (Alt r1 r2) s.
Proof.
  rewrite matches_Alt.
  destruct r1; simpl;
    try (destruct r2; simpl; rewrite ?matches_Alt; try reflexivity;
         split; [tauto | intros [H | H]; [exact H | inversion H]]).
  split; [tauto | intros [H | H]; [inversion H | exact H]].
Qed.

(** A non-empty word of [r*] starts with a non-empty word of [r]. *)
Lemma matches_Star_cons r c s :
  matches (Star r) (c :: s) ->
  exists s1 s2, s = s1 ++ s2 /\ matches r (c :: s1) /\ matches (Star r) s2.
Proof.
  intros H. remember (Star r) as r' eqn:Er. remember (c :: s) as w eqn:Ew.
  revert c s Er Ew.
  induction H as [| | | | | |r0 s1 s2 H1 _ H2 IH2]; intros c0 s0 Er Ew;
    try discriminate.
  injection Er as ->.
  destruct s1 as [|c1 s1]; simpl in Ew.
  - apply IH2; [reflexivity | exact Ew].
  - injection Ew as -> <-. exists s1, s2. auto.
Qed.

Lemma deriv_matches r : forall c s, matches (deriv c r) s <-> matches r (c :: s).
Proof.
  induction r; intros c s; simpl.
  - split; inversion 1.
  - split; inversion 1.
  - destruct (class_matches k c) eqn:Ek.
    + rewrite matches_Eps, matches_Chr. split.
      * intros ->. eauto.
      * intros (c' & E & _). injection E as _ ->. reflexivity.
    + split; [inversion 1|].
      intros (c' & E & H)%matches_Chr. injection E as -> _. congruence.
  - assert (Hcat : matches (cat (deriv c r1) r2) s <->
                   exists s1 s2, s = s1 ++ s2 /\ matches r1 (c :: s1)
                                 /\ matches r2 s2).
    { rewrite matches_cat, matches_Cat.
      split; intros (s1 & s2 & E & H1 & H2); exists s1, s2;
        (split; [exact E|]); (split; [|exact H2]); apply IHr1; exact H1. }
    rewrite (matches_Cat r1 r2 (c :: s)).
    destruct (nullable r1) eqn:En.
    + rewrite matches_alt, matches_Alt, Hcat, IHr2. split.
      * intros [(s1 & s2 & -> & H1 & H2) | H].
        -- exists (c :: s1), s2. auto.
        -- exists [], (c :: s). apply nullable_matches in En. auto.
      * intros ([|c1 s1] & s2 & E & H1 & H2); simpl in E.
        -- subst s2. right. exact H2.
        -- injection E as <- ->. left. eauto.
    + rewrite Hcat. split.
      * intros (s1 & s2 & -> & H1 & H2). exists (c :: s1), s2. auto.
      * intros ([|c1 s1] & s2 & E & H1 & H2); simpl in E.
        -- apply nullable_matches in H1. congruence.
        -- injection E as <- ->. eauto.
  - rewrite matches_alt, !matches_Alt, IHr1, IHr2. reflexivity.
  - rewrite matches_cat, matches_Cat. split.
    + intros (s1 & s2 & -> & H1 & H2). apply IHr in H1.
      apply (MStarApp r (c :: s1) s2 H1 H2).
    + intros (s1 & s2 & -> & H1 & H2)%matches_Star_cons.
      exists s1, s2. rewrite IHr. auto.
Qed.

Theorem fullmatch_matches r s : fullmatch r s = true <-> matches r s.
Proof.
  revert r. induction s as [|c s IH]; intros r; simpl.
  - apply nullable_matches.
  - rewrite IH. apply deriv_matches.
Qed.

End RegexFacts.

(** ** Whitespace, [split], [join] and [strip] *)

Section StringFacts.


Lemma lit_space : lit " " = SP.
Proof. reflexivity. Qed.


Lemma forallb_rev {A} (p : A -> bool) l : forallb p (rev l) = forallb p l.
Proof.
  induction l as [|a l IH]; simpl; [reflexivity|].
  rewrite forallb_app, IH. simpl. rewrite andb_true_r. apply andb_comm.
Qed.

Lemma split_from_words cur s :
  forallb (fun c => negb (isspace c)) cur = true ->
  Forall word (split_from cur s).
Proof.
  revert cur. induction s as [|c s IH]; intros cur Hcur; simpl.
  - destruct cur as [|c0 cur]; constructor; [|constructor].
    split; [|rewrite forallb_rev; exact Hcur].
    simpl. intros E. apply app_eq_nil in E as [_ E]. discriminate.
  - destruct (isspace c) eqn:Ec.
    + destruct cur as [|c0 cur]; [apply IH; reflexivity|].
      constructor; [|apply IH; reflexivity].
      split; [|rewrite forallb_rev; exact Hcur].
      simpl. intros E. apply app_eq_nil in E as [_ E]. discriminate.
    + apply IH. simpl. rewrite Ec. exact Hcur.
Qed.

(** Every character of a word of [split_from cur s] comes from [cur] or [s]. *)
Lemma split_from_chars (p : char -> bool) cur s :
  forallb p cur = true -> forallb p s = true ->
  Forall (fun w => forallb p w = true) (split_from cur s).
Proof.
  revert cur. induction s as [|c s IH]; intros cur Hcur Hs; simpl.
  - destruct cur; constructor; [|constructor]. rewrite forallb_rev. exact Hcur.
  - simpl in Hs. apply andb_true_iff in Hs as [Hc Hs].
    destruct (isspace c).
    + destruct cur as [|c0 cur]; [apply IH; auto|].
      constructor; [rewrite forallb_rev; exact Hcur | apply IH; auto].
    + apply IH; [simpl; rewrite Hc; exact Hcur | exact Hs].
Qed.

Lemma split_from_nonempty c cur s : split_from (c :: cur) s <> [].
Proof.
  revert c cur. induction s as [|c' s IH]; intros c cur; simpl; [discriminate|].
  destruct (isspace c'); [discriminate | apply IH].
Qed.

(** Reading a word: its characters move to the accumulator. *)
Lemma split_from_app w : forall cur s,
  forallb (fun c => negb (isspace c)) w = true ->
  split_from cur (w ++ s) = split_from (rev w ++ cur) s.
Proof.
  induction w as [|c w IH]; intros cur s Hw; simpl; [reflexivity|].
  simpl in Hw. apply andb_true_iff in Hw as [Hc Hw].
  apply negb_true_iff in Hc. rewrite Hc, IH by exact Hw.
  rewrite <- app_assoc. reflexivity.
Qed.

(** [split] undoes [join] on words. *)
Lemma split_join ws : Forall word ws -> split (join SP ws) = ws.
Proof.
  unfold split. induction 1 as [|w ws [Hne Hw] Hws IH]; [reflexivity|].
  assert (Hrev : exists c r, rev w = c :: r).
  { destruct (rev w) as [|c r] eqn:E; [|eauto].
    apply (f_equal (@rev _)) in E. rewrite rev_involutive in E. contradiction. }
  destruct Hrev as (c & r & Hrev).
  assert (Hw' : rev (c :: r) = w) by (rewrite <- Hrev; apply rev_involutive).
  destruct ws as [|w' ws].
  - simpl. rewrite <- (app_nil_r w) at 1. rewrite split_from_app by exact Hw.
    rewrite app_nil_r, Hrev. cbn [split_from]. rewrite Hw'. reflexivity.
  - change (join SP (w :: w' :: ws)) with (w ++ SP ++ join SP (w' :: ws)).
    rewrite split_from_app by exact Hw. rewrite app_nil_r, Hrev.
    unfold SP at 1. cbn [app split_from]. rewrite isspace_SP, Hw', IH.
    reflexivity.
Qed.

Lemma drop_while_all p s : forallb p s = true -> drop_while p s = [].
Proof.
  induction s as [|c s IH]; simpl; [reflexivity|].
  intros [Hc Hs]%andb_true_iff. rewrite Hc. auto.
Qed.

Lemma drop_while_app p s t :
  forallb p s = true -> drop_while p (s ++ t) = drop_while p t.
Proof.
  induction s as [|c s IH]; simpl; [reflexivity|].
  intros [Hc Hs]%andb_true_iff. rewrite Hc. auto.
Qed.

Lemma drop_while_head p c s : p c = false -> drop_while p (c :: s) = c :: s.
Proof. intros H. simpl. rewrite H. reflexivity. Qed.


Lemma tight_nil : tight [].
Proof. split; reflexivity. Qed.

Lemma tight_strip s : tight s -> strip s = s.
Proof.
  intros [Hl Hr]. unfold strip, rstrip, lstrip.
  rewrite Hl, Hr. apply rev_involutive.
Qed.

Lemma word_head w : word w -> exists c r, w = c :: r /\ isspace c = false.
Proof.
  intros [Hne Hw]. destruct w as [|c r]; [contradiction|].
  simpl in Hw. apply andb_true_iff in Hw as [Hc _].
  apply negb_true_iff in Hc. eauto.
Qed.

Lemma word_rev w : word w -> word (rev w).
Proof.
  intros [Hne Hw]. split; [|rewrite forallb_rev; exact Hw].
  intros E. apply Hne. rewrite <- (rev_involutive w), E. reflexivity.
Qed.

Lemma join_head w ws :
  word w -> exists c r, join SP (w :: ws) = c :: r /\ isspace c = false.
Proof.
  intros (c & r & -> & Hc)%word_head.
  destruct ws; simpl; eauto.
Qed.

Lemma rev_join_head ws :
  Forall word ws -> ws <> [] ->
  exists c r, rev (join SP ws) = c :: r /\ isspace c = false.
Proof.
  induction 1 as [|w ws Hw Hws IH]; [contradiction|]. intros _.
  destruct ws as [|w' ws].
  - simpl. apply word_head, word_rev, Hw.
  - change (join SP (w :: w' :: ws)) with (w ++ SP ++ join SP (w' :: ws)).
    rewrite !rev_app_distr.
    destruct IH as (c & r & E & Hc); [discriminate|].
    rewrite E. simpl. eauto.
Qed.

Lemma join_tight ws : Forall word ws -> tight (join SP ws).
Proof.
  intros Hws. destruct ws as [|w ws]; [apply tight_nil|].
  split.
  - inversion Hws as [|? ? Hw _]; subst.
    destruct (join_head w ws Hw) as (c & r & -> & Hc).
    apply drop_while_head, Hc.
  - destruct (rev_join_head (w :: ws) Hws) as (c & r & -> & Hc); [discriminate|].
    apply drop_while_head, Hc.
Qed.


Lemma pad_spaces p : pad p -> forallb isspace p = true.
Proof. intros [-> | ->]; reflexivity. Qed.

Lemma strip_padded pre s post :
  pad pre -> pad post -> tight s -> strip (pre ++ s ++ post) = s.
Proof.
  intros Hpre Hpost [Hl Hr]. unfold strip, rstrip, lstrip.
  rewrite drop_while_app by (apply pad_spaces, Hpre).
  destruct s as [|c r].
  - simpl. rewrite (drop_while_all isspace post) by (apply pad_spaces, Hpost).
    reflexivity.
  - simpl in Hl. destruct (isspace c) eqn:Ec.
    + exfalso. apply (f_equal (@length _)) in Hl.
      assert (Hlen : forall t, (length (drop_while isspace t) <= length t)%nat).
      { induction t as [|x t IHt]; simpl; [lia|]. destruct (isspace x); simpl; lia. }
      specialize (Hlen r). simpl in Hl. lia.
    + rewrite <- app_comm_cons, drop_while_head by exact Ec.
      rewrite app_comm_cons, rev_app_distr.
      rewrite drop_while_app
        by (rewrite forallb_rev; apply pad_spaces, Hpost).
      rewrite Hr. apply rev_involutive.
Qed.

(** The code's [' '.join(s.split())] against the run-collapsing of the
    specification: they agree up to one space of padding at each end. *)
Lemma collapse_join s :
  (exists post, pad post
     /\ Spec.collapse_runs true s = join SP (split s) ++ post
     /\ (split s = [] -> post = []))
  /\ (forall c cur, exists post, pad post
        /\ rev (c :: cur) ++ Spec.collapse_runs false s
           = join SP (split_from (c :: cur) s) ++ post).
Proof.
  induction s as [|x s [IHP IHQ]].
  - split.
    + exists []. repeat split. left; reflexivity.
    + intros c cur. exists []. split; [left; reflexivity|].
      cbn [Spec.collapse_runs split_from join]. reflexivity.
  - destruct (isspace x) eqn:Ex; split.
    + unfold split. cbn [Spec.collapse_runs split_from]. rewrite Ex. exact IHP.
    + intros c cur. cbn [Spec.collapse_runs split_from]. rewrite Ex.
      destruct IHP as (post & Hpost & E & Hnil).
      fold (split s). destruct (split s) as [|w ws] eqn:Es.
      * exists SP. split; [right; reflexivity|].
        rewrite E, (Hnil eq_refl). reflexivity.
      * exists post. split; [exact Hpost|].
        change (join SP (rev (c :: cur) :: w :: ws))
          with (rev (c :: cur) ++ SP ++ join SP (w :: ws)).
        rewrite E, <- !app_assoc. reflexivity.
    + unfold split. cbn [Spec.collapse_runs split_from]. rewrite Ex.
      destruct (IHQ x []) as (post & Hpost & E).
      exists post. split; [exact Hpost|]. split; [exact E|].
      intros Hnil. exfalso. revert Hnil. apply split_from_nonempty.
    + intros c cur. cbn [Spec.collapse_runs split_from]. rewrite Ex.
      destruct (IHQ x (c :: cur)) as (post & Hpost & E).
      exists post. split; [exact Hpost|].
      rewrite <- E. cbn [rev]. rewrite <- !app_assoc. reflexivity.
Qed.

(** Trimming the collapsed string leaves the joined words. *)
Lemma trim_collapse s :
  Spec.trim (Spec.collapse_runs false s) = join SP (split s).
Proof.
  assert (Hw : Forall word (split s)) by (apply split_from_words; reflexivity).
  apply join_tight in Hw.
  change Spec.trim with strip.
  destruct s as [|x s]; [reflexivity|].
  unfold split in *. cbn [Spec.collapse_runs split_from] in *.
  destruct (isspace x) eqn:Ex.
  - destruct (proj1 (collapse_join s)) as (post & Hpost & E & _).
    rewrite E. apply (strip_padded SP); [right; reflexivity | exact Hpost | exact Hw].
  - destruct (proj2 (collapse_join s) x []) as (post & Hpost & E).
    cbn [rev app] in E. rewrite E.
    apply (strip_padded []); [left; reflexivity | exact Hpost | exact Hw].
Qed.

Lemma sub_class_filter k s :
  sub_class k [] s = List.filter (fun c => negb (class_matches k c)) s.
Proof.
  unfold sub_class. induction s as [|c s IH]; simpl; [reflexivity|].
  destruct (class_matches k c); simpl; rewrite IH; reflexivity.
Qed.

Lemma control_chars_spec c :
  class_matches RegistrationValidator.control_chars c = Spec.is_control c.
Proof.
  unfold RegistrationValidator.control_chars, Spec.is_control. simpl.
  unfold between. rewrite orb_false_r.
  replace (0 <=? c) with true by (symmetry; apply N.leb_le; lia).
  simpl. f_equal.
  destruct (N.leb_spec c 0x1F), (N.ltb_spec c 0x20); try reflexivity; lia.
Qed.

End StringFacts.

(** * The sanitizer *)

Section Sanitizer.

Import RegistrationValidator.

Lemma strip_controls_sub s : sub_class control_chars [] s = Spec.strip_controls s.
Proof.
  rewrite sub_class_filter. unfold Spec.strip_controls.
  induction s as [|c s IH]; cbn [List.filter]; [reflexivity|].
  rewrite control_chars_spec, IH. reflexivity.
Qed.

Lemma sanitize_input_words s :
  sanitize_input (VStr s) = Ok (join SP (split (Spec.strip_controls s))).
Proof.
  unfold sanitize_input. destruct s as [|c s]; [reflexivity|].
  cbn [truthy negb on_str]. rewrite strip_controls_sub, lit_space.
  rewrite tight_strip; [reflexivity|].
  apply join_tight, split_from_words. reflexivity.
Qed.

Lemma filter_all {A} (p : A -> bool) l :
  forallb p l = true -> List.filter p l = l.
Proof.
  induction l as [|a l IH]; simpl; [reflexivity|].
  intros [Ha Hl]%andb_true_iff. rewrite Ha, IH by exact Hl. reflexivity.
Qed.

Lemma forallb_filter {A} (p : A -> bool) l : forallb p (List.filter p l) = true.
Proof.
  induction l as [|a l IH]; simpl; [reflexivity|].
  destruct (p a) eqn:Ha; simpl; rewrite ?Ha; exact IH.
Qed.

Lemma forallb_join (p : char -> bool) ws :
  Forall (fun w => forallb p w = true) ws -> p 0x20 = true ->
  forallb p (join SP ws) = true.
Proof.
  intros Hws Hsp. induction Hws as [|w ws Hw Hws IH]; [reflexivity|].
  destruct ws as [|w' ws]; [exact Hw|].
  change (join SP (w :: w' :: ws)) with (w ++ SP ++ join SP (w' :: ws)).
  rewrite !forallb_app, Hw, IH. simpl. rewrite Hsp. reflexivity.
Qed.

Lemma single_spaced_word w rest :
  forallb (fun c => negb (isspace c)) w = true ->
  single_spaced (w ++ rest) = single_spaced rest.
Proof.
  induction w as [|c w IH]; [reflexivity|]. cbn [forallb app single_spaced].
  intros [Hc Hw]%andb_true_iff. apply negb_true_iff in Hc.
  rewrite Hc. apply IH, Hw.
Qed.

Lemma single_spaced_join ws :
  Forall word ws -> single_spaced (join SP ws) = true.
Proof.
  induction 1 as [|w ws Hw Hws IH]; [reflexivity|].
  destruct ws as [|w' ws].
  - cbn [join]. rewrite <- (app_nil_r w). apply single_spaced_word, Hw.
  - change (join SP (w :: w' :: ws)) with (w ++ SP ++ join SP (w' :: ws)).
    rewrite single_spaced_word by apply Hw.
    inversion Hws as [|? ? Hw' _]; subst.
    destruct (join_head w' ws Hw') as (c & r & E & Hc).
    change (SP ++ join SP (w' :: ws)) with (0x20 :: join SP (w' :: ws)).
    cbn [single_spaced]. rewrite isspace_SP, IH, E, Hc. reflexivity.
Qed.

(** C8. For every input string the sanitizer returns the string with the
    control characters (code points below 0x20 and 0x7F) removed, every run
    of whitespace collapsed to one space and the whitespace at both ends
    trimmed.  What it returns holds no control character, no whitespace at
    either end, and no whitespace inside but single U+0020.  The string of
    the repository's own test, with a NUL and repeated spaces, comes out as
    "HelloWorld Test". *)
Theorem sanitize_input_meets_spec :
  (forall s, sanitize_input (VStr s) = Ok (Spec.sanitize s))
  /\ (forall s,
      forallb (fun c => negb (Spec.is_control c)) (Spec.sanitize s) = true
      /\ tight (Spec.sanitize s)
      /\ single_spaced (Spec.sanitize s) = true)
  /\ sanitize_input
       (VStr (lit "Hello" ++ [0x00] ++ lit "World" ++ [0x1F] ++ lit "  Test  "))
     = Ok (lit "HelloWorld Test").
Proof.
  split; [|split; [|vm_compute; reflexivity]]; intros s; unfold Spec.sanitize.
  - rewrite sanitize_input_words, trim_collapse. reflexivity.
  - rewrite trim_collapse.
    assert (Hws : Forall word (split (Spec.strip_controls s)))
      by (apply split_from_words; reflexivity).
    split; [|split].
    + apply forallb_join; [|reflexivity].
      apply split_from_chars; [reflexivity | apply forallb_filter].
    + apply join_tight, Hws.
    + apply single_spaced_join, Hws.
Qed.

(** C10. The sanitizer is idempotent: sanitizing its own output returns the
    output unchanged. *)
Theorem sanitize_input_idempotent s :
  exists t, sanitize_input (VStr s) = Ok t /\ sanitize_input (VStr t) = Ok t.
Proof.
  set (ws := split (Spec.strip_controls s)).
  exists (join SP ws). split; [apply sanitize_input_words|].
  rewrite sanitize_input_words. do 2 f_equal.
  assert (Hws : Forall word ws) by (apply split_from_words; reflexivity).
  assert (Hctl : Forall (fun w => forallb (fun c => negb (Spec.is_control c)) w = true) ws).
  { apply split_from_chars; [reflexivity|]. apply forallb_filter. }
  unfold Spec.strip_controls.
  rewrite filter_all by (apply forallb_join; [exact Hctl | reflexivity]).
  apply split_join, Hws.
Qed.

End Sanitizer.

(** * The first_name/last_name variant, method by method *)

Section ServerFacts.

Import RegistrationValidator.

Lemma validate_required_unfold k v st :
  validate_required k v st =
  let required := (Ok false, set_err k (label k ++ lit " is required") st) in
  match v with
  | VNone => required
  | VInt z => if (z =? 0)%Z then required else (Raise AttributeError, st)
  | VFloat f => if float_is_zero f then required else (Raise AttributeError, st)
  | VStr s => if blank s then required else (Ok true, st)
  end.
Proof.
  destruct v as [|z|f|s]; cbv [validate_required bind ret eval set_error].
  - reflexivity.
  - cbn [truthy attr_strip]. destruct (z =? 0)%Z; reflexivity.
  - cbn [truthy attr_strip]. destruct (float_is_zero f); reflexivity.
  - destruct s as [|c s]; [reflexivity|].
    cbn [truthy negb attr_strip]. unfold blank.
    destruct (strip (c :: s)); reflexivity.
Qed.

Lemma Z_of_nat_ltb n k : (Z.of_nat n <? Z.of_nat k)%Z = (n <? k)%nat.
Proof.
  destruct (Z.ltb_spec (Z.of_nat n) (Z.of_nat k)), (Nat.ltb_spec n k);
    try reflexivity; lia.
Qed.

Lemma Z_of_nat_gtb n k : (Z.of_nat n >? Z.of_nat k)%Z = (k <? n)%nat.
Proof. rewrite Z.gtb_ltb. apply Z_of_nat_ltb. Qed.

Lemma validate_email_unfold s st :
  validate_email (VStr s) st =
  if blank s then (Ok false, set_err (lit "email") (lit "Email is required") st)
  else if negb (anchored_match [] EMAIL_REGEX s) then
    (Ok false, set_err (lit "email") (lit "Please enter a valid email address") st)
  else if (254 <? length s)%nat then
    (Ok false, set_err (lit "email") (lit "Email address is too long") st)
  else (Ok true, st).
Proof.
  unfold validate_email. cbv [bind]. rewrite validate_required_unfold.
  cbv zeta. cbv iota. destruct (blank s); [reflexivity|].
  cbv [negb eval on_str len ret set_error].
  destruct (anchored_match [] EMAIL_REGEX s); [|reflexivity].
  change 254%Z with (Z.of_nat 254). rewrite Z_of_nat_gtb.
  destruct (254 <? length s)%nat; reflexivity.
Qed.

Lemma validate_password_unfold s st :
  validate_password (VStr s) st =
  if blank s then
    (Ok false, set_err (lit "password") (Spec.server_message Spec.SRequired) st)
  else if (length s <? 8)%nat then
    (Ok false, set_err (lit "password") (Spec.server_message Spec.SMinLength) st)
  else if (128 <? length s)%nat then
    (Ok false, set_err (lit "password") (Spec.server_message Spec.SMaxLength) st)
  else if negb (anchored_match PASSWORD_REGEX_aheads PASSWORD_REGEX_body s) then
    (Ok false, set_err (lit "password") (Spec.server_message Spec.SComposition) st)
  else (Ok true, st).
Proof.
  unfold validate_password. cbv [bind]. rewrite validate_required_unfold.
  cbv zeta. cbv iota. destruct (blank s); [reflexivity|].
  cbv [negb eval on_str len ret set_error].
  change 8%Z with (Z.of_nat 8). change 128%Z with (Z.of_nat 128).
  rewrite Z_of_nat_ltb, Z_of_nat_gtb.
  destruct (length s <? 8)%nat; [reflexivity|].
  destruct (128 <? length s)%nat; [reflexivity|].
  destruct (anchored_match _ _ s); reflexivity.
Qed.

Lemma validate_password_match_unfold p s st :
  validate_password_match p (VStr s) st =
  if blank s then
    (Ok false, set_err (lit "confirm_password")
                 (lit "Confirm Password is required") st)
  else if negb (value_eqb p (VStr s)) then
    (Ok false, set_err (lit "confirm_password") (lit "Passwords do not match") st)
  else (Ok true, st).
Proof.
  unfold validate_password_match. cbv [bind]. rewrite validate_required_unfold.
  cbv zeta. cbv iota. destruct (blank s); [reflexivity|].
  cbv [negb ret set_error]. destruct (value_eqb p (VStr s)); reflexivity.
Qed.

Lemma validate_name_unfold k s st :
  validate_name k (VStr s) st =
  if blank s then (Ok false, set_err k (label k ++ lit " is required") st)
  else if (length (strip s) <? 2)%nat then
    (Ok false, set_err k (label k ++ lit " must be at least 2 characters") st)
  else if (50 <? length s)%nat then
    (Ok false, set_err k (label k ++ lit " is too long (max 50 characters)") st)
  else if negb (anchored_match [] NAME_REGEX s) then
    (Ok false,
     set_err k (label k ++ lit " can only contain letters, "
                ++ lit "spaces, hyphens, and apostrophes") st)
  else (Ok true, st).
Proof.
  unfold validate_name. cbv [bind]. rewrite validate_required_unfold.
  cbv zeta. cbv iota. destruct (blank s); [reflexivity|].
  cbv [negb eval on_str len ret set_error attr_strip].
  change 2%Z with (Z.of_nat 2). change 50%Z with (Z.of_nat 50).
  rewrite Z_of_nat_ltb, Z_of_nat_gtb.
  destruct (length (strip s) <? 2)%nat; [reflexivity|].
  destruct (50 <? length s)%nat; [reflexivity|].
  destruct (anchored_match [] NAME_REGEX s); reflexivity.
Qed.

(** On anything but a string the four validators go no further than
    [validate_required]. *)
Ltac required_only :=
  cbv [bind]; rewrite validate_required_unfold; cbv zeta; cbv iota;
  repeat match goal with
         | |- context [(?z =? 0)%Z] => destruct (z =? 0)%Z
         | |- context [float_is_zero ?f] => destruct (float_is_zero f)
         end;
  cbv [text_safe negb ret]; eauto.

Lemma validate_name_outcome k v st :
  server_outcome k v st (validate_name k v st).
Proof.
  unfold server_outcome. destruct v as [|z|f|s].
  - unfold validate_name. required_only.
  - unfold validate_name. cbn [text_safe]. required_only.
  - unfold validate_name. cbn [text_safe]. required_only.
  - rewrite validate_name_unfold. cbn [text_safe].
    repeat match goal with
           | |- context [if ?b then _ else _] => destruct b
           end; eauto.
Qed.

Lemma validate_email_outcome v st :
  server_outcome (lit "email") v st (validate_email v st).
Proof.
  unfold server_outcome. destruct v as [|z|f|s].
  - unfold validate_email. required_only.
  - unfold validate_email. cbn [text_safe]. required_only.
  - unfold validate_email. cbn [text_safe]. required_only.
  - rewrite validate_email_unfold. cbn [text_safe].
    repeat match goal with
           | |- context [if ?b then _ else _] => destruct b
           end; eauto.
Qed.

Lemma validate_password_outcome v st :
  server_outcome (lit "password") v st (validate_password v st).
Proof.
  unfold server_outcome. destruct v as [|z|f|s].
  - unfold validate_password. required_only.
  - unfold validate_password. cbn [text_safe]. required_only.
  - unfold validate_password. cbn [text_safe]. required_only.
  - rewrite validate_password_unfold. cbn [text_safe].
    repeat match goal with
           | |- context [if ?b then _ else _] => destruct b
           end; eauto.
Qed.

Lemma validate_password_match_outcome p v st :
  server_outcome (lit "confirm_password") v st (validate_password_match p v st).
Proof.
  unfold server_outcome. destruct v as [|z|f|s].
  - unfold validate_password_match. required_only.
  - unfold validate_password_match. cbn [text_safe]. required_only.
  - unfold validate_password_match. cbn [text_safe]. required_only.
  - rewrite validate_password_match_unfold. cbn [text_safe].
    repeat match goal with
           | |- context [if ?b then _ else _] => destruct b
           end; eauto.
Qed.

Lemma dict_set_not_nil k m d : dict_set k m d <> [].
Proof. destruct d as [|[k' v'] d]; simpl; [|destruct (bool_decide _)]; discriminate. Qed.

(** One field validator after another: take the next one's outcome and go
    on in each of its three cases. *)
Ltac server_case H v :=
  let T := fresh "T" in
  unfold server_outcome in H; destruct (text_safe v) eqn:T;
  [destruct H as [-> | [? ->]] | rewrite H]; cbv iota.

Ltac server_step :=
  match goal with
  | |- context [validate_name ?k ?v ?st] =>
      let H := fresh "H" in
      pose proof (validate_name_outcome k v st) as H; server_case H v
  | |- context [validate_email ?v ?st] =>
      let H := fresh "H" in
      pose proof (validate_email_outcome v st) as H; server_case H v
  | |- context [validate_password ?v ?st] =>
      let H := fresh "H" in
      pose proof (validate_password_outcome v st) as H; server_case H v
  | |- context [validate_password_match ?p ?v ?st] =>
      let H := fresh "H" in
      pose proof (validate_password_match_outcome p v st) as H; server_case H v
  end.

Lemma validate_registration_cases data st :
  match validate_registration data st with
  | (Ok (b, errs), st') =>
      (b = true <-> errs = []) /\ errs = errors st'
      /\ Forall (fun k => text_safe (get_or_empty data k) = true)
           server_text_fields
  | (Raise e, _) =>
      e = AttributeError
      /\ Exists (fun k => text_safe (get_or_empty data k) = false)
           server_text_fields
  end.
Proof.
  unfold validate_registration. cbv [bind put get ret].
  unfold server_text_fields.
  repeat server_step.
  all: split; [try reflexivity|].
  all: try (repeat first [apply Exists_cons_hd; assumption | apply Exists_cons_tl]; fail).
  all: try (split; [reflexivity | repeat (constructor; [assumption|]); constructor]).
  all: cbn [andb errors]; split; intros E; try reflexivity; try discriminate.
  all: exfalso; revert E; apply dict_set_not_nil.
Qed.

End ServerFacts.

(** * The username variant, method by method *)

Section FormFacts.

Import RegistrationForm.

Lemma search_one_item i s :
  search_class (OneOf [i]) s = existsb (item_matches i) s.
Proof.
  unfold search_class. induction s as [|c s IH]; simpl; [reflexivity|].
  rewrite orb_false_r. f_equal. exact IH.
Qed.

Lemma validate_username_unfold s st :
  validate_username (VStr s) st =
  match s with
  | [] => (Ok false, add_err (lit "Username is required") st)
  | _ :: _ =>
      if negb (anchored_match [] USERNAME_PATTERN s) then
        (Ok false,
         add_err (lit "Username must be 3-20 characters long and contain only letters, numbers, and underscores") st)
      else (Ok true, st)
  end.
Proof.
  destruct s as [|c s]; [reflexivity|].
  cbv [validate_username truthy negb bind eval on_str ret append_error].
  destruct (anchored_match [] USERNAME_PATTERN (c :: s)); reflexivity.
Qed.

Lemma validate_email_form_unfold s st :
  validate_email (VStr s) st =
  match s with
  | [] => (Ok false, add_err (lit "Email is required") st)
  | _ :: _ =>
      if negb (anchored_match [] EMAIL_PATTERN s) then
        (Ok false, add_err (lit "Invalid email format") st)
      else (Ok true, st)
  end.
Proof.
  destruct s as [|c s]; [reflexivity|].
  cbv [validate_email truthy negb bind eval on_str ret append_error].
  destruct (anchored_match [] EMAIL_PATTERN (c :: s)); reflexivity.
Qed.

(** The form stops at the first rule of [Spec.form_rules] that the password
    breaks. *)
Lemma validate_password_form_unfold s st :
  validate_password (VStr s) st =
  match List.find (fun r => Spec.form_violates r s) Spec.form_rules with
  | Some r => (Ok false, add_err (Spec.form_message r) st)
  | None => (Ok true, st)
  end.
Proof.
  destruct s as [|c s]; [reflexivity|].
  cbv [validate_password truthy negb bind eval on_str len ret append_error
       PASSWORD_MIN_LENGTH].
  unfold Spec.form_rules. cbn [List.find Spec.form_violates].
  change 8%Z with (Z.of_nat 8). rewrite Z_of_nat_ltb.
  destruct (length (c :: s) <? 8)%nat; [reflexivity|].
  unfold upper_class, lower_class, digit_class. rewrite !search_one_item.
  change (item_matches (CRange (chr "A") (chr "Z")))
    with (between (chr "A") (chr "Z")).
  change (item_matches (CRange (chr "a") (chr "z")))
    with (between (chr "a") (chr "z")).
  change (item_matches CDigit) with isdecimal.
  destruct (existsb (between (chr "A") (chr "Z")) (c :: s)); [|reflexivity].
  destruct (existsb (between (chr "a") (chr "z")) (c :: s)); [|reflexivity].
  destruct (existsb isdecimal (c :: s)); [|reflexivity].
  destruct (search_class special_class (c :: s)); reflexivity.
Qed.

Lemma validate_password_confirmation_unfold p v st :
  validate_password_confirmation p v st =
  if negb (truthy v) then
    (Ok false, add_err (lit "Password confirmation is required") st)
  else if negb (value_eqb p v) then
    (Ok false, add_err (lit "Passwords do not match") st)
  else (Ok true, st).
Proof.
  cbv [validate_password_confirmation bind ret append_error].
  destruct (negb (truthy v)); [reflexivity|].
  destruct (negb (value_eqb p v)); reflexivity.
Qed.

Lemma validate_age_unfold age st :
  validate_age age st =
  match age with
  | VNone => (Ok true, st)
  | _ =>
      match int age with
      | Ok n =>
          if (n <? 13)%Z then
            (Ok false,
             add_err (lit "You must be at least 13 years old to register") st)
          else if (150 <? n)%Z then
            (Ok false, add_err (lit "Please enter a valid age") st)
          else (Ok true, st)
      | Raise OverflowError => (Raise OverflowError, st)
      | Raise _ => (Ok false, add_err (lit "Age must be a valid number") st)
      end
  end.
Proof.
  destruct age as [|z|f|s]; [reflexivity| | |];
    cbv [validate_age int bind ret eval append_error MIN_AGE].
  - rewrite Z.gtb_ltb.
    destruct (z <? 13)%Z; [reflexivity|]. destruct (150 <? z)%Z; reflexivity.
  - destruct f as [sg|sg| |sg m e]; cbn [int_of_float]; try reflexivity;
      rewrite Z.gtb_ltb;
      match goal with
      | |- context [(?z <? 13)%Z] =>
          destruct (z <? 13)%Z; [reflexivity|];
          destruct (150 <? z)%Z; reflexivity
      end.
  - destruct (int_of_str s) as [z|]; [|reflexivity]. rewrite Z.gtb_ltb.
    destruct (z <? 13)%Z; [reflexivity|]. destruct (150 <? z)%Z; reflexivity.
Qed.


Lemma validate_phone_unfold s st :
  validate_phone (VStr s) st =
  match s with
  | [] => (Ok true, st)
  | _ :: _ =>
      if negb (anchored_match [] PHONE_PATTERN s) then
        (Ok false, add_err (lit "Invalid phone number format") st)
      else (Ok true, st)
  end.
Proof.
  destruct s as [|c s]; [reflexivity|].
  cbv [validate_phone truthy negb bind eval on_str ret append_error].
  destruct (anchored_match [] PHONE_PATTERN (c :: s)); reflexivity.
Qed.

Ltac split_ifs :=
  repeat match goal with
         | |- context [if ?b then _ else _] => destruct b
         | |- context [match ?s with [] => _ | _ :: _ => _ end] => destruct s
         | |- context [match ?o with Some _ => _ | None => _ end] => destruct o
         | |- context [match ?o with Ok _ => _ | Raise _ => _ end] => destruct o
         end.

Lemma validate_username_outcome v st :
  form_outcome (negb (text_safe v)) st (validate_username v st).
Proof.
  unfold form_outcome. destruct v as [|z|f|s].
  - simpl. right. eexists. reflexivity.
  - cbv [validate_username truthy text_safe bind eval on_str ret append_error].
    destruct (z =? 0)%Z; simpl; eauto.
  - cbv [validate_username truthy text_safe bind eval on_str ret append_error].
    destruct (float_is_zero f); simpl; eauto.
  - rewrite validate_username_unfold. cbn [text_safe negb]. split_ifs; eauto.
Qed.

Lemma validate_email_form_outcome v st :
  form_outcome (negb (text_safe v)) st (validate_email v st).
Proof.
  unfold form_outcome. destruct v as [|z|f|s].
  - simpl. right. eexists. reflexivity.
  - cbv [validate_email truthy text_safe bind eval on_str ret append_error].
    destruct (z =? 0)%Z; simpl; eauto.
  - cbv [validate_email truthy text_safe bind eval on_str ret append_error].
    destruct (float_is_zero f); simpl; eauto.
  - rewrite validate_email_form_unfold. cbn [text_safe negb]. split_ifs; eauto.
Qed.

Lemma validate_password_form_outcome v st :
  form_outcome (negb (text_safe v)) st (validate_password v st).
Proof.
  unfold form_outcome. destruct v as [|z|f|s].
  - simpl. right. eexists. reflexivity.
  - cbv [validate_password truthy text_safe bind eval len ret append_error].
    destruct (z =? 0)%Z; simpl; eauto.
  - cbv [validate_password truthy text_safe bind eval len ret append_error].
    destruct (float_is_zero f); simpl; eauto.
  - rewrite validate_password_form_unfold. cbn [text_safe negb].
    split_ifs; eauto.
Qed.

Lemma validate_password_confirmation_outcome p v st :
  form_outcome false st (validate_password_confirmation p v st).
Proof.
  unfold form_outcome. rewrite validate_password_confirmation_unfold.
  split_ifs; eauto.
Qed.

(** The age check raises on an infinite float and on nothing else. *)
Lemma validate_age_outcome v st :
  if age_overflows v then validate_age v st = (Raise OverflowError, st)
  else form_outcome false st (validate_age v st).
Proof.
  unfold form_outcome. rewrite validate_age_unfold.
  destruct v as [|z|f|s]; cbn [age_overflows int]; [auto | | |].
  - split_ifs; eauto.
  - destruct f; cbn [int_of_float]; [ | reflexivity | eauto | ]; split_ifs; eauto.
  - split_ifs; eauto.
Qed.

Lemma validate_phone_outcome v st :
  form_outcome (negb (text_safe v)) st (validate_phone v st).
Proof.
  unfold form_outcome. destruct v as [|z|f|s].
  - simpl. left. reflexivity.
  - cbv [validate_phone truthy text_safe bind eval on_str ret append_error].
    destruct (z =? 0)%Z; simpl; eauto.
  - cbv [validate_phone truthy text_safe bind eval on_str ret append_error].
    destruct (float_is_zero f); simpl; eauto.
  - rewrite validate_phone_unfold. cbn [text_safe negb]. split_ifs; eauto.
Qed.

Ltac form_case H b :=
  let T := fresh "T" in
  unfold form_outcome in H;
  match b with
  | false => destruct H as [-> | [? ->]]
  | negb (text_safe ?v) =>
      destruct (text_safe v) eqn:T; cbn [negb] in H;
      [destruct H as [-> | [? ->]] | rewrite H]
  end; cbv iota.

Ltac form_step :=
  match goal with
  | |- context [validate_username ?v ?st] =>
      let H := fresh "H" in
      pose proof (validate_username_outcome v st) as H;
      form_case H (negb (text_safe v))
  | |- context [validate_email ?v ?st] =>
      let H := fresh "H" in
      pose proof (validate_email_form_outcome v st) as H;
      form_case H (negb (text_safe v))
  | |- context [validate_password ?v ?st] =>
      let H := fresh "H" in
      pose proof (validate_password_form_outcome v st) as H;
      form_case H (negb (text_safe v))
  | |- context [validate_password_confirmation ?p ?v ?st] =>
      let H := fresh "H" in
      pose proof (validate_password_confirmation_outcome p v st) as H;
      form_case H false
  | |- context [validate_age ?v ?st] =>
      let H := fresh "H" in
      let T := fresh "T" in
      pose proof (validate_age_outcome v st) as H;
      destruct (age_overflows v) eqn:T;
      [rewrite H; cbv iota | form_case H false]
  | |- context [validate_phone ?v ?st] =>
      let H := fresh "H" in
      pose proof (validate_phone_outcome v st) as H;
      form_case H (negb (text_safe v))
  end.

Lemma validate_cases form_data st :
  match validate form_data st with
  | (Ok b, st') =>
      (b = true <-> get_errors st' = []) /\ get_data st' = form_data
      /\ Forall (fun k => text_safe (form_field form_data k) = true)
           form_text_fields
      /\ age_overflows (get_or_none form_data (lit "age")) = false
  | (Raise e, _) =>
      (e = TypeError
       /\ Exists (fun k => text_safe (form_field form_data k) = false)
            form_text_fields)
      \/ (e = OverflowError
          /\ age_overflows (get_or_none form_data (lit "age")) = true)
  end.
Proof.
  unfold validate. cbv [bind put ret].
  unfold form_text_fields.
  repeat form_step.
  all: try (right; split; reflexivity).
  all: try (left; split; [reflexivity|];
            repeat first [apply Exists_cons_hd; assumption | apply Exists_cons_tl];
            fail).
  all: split; [|split; [reflexivity | split;
         [repeat (constructor; [assumption|]); constructor | reflexivity]]].
  all: cbn [forallb andb id get_errors errors add_err]; split; intros E;
    try reflexivity; try discriminate.
  all: exfalso; revert E; apply app_cons_not_nil.
Qed.

End FormFacts.

(** * What a matched pattern says about the string *)

Section PatternFacts.

Lemma matches_Star_Chr k s :
  matches (Star (Chr k)) s -> forallb (class_matches k) s = true.
Proof.
  intros H. remember (Star (Chr k)) as r eqn:Er.
  induction H as [| | | | | |r0 s1 s2 H1 _ _ IH2]; try discriminate.
  - reflexivity.
  - injection Er as ->. apply matches_Chr in H1 as (c & -> & Hc).
    simpl. rewrite Hc. apply IH2. reflexivity.
Qed.

Lemma matches_plus_Chr k s :
  matches (plus (Chr k)) s -> s <> [] /\ forallb (class_matches k) s = true.
Proof.
  intros (s1 & s2 & -> & (c & -> & Hc)%matches_Chr & H2%matches_Star_Chr)%matches_Cat.
  split; [discriminate|]. simpl. rewrite Hc. exact H2.
Qed.

Lemma matches_at_least_Chr n k s :
  matches (at_least n (Chr k)) s ->
  (n <= length s)%nat /\ forallb (class_matches k) s = true.
Proof.
  revert s. induction n as [|n IH]; intros s; simpl.
  - intros H%matches_Star_Chr. split; [lia | exact H].
  - intros (s1 & s2 & -> & (c & -> & Hc)%matches_Chr & [Hn H2]%IH)%matches_Cat.
    simpl. rewrite Hc. split; [lia | exact H2].
Qed.

Lemma matches_dollar s : matches dollar s <-> s = [] \/ s = [LF].
Proof.
  unfold dollar. rewrite matches_Alt, matches_Eps, matches_Chr. split.
  - intros [-> | (c & -> & Hc)]; [left; reflexivity|]. right.
    simpl in Hc. rewrite orb_false_r in Hc. apply N.eqb_eq in Hc as ->.
    reflexivity.
  - intros [-> | ->]; [left; reflexivity|]. right. exists LF. auto.
Qed.

(** A pattern [^body$] matched: the string is a word of [body], possibly
    followed by one line feed. *)
Lemma anchored_match_body body s :
  anchored_match [] body s = true ->
  exists s1 e, s = s1 ++ e /\ matches body s1 /\ (e = [] \/ e = [LF]).
Proof.
  unfold anchored_match. cbn [forallb andb].
  intros (s1 & e & -> & H1 & He%matches_dollar)%fullmatch_matches%matches_Cat.
  eauto.
Qed.


Lemma not_space_above c : 0x21 <= c -> c <= 0x7E -> isspace c = false.
Proof.
  intros Hlo Hhi. unfold isspace, between.
  repeat match goal with
         | |- context [?a <=? ?b] =>
             destruct (N.leb_spec a b); cbn [andb orb]; try lia
         | |- context [?a =? ?b] =>
             destruct (N.eqb_spec a b); cbn [andb orb]; try lia
         end; reflexivity.
Qed.

Lemma server_email_class_plain c :
  class_matches (NoneOf [CSpace; CChar (chr "@")]) c = true -> plain c.
Proof.
  cbn [class_matches existsb item_matches]. rewrite orb_false_r.
  intros H. apply negb_true_iff, orb_false_iff in H as [Hs Ha].
  split; [exact Hs|]. apply N.eqb_neq, Ha.
Qed.

Lemma forallb_plain k s :
  (forall c, class_matches k c = true -> plain c) ->
  forallb (class_matches k) s = true -> Forall plain s.
Proof.
  intros Hk. induction s as [|c s IH]; simpl; [constructor|].
  intros [Hc Hs]%andb_true_iff. constructor; auto.
Qed.

Lemma server_email_shape s :
  matches RegistrationValidator.EMAIL_REGEX s -> Spec.email_shape s.
Proof.
  unfold RegistrationValidator.EMAIL_REGEX. cbv zeta.
  intros (l & r1 & -> & [Hl Hlp]%matches_plus_Chr & H)%matches_Cat.
  apply matches_Cat in H as (a & r2 & -> & (c & -> & Hc)%matches_Chr & H).
  apply matches_Cat in H as (d & r3 & -> & [Hd Hdp]%matches_plus_Chr & H).
  apply matches_Cat in H as (p & t & -> & (c' & -> & Hc')%matches_Chr & [Ht Htp]%matches_plus_Chr).
  cbn [class_matches existsb item_matches] in Hc, Hc'.
  rewrite orb_false_r in Hc, Hc'. apply N.eqb_eq in Hc as ->, Hc' as ->.
  exists l, d, t. repeat split; try assumption.
  rewrite !Forall_app.
  repeat split; apply (forallb_plain _ _ server_email_class_plain); assumption.
Qed.

Ltac eval_chr :=
  repeat match goal with
         | H : context [chr ?a] |- _ =>
             let v := eval vm_compute in (chr a) in change (chr a) with v in H
         | |- context [chr ?a] =>
             let v := eval vm_compute in (chr a) in change (chr a) with v
         end.

(** Every class of the form's e-mail pattern lies within the printable
    ASCII characters other than [@]. *)
Ltac class_plain H :=
  cbv [class_matches existsb item_matches app RegistrationForm.alnum] in H;
  repeat (apply orb_true_iff in H as [H | H]); try discriminate H;
  first [apply between_spec in H | apply N.eqb_eq in H];
  unfold plain; eval_chr; (split; [apply not_space_above; lia | lia]).

Lemma form_email_shape s :
  matches RegistrationForm.EMAIL_PATTERN s -> Spec.email_shape s.
Proof.
  unfold RegistrationForm.EMAIL_PATTERN.
  intros (l & r1 & -> & [Hl Hlp]%matches_plus_Chr & H)%matches_Cat.
  apply matches_Cat in H as (a & r2 & -> & (c & -> & Hc)%matches_Chr & H).
  apply matches_Cat in H as (d & r3 & -> & [Hd Hdp]%matches_plus_Chr & H).
  apply matches_Cat in H as (p & t & -> & (c' & -> & Hc')%matches_Chr & [Ht Htp]%matches_at_least_Chr).
  cbn [class_matches existsb item_matches] in Hc, Hc'.
  rewrite orb_false_r in Hc, Hc'. apply N.eqb_eq in Hc as ->, Hc' as ->.
  exists l, d, t. repeat split; try assumption.
  - destruct t; [inversion Ht | discriminate].
  - rewrite !Forall_app.
    repeat split; (eapply forallb_plain; [|eassumption]);
      intros x Hx; class_plain Hx.
Qed.

Lemma drop_while_nil p s : drop_while p s = [] -> forallb p s = true.
Proof.
  induction s as [|c s IH]; simpl; [reflexivity|].
  destruct (p c); [exact IH | discriminate].
Qed.

(** A string with a character that is not whitespace is not blank. *)
Lemma not_blank s c : In c s -> isspace c = false -> blank s = false.
Proof.
  intros Hin Hc. unfold blank, strip, rstrip, lstrip.
  destruct (rev _) as [|x r] eqn:E; [|reflexivity]. exfalso.
  apply (f_equal (@rev _)) in E. rewrite rev_involutive in E. simpl in E.
  apply drop_while_nil in E. rewrite forallb_rev in E.
  assert (Hall : forallb isspace s = true).
  { clear Hin. induction s as [|y s IH]; [reflexivity|].
    simpl in *. destruct (isspace y) eqn:Ey; [auto|].
    simpl in E. rewrite Ey in E. discriminate. }
  rewrite forallb_forall in Hall. apply Hall in Hin. congruence.
Qed.

Lemma email_shape_not_blank s e : Spec.email_shape s -> blank (s ++ e) = false.
Proof.
  intros (l & d & t & -> & _). apply (not_blank _ (chr "@")); [|reflexivity].
  rewrite !in_app_iff. left. right. left. left. reflexivity.
Qed.

(** What the first_name/last_name variant lets through as a password: at
    least 8 characters of the class of PASSWORD_REGEX, and after them
    nothing or one line feed. *)
Lemma server_password_charset pw st st' :
  RegistrationValidator.validate_password (VStr pw) st = (Ok true, st') ->
  exists body e,
    pw = body ++ e /\ (e = [] \/ e = [LF])
    /\ (8 <= length body)%nat
    /\ forallb (class_matches RegistrationValidator.password_chars) body = true.
Proof.
  rewrite validate_password_unfold.
  destruct (blank pw); [discriminate|].
  destruct (length pw <? 8)%nat; [discriminate|].
  destruct (128 <? length pw)%nat; [discriminate|].
  destruct (anchored_match _ _ pw) eqn:Em; [|discriminate]. intros _.
  unfold anchored_match in Em. apply andb_true_iff in Em as [_ Em].
  apply fullmatch_matches, matches_Cat in Em
    as (body & e & -> & Hbody & He%matches_dollar).
  apply matches_at_least_Chr in Hbody as [Hlen Hall].
  exists body, e. auto.
Qed.

End PatternFacts.

(** * The properties of the specification *)

Section Properties.

(** C1. The validity flag of a full validation equals the emptiness of the
    errors: whenever [validate_registration] returns [(valid, errors)],
    [valid] is true exactly when [errors] is empty ([errors] being what the
    instance has accumulated), and whenever [RegistrationForm.validate]
    returns, its result is true exactly when [get_errors()] is empty
    afterwards.  A call that does not return has raised on a text field that
    holds a non-zero number or, in the username variant, on an age that is
    an infinite float. *)
Theorem valid_iff_no_errors :
  (forall data st,
     match RegistrationValidator.validate_registration data st with
     | (Ok (valid, errs), st') =>
         (valid = true <-> errs = [])
         /\ errs = RegistrationValidator.errors st'
     | (Raise _, _) =>
         Exists (fun k => text_safe (get_or_empty data k) = false)
           server_text_fields
     end)
  /\ (forall form_data st,
     match RegistrationForm.validate form_data st with
     | (Ok valid, st') => valid = true <-> RegistrationForm.get_errors st' = []
     | (Raise _, _) =>
         Exists (fun k => text_safe (form_field form_data k) = false)
           form_text_fields
         \/ age_overflows (get_or_none form_data (lit "age")) = true
     end).
Proof.
  split.
  - intros data st. pose proof (validate_registration_cases data st) as H.
    destruct (RegistrationValidator.validate_registration data st)
      as [[[valid errs]|e] st']; tauto.
  - intros form_data st. pose proof (validate_cases form_data st) as H.
    destruct (RegistrationForm.validate form_data st) as [[valid|e] st']; tauto.
Qed.

(** C7. Validation is deterministic and idempotent: a full validation gives
    the same outcome and leaves the same errors whatever the instance held
    before (two new instances, or twice the same one), since it starts by
    resetting the error accumulator. *)
Theorem validation_idempotent :
  (forall data st1 st2,
     RegistrationValidator.validate_registration data st1
     = RegistrationValidator.validate_registration data st2)
  /\ (forall data st,
     RegistrationValidator.validate_registration data
       (snd (RegistrationValidator.validate_registration data st))
     = RegistrationValidator.validate_registration data st)
  /\ (forall data st,
     RegistrationValidator.validate_registration_data data
     = fst (RegistrationValidator.validate_registration data st))
  /\ (forall form_data st1 st2,
     RegistrationForm.validate form_data st1
     = RegistrationForm.validate form_data st2)
  /\ (forall form_data st,
     RegistrationForm.validate form_data
       (snd (RegistrationForm.validate form_data st))
     = RegistrationForm.validate form_data st).
Proof.
  (* [validate_registration] and [validate] begin with [put]: what the
     instance held is dropped before anything reads it. *)
  unfold RegistrationValidator.validate_registration_data,
    RegistrationValidator.validate_registration, RegistrationForm.validate.
  cbv [bind put].
  repeat apply conj; intros; reflexivity.
Qed.


(** C2, amended.  Password validation reports one error, that of the first
    rule the password breaks, and evaluates no rule after it: required,
    minimum length, uppercase, lowercase, digit, special character in the
    username variant; required, minimum length, maximum length, composition
    (one message for the four character classes) in the other. *)
Theorem password_reports_first_failing_rule :
  (forall pw st,
     RegistrationForm.validate_password (VStr pw) st =
     match List.find (fun r => Spec.form_violates r pw) Spec.form_rules with
     | Some r => (Ok false, add_err (Spec.form_message r) st)
     | None => (Ok true, st)
     end)
  /\ (forall pw st,
     RegistrationValidator.validate_password (VStr pw) st =
     match List.find (fun r => Spec.server_violates r pw) Spec.server_rules with
     | Some r => (Ok false, set_err (lit "password") (Spec.server_message r) st)
     | None => (Ok true, st)
     end).
Proof.
  split; intros pw st.
  - apply validate_password_form_unfold.
  - rewrite validate_password_unfold.
    unfold Spec.server_rules. cbn [List.find Spec.server_violates].
    fold (blank pw).
    destruct (blank pw); [reflexivity|].
    destruct (length pw <? 8)%nat; [reflexivity|].
    destruct (128 <? length pw)%nat; [reflexivity|].
    destruct (negb _); reflexivity.
Qed.



(** C6.  An age that is an infinite float (what the JSON number 1e999
    gives) is present and [int] cannot parse it, yet the age check records
    no error: it raises [OverflowError], which the [except] clause of
    [validate_age] does not name, and so does the full validation of the
    test payload with that age. *)
Theorem validate_age_infinity_raises :
  let age := VFloat (S754_infinity false) in
  int age = Raise OverflowError
  /\ RegistrationForm.validate_age age RegistrationForm.new
     = (Raise OverflowError, RegistrationForm.new)
  /\ RegistrationForm.validate
       (<[lit "age" := age]> (form_payload (VStr (lit "john@example.com"))))
       RegistrationForm.new
     = (Raise OverflowError,
        {| RegistrationForm.errors := [];
           RegistrationForm.data :=
             <[lit "age" := age]>
               (form_payload (VStr (lit "john@example.com"))) |}).
Proof. cbv zeta. repeat apply conj; vm_compute; reflexivity. Qed.

(** X17. Age validation, case by case: [None] (an absent age) passes with no
    error; a present age on which [int] raises [ValueError] or [TypeError]
    gives "Age must be a valid number"; one on which it raises
    [OverflowError] makes the check raise it, with no error recorded; a
    parsed age below 13 or above 150 gives the error of its side of the
    range; every age from 13 to 150 passes with no error.  A float is parsed
    to the integer it has before its fractional part. *)
Theorem validate_age_spec :
  (forall st, RegistrationForm.validate_age VNone st = (Ok true, st))
  /\ (forall form_data,
     form_data !! lit "age" = None -> get_or_none form_data (lit "age") = VNone)
  /\ (forall age st e,
     age <> VNone -> int age = Raise e -> e = ValueError \/ e = TypeError ->
     RegistrationForm.validate_age age st
     = (Ok false, add_err (lit "Age must be a valid number") st))
  /\ (forall age st,
     int age = Raise OverflowError ->
     RegistrationForm.validate_age age st = (Raise OverflowError, st))
  /\ (forall age st n,
     int age = Ok n -> (n < 13)%Z ->
     RegistrationForm.validate_age age st
     = (Ok false,
        add_err (lit "You must be at least 13 years old to register") st))
  /\ (forall age st n,
     int age = Ok n -> (150 < n)%Z ->
     RegistrationForm.validate_age age st
     = (Ok false, add_err (lit "Please enter a valid age") st))
  /\ (forall age st n,
     int age = Ok n -> (13 <= n <= 150)%Z ->
     RegistrationForm.validate_age age st = (Ok true, st)).
Proof.
  repeat apply conj.
  - reflexivity.
  - intros form_data H. unfold get_or_none. rewrite H. reflexivity.
  - intros age st e Hage Hint He. rewrite validate_age_unfold, Hint.
    destruct age; [contradiction | | |]; destruct He as [-> | ->]; reflexivity.
  - intros age st Hint. rewrite validate_age_unfold, Hint.
    destruct age; [discriminate | | |]; reflexivity.
  - intros age st n Hint Hn. rewrite validate_age_unfold, Hint.
    destruct age; [discriminate | | |];
      (destruct (Z.ltb_spec n 13); [reflexivity | lia]).
  - intros age st n Hint Hn. rewrite validate_age_unfold, Hint.
    destruct age; [discriminate | | |];
      (destruct (Z.ltb_spec n 13); [lia|]);
      (destruct (Z.ltb_spec 150 n); [reflexivity | lia]).
  - intros age st n Hint Hn. rewrite validate_age_unfold, Hint.
    destruct age; [discriminate | | |];
      (destruct (Z.ltb_spec n 13); [lia|]);
      (destruct (Z.ltb_spec 150 n); [lia | reflexivity]).
Qed.

(** C9.  The password "Abcdef1!" followed by a line feed holds a character
    outside the letters, digits and [@$!%*?&#], and the first_name/last_name
    variant accepts it: [$] also matches before a line feed that ends the
    string. *)
Theorem password_trailing_newline_accepted :
  let pw := lit "Abcdef1!" ++ [LF] in
  class_matches RegistrationValidator.password_chars LF = false
  /\ In LF pw
  /\ RegistrationValidator.validate_password (VStr pw) RegistrationValidator.new
     = (Ok true, RegistrationValidator.new).
Proof.
  cbv zeta. split; [reflexivity | split; [|vm_compute; reflexivity]].
  apply in_or_app. right. left. reflexivity.
Qed.

End Properties.

(** * The properties at concrete inputs *)

Section Instances.

(** C2 as stated fails on "abc": it is too short, has no uppercase letter
    and no digit, and both variants report the length alone. *)
Lemma password_not_every_rule_reported :
  let pw := lit "abc" in
  Spec.form_violates Spec.FMinLength pw = true
  /\ Spec.form_violates Spec.FUppercase pw = true
  /\ Spec.form_violates Spec.FDigit pw = true
  /\ RegistrationForm.get_errors
       (snd (RegistrationForm.validate_password (VStr pw) RegistrationForm.new))
     = [lit "Password must be at least 8 characters long"]
  /\ RegistrationValidator.errors
       (snd (RegistrationValidator.validate_password (VStr pw)
               RegistrationValidator.new))
     = [(lit "password", lit "Password must be at least 8 characters long")]
  /\ ~ Spec.reports_every_failing_rule pw.
Proof.
  cbv zeta. repeat apply conj; try (vm_compute; reflexivity).
  intros H. specialize (H Spec.FUppercase eq_refl).
  vm_compute in H. destruct H as [H | []]. discriminate H.
Qed.







(** The ages "abc", NaN, minus infinity, 12, 12.5, 151 and " 150 ". *)
Lemma validate_age_spec_witness :
  RegistrationForm.validate_age (VStr (lit "abc")) RegistrationForm.new
  = (Ok false, add_err (lit "Age must be a valid number") RegistrationForm.new)
  /\ RegistrationForm.validate_age (VFloat S754_nan) RegistrationForm.new
     = (Ok false, add_err (lit "Age must be a valid number") RegistrationForm.new)
  /\ RegistrationForm.validate_age (VFloat (S754_infinity true))
       RegistrationForm.new
     = (Raise OverflowError, RegistrationForm.new)
  /\ RegistrationForm.validate_age (VInt 12) RegistrationForm.new
     = (Ok false,
        add_err (lit "You must be at least 13 years old to register")
          RegistrationForm.new)
  /\ RegistrationForm.validate_age (VFloat (S754_finite false 25 (-1)))
       RegistrationForm.new
     = (Ok false,
        add_err (lit "You must be at least 13 years old to register")
          RegistrationForm.new)
  /\ RegistrationForm.validate_age (VInt 151) RegistrationForm.new
     = (Ok false, add_err (lit "Please enter a valid age") RegistrationForm.new)
  /\ RegistrationForm.validate_age (VStr (lit " 150 ")) RegistrationForm.new
     = (Ok true, RegistrationForm.new).
Proof.
  destruct validate_age_spec as (_ & _ & Hbad & Hover & Hlow & Hhigh & Hin).
  repeat apply conj.
  - apply Hbad with (e := ValueError);
      [discriminate | vm_compute; reflexivity | left; reflexivity].
  - apply Hbad with (e := ValueError);
      [discriminate | reflexivity | left; reflexivity].
  - apply Hover. reflexivity.
  - apply Hlow with (n := 12%Z); [reflexivity | lia].
  - apply Hlow with (n := 12%Z); [reflexivity | lia].
  - apply Hhigh with (n := 151%Z); [reflexivity | lia].
  - apply Hin with (n := 150%Z); [vm_compute; reflexivity | lia].
Defined.

Example server_valid_payload :
  RegistrationValidator.validate_registration_data
    (input [("first_name", VStr (lit "John")); ("last_name", VStr (lit "Doe"));
            ("email", VStr (lit "john.doe@example.com"));
            ("password", VStr (lit "SecurePass123!"));
            ("confirm_password", VStr (lit "SecurePass123!"))])
  = Ok (true, []).
Proof. vm_compute. reflexivity. Qed.

Example server_empty_payload :
  RegistrationValidator.validate_registration_data (input [])
  = Ok (false,
        [(lit "first_name", lit "First Name is required");
         (lit "last_name", lit "Last Name is required");
         (lit "email", lit "Email is required");
         (lit "password", lit "Password is required");
         (lit "confirm_password", lit "Confirm Password is required")]).
Proof. vm_compute. reflexivity. Qed.

Example sanitize_test :
  RegistrationValidator.sanitize_input
    (VStr (lit "Hello" ++ [0] ++ lit "World" ++ [0x1F] ++ lit "  Test  "))
  = Ok (lit "HelloWorld Test").
Proof. vm_compute. reflexivity. Qed.

(** Field names in title case: the names of the source, a name with an
    accented letter, a capital sigma at the end of a word and inside one, a
    sharp s, and an apostrophe and a digit, after which a new word starts. *)
Example label_examples :
  RegistrationValidator.label (lit "first_name") = lit "First Name"
  /\ RegistrationValidator.label (lit "confirm_password")
     = lit "Confirm Password"
  /\ title [0xE9; 0x61] = [0xC9; 0x61]
  /\ title [0x391; 0x3A3] = [0x391; 0x3C2]
  /\ title [0x391; 0x3A3; 0x391] = [0x391; 0x3C3; 0x3B1]
  /\ title [0xDF; 0x61] = [0x53; 0x73; 0x61]
  /\ title (lit "o'neil") = lit "O'Neil"
  /\ title (lit "x2y") = lit "X2Y"
  /\ RegistrationValidator.validate_required [0xE9; 0x61] VNone
       RegistrationValidator.new
     = (Ok false,
        set_err [0xE9; 0x61] ([0xC9; 0x61] ++ lit " is required")
          RegistrationValidator.new).
Proof. repeat apply conj; vm_compute; reflexivity. Qed.

(** Numbers by value: 1 and 1.0 are equal, a NaN equals nothing, and the
    floats 17.375 and -0.5 are the integers 17 and 0 to [int]. *)
Example number_examples :
  value_eqb (VInt 1) (VFloat (S754_finite false 1 0)) = true
  /\ value_eqb (VFloat (S754_finite false 2 (-1))) (VInt 1) = true
  /\ value_eqb (VFloat S754_nan) (VFloat S754_nan) = false
  /\ value_eqb (VFloat (S754_zero true)) (VInt 0) = true
  /\ truthy (VFloat S754_nan) = true
  /\ truthy (VFloat (S754_zero true)) = false
  /\ int (VFloat (S754_finite false 139 (-3))) = Ok 17%Z
  /\ int (VFloat (S754_finite true 1 (-1))) = Ok 0%Z.
Proof. repeat apply conj; vm_compute; reflexivity. Qed.

Example form_valid_payload :
  RegistrationForm.validate
    (input [("username", VStr (lit "john_doe")); ("email", VStr (lit "john@example.com"));
            ("password", VStr (lit "SecurePass123!"));
            ("confirm_password", VStr (lit "SecurePass123!"));
            ("age", VInt 25); ("phone", VStr (lit "+1 (555) 123-4567"))])
    RegistrationForm.new
  = (Ok true,
     {| RegistrationForm.errors := [];
        RegistrationForm.data :=
          input [("username", VStr (lit "john_doe")); ("email", VStr (lit "john@example.com"));
            ("password", VStr (lit "SecurePass123!"));
            ("confirm_password", VStr (lit "SecurePass123!"));
            ("age", VInt 25); ("phone", VStr (lit "+1 (555) 123-4567"))] |}).
Proof. vm_compute. reflexivity. Qed.

End Instances.

(** * More of the code: patterns, exactly *)

Section PatternsExactly.

Lemma forallb_matches_Star k s :
  forallb (class_matches k) s = true -> matches (Star (Chr k)) s.
Proof.
  induction s as [|c s IH]; simpl; [constructor|].
  intros [Hc Hs]%andb_true_iff.
  apply (MStarApp (Chr k) [c] s); [constructor; exact Hc | auto].
Qed.

Lemma matches_Star_Chr_iff k s :
  matches (Star (Chr k)) s <-> forallb (class_matches k) s = true.
Proof. split; [apply matches_Star_Chr | apply forallb_matches_Star]. Qed.

Lemma matches_plus_Chr_iff k s :
  matches (plus (Chr k)) s <-> s <> [] /\ forallb (class_matches k) s = true.
Proof.
  split; [apply matches_plus_Chr|].
  intros [Hne Hall]. destruct s as [|c s]; [contradiction|].
  simpl in Hall. apply andb_true_iff in Hall as [Hc Hs].
  apply (MCat (Chr k) (Star (Chr k)) [c] s);
    [constructor; exact Hc | apply forallb_matches_Star, Hs].
Qed.

Lemma matches_at_least_Chr_iff n k s :
  matches (at_least n (Chr k)) s <->
  (n <= length s)%nat /\ forallb (class_matches k) s = true.
Proof.
  split; [apply matches_at_least_Chr|].
  revert s. induction n as [|n IH]; intros s [Hlen Hall]; simpl.
  - apply forallb_matches_Star, Hall.
  - destruct s as [|c s]; [simpl in Hlen; lia|].
    simpl in Hall, Hlen. apply andb_true_iff in Hall as [Hc Hs].
    apply (MCat (Chr k) _ [c] s); [constructor; exact Hc|].
    apply IH. split; [lia | exact Hs].
Qed.

Lemma matches_at_most_Chr_iff n k s :
  matches (at_most n (Chr k)) s <->
  (length s <= n)%nat /\ forallb (class_matches k) s = true.
Proof.
  revert s. induction n as [|n IH]; intros s; simpl.
  - rewrite matches_Eps. split.
    + intros ->. split; [reflexivity | reflexivity].
    + intros [Hlen _]. destruct s; [reflexivity | simpl in Hlen; lia].
  - unfold opt. rewrite matches_Alt, matches_Eps, matches_Cat. split.
    + intros [-> | (s1 & s2 & -> & (c & -> & Hc)%matches_Chr & [Hlen Hall]%IH)].
      * split; [simpl; lia | reflexivity].
      * simpl. rewrite Hc. split; [lia | exact Hall].
    + intros [Hlen Hall]. destruct s as [|c s]; [left; reflexivity|]. right.
      simpl in Hall, Hlen. apply andb_true_iff in Hall as [Hc Hs].
      exists [c], s. split; [reflexivity|]. split; [constructor; exact Hc|].
      apply IH. split; [lia | exact Hs].
Qed.

Lemma matches_from_to_Chr_iff m n k s :
  matches (from_to m n (Chr k)) s <->
  (m <= length s <= m + n)%nat /\ forallb (class_matches k) s = true.
Proof.
  revert s. induction m as [|m IH]; intros s; simpl.
  - rewrite matches_at_most_Chr_iff. split; intros [H1 H2]; (split; [lia | exact H2]).
  - rewrite matches_Cat. split.
    + intros (s1 & s2 & -> & (c & -> & Hc)%matches_Chr & [Hlen Hall]%IH).
      simpl. rewrite Hc. split; [lia | exact Hall].
    + intros [Hlen Hall]. destruct s as [|c s]; [simpl in Hlen; lia|].
      simpl in Hall, Hlen. apply andb_true_iff in Hall as [Hc Hs].
      exists [c], s. split; [reflexivity|]. split; [constructor; exact Hc|].
      apply IH. split; [lia | exact Hs].
Qed.

Lemma anchored_match_iff body s :
  anchored_match [] body s = true <->
  exists s1 e, s = s1 ++ e /\ matches body s1 /\ (e = [] \/ e = [LF]).
Proof.
  split; [apply anchored_match_body|].
  intros (s1 & e & -> & H1 & He). unfold anchored_match. cbn [forallb andb].
  apply fullmatch_matches, MCat; [exact H1 | apply matches_dollar, He].
Qed.

Lemma chomp_snoc_LF s : chomp (s ++ [LF]) = s.
Proof.
  unfold chomp. rewrite rev_app_distr. simpl. apply rev_involutive.
Qed.

Lemma chomp_no_LF s : last s <> Some LF -> chomp s = s.
Proof.
  unfold chomp. intros Hlast. destruct (rev s) as [|c r] eqn:E; [reflexivity|].
  destruct (N.eqb_spec c LF) as [->|]; [|reflexivity]. exfalso. apply Hlast.
  apply (f_equal (@rev _)) in E. rewrite rev_involutive in E. subst s.
  simpl. apply last_snoc.
Qed.

Lemma last_forallb (p : char -> bool) s c :
  forallb p s = true -> last s = Some c -> p c = true.
Proof.
  intros Hall Hlast. rewrite forallb_forall in Hall. apply Hall.
  apply list_elem_of_In. apply last_Some_elem_of, Hlast.
Qed.

(** A pattern [^body$] whose words never end in a line feed decides on the
    string without its final line feed. *)
Lemma anchored_match_chomp body s :
  (forall t, matches body t -> last t <> Some LF) ->
  anchored_match [] body s = true <-> matches body (chomp s).
Proof.
  intros Hbody. rewrite anchored_match_iff. split.
  - intros (s1 & e & -> & H1 & [-> | ->]).
    + rewrite app_nil_r, chomp_no_LF; [exact H1 | apply Hbody, H1].
    + rewrite chomp_snoc_LF. exact H1.
  - intros H. unfold chomp in *. destruct (rev s) as [|c r] eqn:E.
    + exists s, []. rewrite app_nil_r. auto.
    + destruct (N.eqb_spec c LF) as [->|].
      * exists (rev r), [LF]. split; [|auto].
        rewrite <- (rev_involutive s), E. reflexivity.
      * exists s, []. rewrite app_nil_r. auto.
Qed.

Lemma class_no_LF_last k (s : pystr) :
  class_matches k LF = false -> forallb (class_matches k) s = true ->
  last s <> Some LF.
Proof.
  intros Hk Hall Hlast. apply (last_forallb _ _ _ Hall) in Hlast. congruence.
Qed.

End PatternsExactly.

Section FieldsExactly.

Lemma forallb_isspace_blank s : forallb isspace s = true -> blank s = true.
Proof.
  intros H. unfold blank, strip, rstrip, lstrip.
  rewrite (drop_while_all isspace s H). reflexivity.
Qed.

Lemma blank_has_text s : blank s = negb (has_text s).
Proof.
  unfold has_text. destruct (existsb _ s) eqn:E; simpl.
  - apply existsb_exists in E as (c & Hin & Hc).
    apply negb_true_iff in Hc. apply (not_blank s c Hin Hc).
  - apply forallb_isspace_blank. apply forallb_forall. intros c Hin.
    destruct (isspace c) eqn:Ec; [reflexivity|]. exfalso.
    assert (existsb (fun c => negb (isspace c)) s = true).
    { apply existsb_exists. exists c. rewrite Ec. auto. }
    congruence.
Qed.

(** X1. [validate_required] passes a string exactly when one of its
    characters is not Unicode whitespace, and leaves the instance as it
    was; otherwise, and for [None] and a number that is zero, it records
    "<Field Name> is required" under the field's key, the name being the
    key with underscores as spaces and in title case, as [str.title] gives
    it.  A non-zero number, integer or float, raises [AttributeError]. *)
Theorem validate_required_exactly k v st :
  RegistrationValidator.validate_required k v st =
  let required :=
    (Ok false,
     set_err k (title (replace (chr "_") (lit " ") k) ++ lit " is required") st)
  in
  match v with
  | VStr s => if has_text s then (Ok true, st) else required
  | VNone => required
  | VInt z => if (z =? 0)%Z then required else (Raise AttributeError, st)
  | VFloat f =>
      if float_is_zero f then required else (Raise AttributeError, st)
  end.
Proof.
  rewrite validate_required_unfold. cbv zeta. destruct v as [|z|f|s].
  - reflexivity.
  - reflexivity.
  - reflexivity.
  - rewrite blank_has_text. destruct (has_text s); reflexivity.
Qed.

Lemma name_class_no_LF : class_matches name_class LF = false.
Proof. reflexivity. Qed.

Lemma validate_name_iff k s st :
  RegistrationValidator.validate_name k (VStr s) st = (Ok true, st) <->
  (2 <= length (strip s))%nat /\ (length s <= 50)%nat
  /\ chomp s <> [] /\ forallb (class_matches name_class) (chomp s) = true.
Proof.
  rewrite validate_name_unfold.
  assert (Hm : anchored_match [] RegistrationValidator.NAME_REGEX s = true <->
               chomp s <> [] /\ forallb (class_matches name_class) (chomp s) = true).
  { rewrite anchored_match_chomp.
    - apply matches_plus_Chr_iff.
    - intros t [_ Ht]%matches_plus_Chr.
      apply (class_no_LF_last _ _ name_class_no_LF Ht). }
  destruct (blank s) eqn:Eb.
  - split; [discriminate|]. intros (Hlen & _). exfalso.
    unfold blank in Eb. destruct (strip s); [simpl in Hlen; lia | discriminate].
  - destruct (Nat.ltb_spec (length (strip s)) 2).
    { split; [discriminate | lia]. }
    destruct (Nat.ltb_spec 50 (length s)).
    { split; [discriminate | lia]. }
    destruct (anchored_match [] RegistrationValidator.NAME_REGEX s) eqn:Em; cbn [negb].
    + split; [intros _ | reflexivity]. destruct Hm as [Hm _].
      specialize (Hm eq_refl). tauto.
    + split; [discriminate|]. intros (_ & _ & H1 & H2).
      assert (false = true) by (apply Hm; auto). discriminate.
Qed.

(** X2. [validate_name] accepts a string exactly when it has at least 2
    characters once stripped, at most 50 as given, and, the line feed that
    may end it apart, is a non-empty run of ASCII letters, spaces,
    apostrophes and hyphens.  An accepted name leaves the instance as it
    was. *)
Theorem validate_name_exactly k s st :
  RegistrationValidator.validate_name k (VStr s) st = (Ok true, st) <->
  (2 <= length (strip s))%nat /\ (length s <= 50)%nat
  /\ chomp s <> [] /\ forallb (class_matches name_class) (chomp s) = true.
Proof.
  split.
  - intros H. apply (validate_name_iff k s st), H.
  - intros H. apply (validate_name_iff k s st), H.
Qed.

Lemma username_class_no_LF : class_matches username_class LF = false.
Proof. reflexivity. Qed.

(** X3. [validate_username] accepts a string exactly when, the line feed
    that may end it apart, it has 3 to 20 characters, all of them ASCII
    letters, ASCII digits or underscores. *)
Theorem validate_username_exactly s st :
  RegistrationForm.validate_username (VStr s) st = (Ok true, st) <->
  (3 <= length (chomp s) <= 20)%nat
  /\ forallb (class_matches username_class) (chomp s) = true.
Proof.
  rewrite validate_username_unfold.
  assert (Hm : anchored_match [] RegistrationForm.USERNAME_PATTERN s = true <->
               (3 <= length (chomp s) <= 20)%nat
               /\ forallb (class_matches username_class) (chomp s) = true).
  { rewrite anchored_match_chomp.
    - unfold RegistrationForm.USERNAME_PATTERN.
      rewrite matches_from_to_Chr_iff. reflexivity.
    - intros t [_ Ht]%matches_from_to_Chr_iff.
      apply (class_no_LF_last _ _ username_class_no_LF Ht). }
  destruct s as [|c s].
  - split; [discriminate|]. intros [Hlen _]. simpl in Hlen. lia.
  - destruct (anchored_match [] RegistrationForm.USERNAME_PATTERN (c :: s)) eqn:Em;
      cbn [negb].
    + split; [intros _; apply Hm; reflexivity | reflexivity].
    + split; [discriminate|]. intros H. apply Hm in H. discriminate.
Qed.

(** X4. [validate_phone] accepts a string exactly when it is empty or has
    at least 10 characters, all of them decimal digits, whitespace or one
    of [-+()]; it asks for no digit. *)
Theorem validate_phone_exactly s st :
  RegistrationForm.validate_phone (VStr s) st = (Ok true, st) <->
  s = [] \/ ((10 <= length s)%nat
             /\ forallb (class_matches phone_class) s = true).
Proof.
  rewrite validate_phone_unfold.
  assert (Hm : anchored_match [] RegistrationForm.PHONE_PATTERN s = true <->
               (10 <= length s)%nat
               /\ forallb (class_matches phone_class) s = true).
  { rewrite anchored_match_iff.
    unfold RegistrationForm.PHONE_PATTERN, phone_class. split.
    - intros (s1 & e & -> & [Hlen Hall]%matches_at_least_Chr_iff & [-> | ->]).
      + rewrite app_nil_r. auto.
      + rewrite length_app, forallb_app, Hall. simpl. split; [lia | reflexivity].
    - intros H. exists s, []. rewrite app_nil_r.
      split; [reflexivity|]. split; [apply matches_at_least_Chr_iff, H | auto]. }
  destruct s as [|c s].
  - split; [auto | reflexivity].
  - destruct (anchored_match [] RegistrationForm.PHONE_PATTERN (c :: s)) eqn:Em;
      cbn [negb].
    + split; [intros _; right; apply Hm; reflexivity | reflexivity].
    + split; [discriminate|]. intros [H | H]; [discriminate|].
      apply Hm in H. discriminate.
Qed.

End FieldsExactly.

Section EmailsAndPasswords.

Lemma chomp_split s : exists e, s = chomp s ++ e /\ (e = [] \/ e = [LF]).
Proof.
  unfold chomp. destruct (rev s) as [|c r] eqn:E.
  - exists []. rewrite app_nil_r. auto.
  - destruct (N.eqb_spec c LF) as [->|].
    + exists [LF]. split; [|auto].
      rewrite <- (rev_involutive s), E. reflexivity.
    + exists []. rewrite app_nil_r. auto.
Qed.

Lemma plain_class c :
  plain c -> class_matches (NoneOf [CSpace; CChar (chr "@")]) c = true.
Proof.
  intros [Hs Ha]. cbn [class_matches existsb item_matches].
  rewrite Hs. apply N.eqb_neq in Ha. rewrite Ha. reflexivity.
Qed.

Lemma Forall_plain_forallb s :
  Forall plain s ->
  forallb (class_matches (NoneOf [CSpace; CChar (chr "@")])) s = true.
Proof.
  induction 1 as [|c s Hc _ IH]; [reflexivity|].
  cbn [forallb]. rewrite (plain_class c Hc), IH. reflexivity.
Qed.

Lemma email_shape_matches t :
  Spec.email_shape t -> matches RegistrationValidator.EMAIL_REGEX t.
Proof.
  intros (l & d & p & -> & Hl & Hd & Hp & Hall).
  apply Forall_app in Hall as [Hal Hall]. apply Forall_app in Hall as [Had Hap].
  unfold RegistrationValidator.EMAIL_REGEX. cbv zeta.
  apply MCat; [apply matches_plus_Chr_iff; split;
               [exact Hl | apply Forall_plain_forallb, Hal]|].
  apply MCat; [constructor; reflexivity|].
  apply MCat; [apply matches_plus_Chr_iff; split;
               [exact Hd | apply Forall_plain_forallb, Had]|].
  apply MCat; [constructor; reflexivity|].
  apply matches_plus_Chr_iff. split; [exact Hp | apply Forall_plain_forallb, Hap].
Qed.

Lemma email_shape_no_LF t : Spec.email_shape t -> last t <> Some LF.
Proof.
  intros (l & d & p & -> & _ & _ & Hp & Hall) Hlast.
  apply Forall_app in Hall as [_ Hall]. apply Forall_app in Hall as [_ Hap].
  rewrite !app_assoc in Hlast.
  destruct (rev p) as [|c r] eqn:E.
  { apply Hp. rewrite <- (rev_involutive p), E. reflexivity. }
  assert (Ep : p = rev r ++ [c])
    by (rewrite <- (rev_involutive p), E; reflexivity).
  rewrite Ep, app_assoc, last_snoc in Hlast. injection Hlast as ->.
  rewrite Ep in Hap. apply Forall_app in Hap as [_ Hc].
  inversion Hc as [|? ? [Hs _] _]; subst. discriminate Hs.
Qed.

Lemma server_email_match s :
  anchored_match [] RegistrationValidator.EMAIL_REGEX s = true <->
  Spec.email_shape (chomp s).
Proof.
  rewrite anchored_match_chomp.
  - split; [apply server_email_shape | apply email_shape_matches].
  - intros t Ht. apply email_shape_no_LF, server_email_shape, Ht.
Qed.

Lemma email_shape_chomp_not_blank s :
  Spec.email_shape (chomp s) -> blank s = false.
Proof.
  intros H. destruct (chomp_split s) as (e & Es & _). rewrite Es.
  apply email_shape_not_blank, H.
Qed.

Lemma validate_email_iff s st :
  RegistrationValidator.validate_email (VStr s) st = (Ok true, st) <->
  (length s <= 254)%nat /\ Spec.email_shape (chomp s).
Proof.
  rewrite validate_email_unfold. pose proof (server_email_match s) as Hm.
  destruct (anchored_match [] RegistrationValidator.EMAIL_REGEX s).
  - destruct Hm as [Hm _]. specialize (Hm eq_refl).
    rewrite (email_shape_chomp_not_blank s Hm). cbn [negb].
    destruct (Nat.ltb_spec 254 (length s)).
    + split; [discriminate | lia].
    + split; [intros _; split; [lia | exact Hm] | reflexivity].
  - cbn [negb]. destruct (blank s).
    + split; [discriminate|]. intros [_ H]. apply Hm in H. discriminate.
    + split; [discriminate|]. intros [_ H]. apply Hm in H. discriminate.
Qed.

(** X5. The first_name/last_name variant accepts an e-mail exactly when it
    has at most 254 characters and, the line feed that may end it apart, is
    local@domain.tld with three non-empty parts free of whitespace and of
    [@]; so every such address of at most 254 characters is accepted. *)
Theorem validate_email_exactly :
  (forall s st,
     RegistrationValidator.validate_email (VStr s) st = (Ok true, st) <->
     (length s <= 254)%nat /\ Spec.email_shape (chomp s))
  /\ (forall s st,
     (length s <= 254)%nat -> Spec.email_shape s ->
     RegistrationValidator.validate_email (VStr s) st = (Ok true, st)).
Proof.
  split.
  - intros s st. apply validate_email_iff.
  - intros s st Hlen Hshape. apply validate_email_iff. split; [exact Hlen|].
    rewrite chomp_no_LF; [exact Hshape | apply email_shape_no_LF, Hshape].
Qed.

(** The form's e-mail pattern, in words. *)
Lemma form_email_match s :
  anchored_match [] RegistrationForm.EMAIL_PATTERN s = true <->
  exists l d t,
    chomp s = l ++ [chr "@"] ++ d ++ [chr "."] ++ t
    /\ l <> [] /\ forallb (class_matches email_local_class) l = true
    /\ d <> [] /\ forallb (class_matches email_domain_class) d = true
    /\ (2 <= length t)%nat /\ forallb (class_matches letter_class) t = true.
Proof.
  assert (Hw : forall w, matches RegistrationForm.EMAIL_PATTERN w <->
    exists l d t,
      w = l ++ [chr "@"] ++ d ++ [chr "."] ++ t
      /\ l <> [] /\ forallb (class_matches email_local_class) l = true
      /\ d <> [] /\ forallb (class_matches email_domain_class) d = true
      /\ (2 <= length t)%nat /\ forallb (class_matches letter_class) t = true).
  { intros w. unfold RegistrationForm.EMAIL_PATTERN. split.
    - intros (l & r1 & -> & [Hl Hlp]%matches_plus_Chr & H)%matches_Cat.
      apply matches_Cat in H as (a & r2 & -> & (c & -> & Hc)%matches_Chr & H).
      apply matches_Cat in H as (d & r3 & -> & [Hd Hdp]%matches_plus_Chr & H).
      apply matches_Cat in H
        as (p & t & -> & (c' & -> & Hc')%matches_Chr & [Ht Htp]%matches_at_least_Chr).
      cbn [class_matches existsb item_matches] in Hc, Hc'.
      rewrite orb_false_r in Hc, Hc'. apply N.eqb_eq in Hc as ->, Hc' as ->.
      exists l, d, t. auto 10.
    - intros (l & d & t & -> & Hl & Hlp & Hd & Hdp & Ht & Htp).
      apply MCat; [apply matches_plus_Chr_iff; auto|].
      apply MCat; [constructor; reflexivity|].
      apply MCat; [apply matches_plus_Chr_iff; auto|].
      apply MCat; [constructor; reflexivity|].
      apply matches_at_least_Chr_iff. auto. }
  rewrite anchored_match_chomp; [apply Hw|].
  intros t Ht. apply email_shape_no_LF, form_email_shape, Ht.
Qed.

(** X6. The username variant accepts an e-mail exactly when, the line feed
    that may end it apart, it is local@domain.tld with a non-empty local
    part of ASCII letters, digits and [._%+-], a non-empty domain of ASCII
    letters, digits, dots and hyphens, and a last label of at least two
    ASCII letters.  Dots may follow one another: "user..name@domain.com" is
    accepted. *)
Theorem validate_email_form_exactly :
  (forall s st,
     RegistrationForm.validate_email (VStr s) st = (Ok true, st) <->
     exists l d t,
       chomp s = l ++ [chr "@"] ++ d ++ [chr "."] ++ t
       /\ l <> [] /\ forallb (class_matches email_local_class) l = true
       /\ d <> [] /\ forallb (class_matches email_domain_class) d = true
       /\ (2 <= length t)%nat /\ forallb (class_matches letter_class) t = true)
  /\ (forall st,
     RegistrationForm.validate_email (VStr (lit "user..name@domain.com")) st
     = (Ok true, st)).
Proof.
  split.
  - intros s st. rewrite validate_email_form_unfold.
    pose proof (form_email_match s) as Hm. destruct s as [|c s].
    + split; [discriminate|].
      intros (l & d & t & E & _). destruct l; discriminate E.
    + destruct (anchored_match [] RegistrationForm.EMAIL_PATTERN (c :: s));
        cbn [negb].
      * split; [intros _; apply Hm; reflexivity | reflexivity].
      * split; [discriminate|]. intros H. apply Hm in H. discriminate.
  - intros st. rewrite validate_email_form_unfold. reflexivity.
Qed.

(** X7. Every e-mail the username variant accepts and that has at most 254
    characters is accepted by the first_name/last_name variant. *)
Theorem form_email_accepted_by_server s st st' :
  RegistrationForm.validate_email (VStr s) st = (Ok true, st) ->
  (length s <= 254)%nat ->
  RegistrationValidator.validate_email (VStr s) st' = (Ok true, st').
Proof.
  rewrite validate_email_form_unfold. intros H Hlen.
  apply validate_email_iff. split; [exact Hlen|].
  destruct s as [|c s]; [discriminate|].
  destruct (anchored_match [] RegistrationForm.EMAIL_PATTERN (c :: s)) eqn:Em;
    [|discriminate].
  apply anchored_match_body in Em as (s1 & e & Es & H1 & He).
  apply form_email_shape in H1. rewrite Es.
  destruct He as [-> | ->].
  - rewrite app_nil_r, chomp_no_LF; [exact H1 | apply email_shape_no_LF, H1].
  - rewrite chomp_snoc_LF. exact H1.
Qed.

End EmailsAndPasswords.

Section PasswordsExactly.

Import RegistrationValidator.

(** A lookahead [(?=.*[k])] on a string whose line feed, if any, is the
    last character: some character before it is in the class. *)
Lemma ahead_on_body k b e :
  forallb (class_matches Dot) b = true -> (e = [] \/ e = [LF]) ->
  class_matches k LF = false ->
  fullmatch (Cat (Cat (Star (Chr Dot)) (Chr k)) (Star (Chr Any))) (b ++ e) = true
  <-> existsb (class_matches k) b = true.
Proof.
  intros Hb He Hk. rewrite fullmatch_matches. split.
  - intros (pc & r & E & (p & c1 & -> & _ & (c & -> & Hc)%matches_Chr)%matches_Cat
            & _)%matches_Cat.
    apply existsb_exists. exists c. split; [|exact Hc].
    assert (Hin : In c (b ++ e)).
    { rewrite E, <- app_assoc. apply in_or_app. right. left. reflexivity. }
    apply in_app_or in Hin as [Hin | Hin]; [exact Hin|]. exfalso.
    destruct He as [-> | ->]; [destruct Hin|].
    destruct Hin as [<- | []]. congruence.
  - intros (c & Hin & Hc)%existsb_exists.
    apply in_split in Hin as (p & r & ->).
    rewrite forallb_app in Hb. apply andb_true_iff in Hb as [Hp _].
    replace ((p ++ c :: r) ++ e) with ((p ++ [c]) ++ (r ++ e))
      by (rewrite <- !app_assoc; reflexivity).
    apply MCat.
    + apply MCat; [apply forallb_matches_Star, Hp | constructor; exact Hc].
    + apply forallb_matches_Star. apply forallb_forall. reflexivity.
Qed.

Lemma password_chars_Dot b :
  forallb (class_matches password_chars) b = true ->
  forallb (class_matches Dot) b = true.
Proof.
  intros H. apply forallb_forall. intros c Hin.
  rewrite forallb_forall in H. specialize (H c Hin). cbn [class_matches].
  destruct (N.eqb_spec c LF) as [->|]; [discriminate H | reflexivity].
Qed.

Lemma existsb_one_item i b :
  existsb (class_matches (OneOf [i])) b = existsb (item_matches i) b.
Proof. apply search_one_item. Qed.

Lemma aheads_on_body b e :
  forallb (class_matches password_chars) b = true -> (e = [] \/ e = [LF]) ->
  forallb (fun a => fullmatch (Cat a (Star (Chr Any))) (b ++ e))
    PASSWORD_REGEX_aheads = true
  <-> has_classes b.
Proof.
  intros Hb He. apply password_chars_Dot in Hb.
  unfold PASSWORD_REGEX_aheads, has_classes. cbn [forallb].
  rewrite !andb_true_iff.
  rewrite !(ahead_on_body _ b e Hb He) by reflexivity.
  rewrite !existsb_one_item.
  change (item_matches (CRange (chr "a") (chr "z")))
    with (between (chr "a") (chr "z")).
  change (item_matches (CRange (chr "A") (chr "Z")))
    with (between (chr "A") (chr "Z")).
  change (item_matches CDigit) with isdecimal.
  unfold server_special_class. tauto.
Qed.

Lemma server_password_match s :
  anchored_match PASSWORD_REGEX_aheads PASSWORD_REGEX_body s = true <->
  (8 <= length (chomp s))%nat
  /\ forallb (class_matches password_chars) (chomp s) = true
  /\ has_classes (chomp s).
Proof.
  unfold anchored_match. rewrite andb_true_iff, fullmatch_matches, matches_Cat.
  split.
  - intros [Ha (b & e & -> & [Hlen Hb]%matches_at_least_Chr & He%matches_dollar)].
    assert (Hc : chomp (b ++ e) = b).
    { destruct He as [-> | ->]; [|apply chomp_snoc_LF].
      rewrite app_nil_r. apply chomp_no_LF.
      apply (class_no_LF_last password_chars); [reflexivity | exact Hb]. }
    rewrite Hc. split; [exact Hlen | split; [exact Hb|]].
    apply (aheads_on_body b e Hb He), Ha.
  - intros (Hlen & Hb & Hc). destruct (chomp_split s) as (e & Es & He).
    remember (chomp s) as b eqn:Eb in *. clear Eb. subst s. split.
    + apply (aheads_on_body _ e Hb He), Hc.
    + exists b, e. split; [reflexivity|].
      split; [apply matches_at_least_Chr_iff; auto | apply matches_dollar, He].
Qed.

Lemma existsb_has_text (p : char -> bool) b :
  (forall c, p c = true -> isspace c = false) ->
  existsb p b = true -> has_text b = true.
Proof.
  intros Hp (c & Hin & Hc)%existsb_exists. apply existsb_exists.
  exists c. rewrite (Hp c Hc). auto.
Qed.

Lemma lower_not_space c : between (chr "a") (chr "z") c = true -> isspace c = false.
Proof.
  intros H%between_spec. change (chr "a") with 97 in H.
  change (chr "z") with 122 in H. apply not_space_above; lia.
Qed.

Lemma existsb_chomp (p : char -> bool) s :
  existsb p (chomp s) = true -> existsb p s = true.
Proof.
  destruct (chomp_split s) as (e & Es & _). intros H.
  remember (chomp s) as b eqn:Eb in *. clear Eb. subst s.
  rewrite existsb_app, H. reflexivity.
Qed.

Lemma length_chomp s : (length (chomp s) <= length s)%nat.
Proof.
  destruct (chomp_split s) as (e & Es & _).
  apply (f_equal (@length _)) in Es. rewrite length_app in Es. lia.
Qed.

Lemma validate_password_iff s st :
  validate_password (VStr s) st = (Ok true, st) <->
  (length s <= 128)%nat
  /\ (8 <= length (chomp s))%nat
  /\ forallb (class_matches password_chars) (chomp s) = true
  /\ has_classes (chomp s).
Proof.
  rewrite validate_password_unfold. pose proof (server_password_match s) as Hm.
  pose proof (length_chomp s) as Hlen.
  destruct (anchored_match PASSWORD_REGEX_aheads PASSWORD_REGEX_body s).
  - destruct Hm as [Hm _]. specialize (Hm eq_refl).
    destruct Hm as (H8 & Hb & Hc).
    assert (Hblank : blank s = false).
    { rewrite blank_has_text. unfold has_text.
      rewrite (existsb_chomp _ s); [reflexivity|].
      apply (existsb_has_text _ _ lower_not_space), Hc. }
    rewrite Hblank. destruct (Nat.ltb_spec (length s) 8); [lia|].
    destruct (Nat.ltb_spec 128 (length s)).
    + split; [discriminate | lia].
    + split; [intros _; split; [lia | auto] | reflexivity].
  - assert (Hno : ~ ((8 <= length (chomp s))%nat
                     /\ forallb (class_matches password_chars) (chomp s) = true
                     /\ has_classes (chomp s)))
      by (intros H; apply Hm in H; discriminate).
    cbn [negb].
    destruct (blank s); [split; [discriminate | tauto]|].
    destruct (length s <? 8)%nat; [split; [discriminate | tauto]|].
    destruct (128 <? length s)%nat; split; try discriminate; tauto.
Qed.

(** X8. The first_name/last_name variant accepts a password exactly when
    it has at most 128 characters and, the line feed that may end it apart,
    has at least 8 characters, all of them ASCII letters, decimal digits or
    one of [@$!%*?&#], with a lowercase letter, an uppercase letter, a digit
    and one of those marks among them. *)
Theorem validate_password_exactly s st :
  validate_password (VStr s) st = (Ok true, st) <->
  (length s <= 128)%nat
  /\ (8 <= length (chomp s))%nat
  /\ forallb (class_matches password_chars) (chomp s) = true
  /\ has_classes (chomp s).
Proof.
  split.
  - intros H. apply (validate_password_iff s st), H.
  - intros H. apply (validate_password_iff s st), H.
Qed.

Lemma special_subclass c :
  class_matches server_special_class c = true ->
  class_matches RegistrationForm.special_class c = true.
Proof.
  unfold server_special_class, RegistrationForm.special_class.
  cbn [class_matches existsb item_matches map].
  intros H. repeat (apply orb_true_iff in H as [H | H]); try discriminate H;
    apply N.eqb_eq in H; subst c; reflexivity.
Qed.

Lemma existsb_weaken (p q : char -> bool) s :
  (forall c, p c = true -> q c = true) ->
  existsb p s = true -> existsb q s = true.
Proof.
  intros Hpq (c & Hin & Hc)%existsb_exists. apply existsb_exists. eauto.
Qed.

(** X9. Every password the first_name/last_name variant accepts is
    accepted by the username variant. *)
Theorem server_password_accepted_by_form s st st' :
  validate_password (VStr s) st = (Ok true, st) ->
  RegistrationForm.validate_password (VStr s) st' = (Ok true, st').
Proof.
  intros (_ & H8 & _ & Hlo & Hup & Hdg & Hsp)%validate_password_iff.
  assert (Hlen : (8 <= length s)%nat)
    by (pose proof (length_chomp s); lia).
  rewrite validate_password_form_unfold.
  unfold Spec.form_rules. cbn [List.find Spec.form_violates].
  destruct s as [|c s]; [simpl in Hlen; lia|].
  destruct (Nat.ltb_spec (length (c :: s)) 8); [lia|].
  rewrite (existsb_chomp _ _ Hup), (existsb_chomp _ _ Hlo),
    (existsb_chomp _ _ Hdg). cbn [negb].
  unfold search_class.
  rewrite (existsb_weaken _ _ _ special_subclass (existsb_chomp _ _ Hsp)).
  reflexivity.
Qed.

End PasswordsExactly.

Section SanitizerText.

Import RegistrationValidator.








End SanitizerText.

Section ErrorDict.

Import RegistrationValidator.











End ErrorDict.

Section EveryCheck.

(** Each field check decides on its argument alone: the instance it runs
    on changes neither the verdict nor the message. *)
Ltac by_cases H :=
  repeat match type of H with
         | context [if ?b then _ else _] => destruct b
         | context [match ?s with [] => _ | _ :: _ => _ end] => destruct s
         | context [match ?o with Some _ => _ | None => _ end] => destruct o
         | context [match ?o with Ok _ => _ | Raise _ => _ end] => destruct o
         end;
  first [ exists None; intros st; rewrite H; reflexivity
        | eexists (Some _); intros st; rewrite H; reflexivity ].

Ltac required_case Hs :=
  eexists (Some _); intros st; cbv [bind];
  rewrite validate_required_unfold; cbv zeta; cbv iota;
  rewrite ?Hs; reflexivity.

Lemma validate_name_verdict k v :
  text_safe v = true ->
  exists o, forall st,
    RegistrationValidator.validate_name k v st = server_verdict k o st.
Proof.
  destruct v as [|z|f|s]; intros Hs; simpl in Hs.
  - unfold RegistrationValidator.validate_name. required_case Hs.
  - unfold RegistrationValidator.validate_name. required_case Hs.
  - unfold RegistrationValidator.validate_name. required_case Hs.
  - pose proof (validate_name_unfold k s) as H. by_cases H.
Qed.

Lemma validate_email_verdict v :
  text_safe v = true ->
  exists o, forall st,
    RegistrationValidator.validate_email v st
    = server_verdict (lit "email") o st.
Proof.
  destruct v as [|z|f|s]; intros Hs; simpl in Hs.
  - unfold RegistrationValidator.validate_email. required_case Hs.
  - unfold RegistrationValidator.validate_email. required_case Hs.
  - unfold RegistrationValidator.validate_email. required_case Hs.
  - pose proof (validate_email_unfold s) as H. by_cases H.
Qed.

Lemma validate_password_verdict v :
  text_safe v = true ->
  exists o, forall st,
    RegistrationValidator.validate_password v st
    = server_verdict (lit "password") o st.
Proof.
  destruct v as [|z|f|s]; intros Hs; simpl in Hs.
  - unfold RegistrationValidator.validate_password. required_case Hs.
  - unfold RegistrationValidator.validate_password. required_case Hs.
  - unfold RegistrationValidator.validate_password. required_case Hs.
  - pose proof (validate_password_unfold s) as H. by_cases H.
Qed.

Lemma validate_password_match_verdict p v :
  text_safe v = true ->
  exists o, forall st,
    RegistrationValidator.validate_password_match p v st
    = server_verdict (lit "confirm_password") o st.
Proof.
  destruct v as [|z|f|s]; intros Hs; simpl in Hs.
  - unfold RegistrationValidator.validate_password_match. required_case Hs.
  - unfold RegistrationValidator.validate_password_match. required_case Hs.
  - unfold RegistrationValidator.validate_password_match. required_case Hs.
  - pose proof (validate_password_match_unfold p s) as H. by_cases H.
Qed.

(** The five checks of [validate_registration], each with its verdict. *)
Lemma server_checks_verdicts data :
  Forall (fun k => text_safe (get_or_empty data k) = true) server_text_fields ->
  exists o1 o2 o3 o4 o5, forall st,
    RegistrationValidator.validate_name (lit "first_name")
      (get_or_empty data (lit "first_name")) st
    = server_verdict (lit "first_name") o1 st
    /\ RegistrationValidator.validate_name (lit "last_name")
         (get_or_empty data (lit "last_name")) st
       = server_verdict (lit "last_name") o2 st
    /\ RegistrationValidator.validate_email (get_or_empty data (lit "email")) st
       = server_verdict (lit "email") o3 st
    /\ RegistrationValidator.validate_password
         (get_or_empty data (lit "password")) st
       = server_verdict (lit "password") o4 st
    /\ RegistrationValidator.validate_password_match
         (get_or_empty data (lit "password"))
         (get_or_empty data (lit "confirm_password")) st
       = server_verdict (lit "confirm_password") o5 st.
Proof.
  intros Hsafe. unfold server_text_fields in Hsafe.
  rewrite !Forall_cons in Hsafe. destruct Hsafe as (S1 & S2 & S3 & S4 & S5 & _).
  destruct (validate_name_verdict (lit "first_name") _ S1) as [o1 E1].
  destruct (validate_name_verdict (lit "last_name") _ S2) as [o2 E2].
  destruct (validate_email_verdict _ S3) as [o3 E3].
  destruct (validate_password_verdict _ S4) as [o4 E4].
  destruct (validate_password_match_verdict
              (get_or_empty data (lit "password")) _ S5) as [o5 E5].
  exists o1, o2, o3, o4, o5. intros st. auto 6.
Qed.

(** Run the five checks one after the other, in every case of their
    verdicts. *)
Ltac run_server_checks data Hsafe :=
  let E := fresh "E" in
  destruct (server_checks_verdicts data Hsafe) as (o1 & o2 & o3 & o4 & o5 & E);
  assert (E1 := fun st => proj1 (E st));
  assert (E2 := fun st => proj1 (proj2 (E st)));
  assert (E3 := fun st => proj1 (proj2 (proj2 (E st))));
  assert (E4 := fun st => proj1 (proj2 (proj2 (proj2 (E st)))));
  assert (E5 := fun st => proj2 (proj2 (proj2 (proj2 (E st)))));
  clear E;
  unfold server_checks; cbv zeta; cbn [map];
  unfold RegistrationValidator.validate_registration;
  cbv [bind put get ret];
  rewrite !E1; destruct o1; cbn [server_verdict]; cbv iota;
  rewrite !E2; destruct o2; cbn [server_verdict]; cbv iota;
  rewrite !E3; destruct o3; cbn [server_verdict]; cbv iota;
  rewrite !E4; destruct o4; cbn [server_verdict]; cbv iota;
  rewrite !E5; destruct o5; cbn [server_verdict]; cbv iota.

Lemma validate_registration_checks data st :
  Forall (fun k => text_safe (get_or_empty data k) = true) server_text_fields ->
  let rs := map (fun check => check RegistrationValidator.new)
              (server_checks data) in
  RegistrationValidator.validate_registration data st
  = (Ok (forallb passed rs, flat_map server_errors rs),
     {| RegistrationValidator.errors := flat_map server_errors rs |}).
Proof.
  intros Hsafe. run_server_checks data Hsafe; vm_compute; reflexivity.
Qed.

(** X12. [validate_registration] runs every check whatever the earlier ones
    said, and its outcome is that of the five checks run each on a new
    instance: the flag is their conjunction and the errors are theirs, in
    the order first_name, last_name, email, password, confirm_password, one
    entry for each check that failed, under the key of its field. *)
Theorem validate_registration_runs_every_check data st :
  Forall (fun k => text_safe (get_or_empty data k) = true) server_text_fields ->
  let rs := map (fun check => check RegistrationValidator.new)
              (server_checks data) in
  let failed := List.filter (fun kr => negb (passed (snd kr)))
                  (combine server_text_fields rs) in
  RegistrationValidator.validate_registration data st
  = (Ok (forallb passed rs, flat_map server_errors rs),
     {| RegistrationValidator.errors := flat_map server_errors rs |})
  /\ map fst (flat_map server_errors rs) = map fst failed.
Proof.
  intros Hsafe. unfold server_text_fields.
  run_server_checks data Hsafe; split; vm_compute; reflexivity.
Qed.

Ltac form_number_case Hs :=
  eexists (Some _); intros st; cbv [truthy negb]; rewrite Hs; reflexivity.

Lemma validate_username_verdict v :
  text_safe v = true ->
  exists o, forall st,
    RegistrationForm.validate_username v st = form_verdict o st.
Proof.
  destruct v as [|z|f|s]; intros Hs; simpl in Hs.
  - eexists (Some _). reflexivity.
  - unfold RegistrationForm.validate_username. form_number_case Hs.
  - unfold RegistrationForm.validate_username. form_number_case Hs.
  - pose proof (validate_username_unfold s) as H. by_cases H.
Qed.

Lemma validate_email_form_verdict v :
  text_safe v = true ->
  exists o, forall st,
    RegistrationForm.validate_email v st = form_verdict o st.
Proof.
  destruct v as [|z|f|s]; intros Hs; simpl in Hs.
  - eexists (Some _). reflexivity.
  - unfold RegistrationForm.validate_email. form_number_case Hs.
  - unfold RegistrationForm.validate_email. form_number_case Hs.
  - pose proof (validate_email_form_unfold s) as H. by_cases H.
Qed.

Lemma validate_password_form_verdict v :
  text_safe v = true ->
  exists o, forall st,
    RegistrationForm.validate_password v st = form_verdict o st.
Proof.
  destruct v as [|z|f|s]; intros Hs; simpl in Hs.
  - eexists (Some _). reflexivity.
  - unfold RegistrationForm.validate_password. form_number_case Hs.
  - unfold RegistrationForm.validate_password. form_number_case Hs.
  - pose proof (validate_password_form_unfold s) as H. by_cases H.
Qed.

Lemma validate_password_confirmation_verdict p v :
  exists o, forall st,
    RegistrationForm.validate_password_confirmation p v st = form_verdict o st.
Proof.
  pose proof (validate_password_confirmation_unfold p v) as H. by_cases H.
Qed.

Lemma validate_age_verdict v :
  age_overflows v = false ->
  exists o, forall st, RegistrationForm.validate_age v st = form_verdict o st.
Proof.
  intros Hv. pose proof (validate_age_unfold v) as H.
  destruct v as [|z|f|s];
    [exists None; intros st; rewrite H; reflexivity | | |].
  - cbn [int] in H. by_cases H.
  - destruct f; [ | discriminate Hv | | ]; cbn [int int_of_float] in H;
      by_cases H.
  - cbn [int] in H. destruct (int_of_str s); by_cases H.
Qed.

Lemma validate_phone_verdict v :
  text_safe v = true ->
  exists o, forall st,
    RegistrationForm.validate_phone v st = form_verdict o st.
Proof.
  destruct v as [|z|f|s]; intros Hs; simpl in Hs.
  - exists None. reflexivity.
  - exists None. intros st. unfold RegistrationForm.validate_phone.
    cbv [truthy negb]. rewrite Hs. reflexivity.
  - exists None. intros st. unfold RegistrationForm.validate_phone.
    cbv [truthy negb]. rewrite Hs. reflexivity.
  - pose proof (validate_phone_unfold s) as H. by_cases H.
Qed.

(** X13. [RegistrationForm.validate] runs every check whatever the earlier
    ones said, and its outcome is that of the six checks run each on a new
    instance: the result is their conjunction, [get_errors()] holds their
    messages in the order username, email, password, confirm_password,
    age, phone, one for each check that failed, and [get_data()] is the
    mapping that was given, valid or not.  This is so when no check raises:
    no text field holds a non-zero number and the age is not an infinite
    float. *)
Theorem validate_runs_every_check form_data st :
  Forall (fun k => text_safe (form_field form_data k) = true) form_text_fields ->
  age_overflows (get_or_none form_data (lit "age")) = false ->
  let rs := map (fun check => check RegistrationForm.new)
              (form_checks form_data) in
  RegistrationForm.validate form_data st
  = (Ok (forallb passed rs),
     {| RegistrationForm.errors := flat_map form_errors rs;
        RegistrationForm.data := form_data |})
  /\ length (flat_map form_errors rs)
     = length (List.filter (fun r => negb (passed r)) rs).
Proof.
  intros Hsafe Hage. unfold form_text_fields in Hsafe.
  rewrite !Forall_cons in Hsafe. destruct Hsafe as (S1 & S2 & S3 & S4 & _).
  change (text_safe (get_or_empty form_data (lit "username")) = true) in S1.
  change (text_safe (get_or_empty form_data (lit "email")) = true) in S2.
  change (text_safe (get_or_empty form_data (lit "password")) = true) in S3.
  change (text_safe (get_or_none form_data (lit "phone")) = true) in S4.
  destruct (validate_username_verdict _ S1) as [o1 E1].
  destruct (validate_email_form_verdict _ S2) as [o2 E2].
  destruct (validate_password_form_verdict _ S3) as [o3 E3].
  destruct (validate_password_confirmation_verdict
              (get_or_empty form_data (lit "password"))
              (get_or_empty form_data (lit "confirm_password"))) as [o4 E4].
  destruct (validate_age_verdict _ Hage) as [o5 E5].
  destruct (validate_phone_verdict _ S4) as [o6 E6].
  unfold form_checks. cbv zeta. cbn [map].
  unfold RegistrationForm.validate. cbv [bind put ret].
  rewrite !E1. destruct o1; cbn [form_verdict]; cbv iota;
    rewrite !E2; destruct o2; cbn [form_verdict]; cbv iota;
    rewrite !E3; destruct o3; cbn [form_verdict]; cbv iota;
    rewrite !E4; destruct o4; cbn [form_verdict]; cbv iota;
    rewrite !E5; destruct o5; cbn [form_verdict]; cbv iota;
    rewrite !E6; destruct o6; cbn [form_verdict]; cbv iota;
    split; reflexivity.
Qed.

End EveryCheck.

Section FlaskViews.

Import ExampleFlaskApp.

Lemma sanitized_first_name fn ln em data :
  get_or_empty (sanitized fn ln em data) (lit "first_name") = VStr fn.
Proof. reflexivity. Qed.

Lemma sanitized_last_name fn ln em data :
  get_or_empty (sanitized fn ln em data) (lit "last_name") = VStr ln.
Proof. reflexivity. Qed.

Lemma sanitized_email fn ln em data :
  get_or_empty (sanitized fn ln em data) (lit "email") = VStr em.
Proof. reflexivity. Qed.




Lemma sanitize_input_tight v t :
  RegistrationValidator.sanitize_input v = Ok t -> tight t.
Proof.
  destruct v as [|z|f|s].
  - intros [= <-]. apply tight_nil.
  - unfold RegistrationValidator.sanitize_input. simpl.
    destruct (z =? 0)%Z; simpl; [intros [= <-]; apply tight_nil | discriminate].
  - unfold RegistrationValidator.sanitize_input. simpl.
    destruct (float_is_zero f); simpl;
      [intros [= <-]; apply tight_nil | discriminate].
  - rewrite sanitize_input_words. intros [= <-].
    apply join_tight, split_from_words. reflexivity.
Qed.

Lemma tight_chomp t : tight t -> chomp t = t.
Proof.
  intros [_ Hr]. unfold chomp. destruct (rev t) as [|c r] eqn:E; [reflexivity|].
  destruct (N.eqb_spec c LF) as [->|]; [|reflexivity]. exfalso.
  simpl in Hr. apply (f_equal (@length _)) in Hr. simpl in Hr.
  assert (Hlen : forall u, (length (drop_while isspace u) <= length u)%nat).
  { induction u as [|x u IHu]; simpl; [lia|]. destruct (isspace x); simpl; lia. }
  specialize (Hlen r). lia.
Qed.

Lemma passed_server_outcome key v st r :
  server_outcome key v st r -> passed r = true -> r = (Ok true, st).
Proof.
  unfold server_outcome, passed. destruct (text_safe v).
  - intros [-> | [m ->]]; [reflexivity | discriminate].
  - intros ->. discriminate.
Qed.

(** What validation says of a sanitized name and of a sanitized e-mail. *)
Lemma sanitized_name_clean k v t st :
  RegistrationValidator.sanitize_input v = Ok t ->
  passed (RegistrationValidator.validate_name k (VStr t) st) = true ->
  clean_name t.
Proof.
  intros Ht%sanitize_input_tight Hp.
  apply (passed_server_outcome k _ _ _ (validate_name_outcome k _ st)) in Hp.
  apply validate_name_iff in Hp as (H2 & H50 & _ & Hall).
  rewrite (tight_chomp t Ht) in Hall. rewrite (tight_strip t Ht) in H2.
  split; [lia | exact Hall].
Qed.

Lemma sanitized_email_shape v t st :
  RegistrationValidator.sanitize_input v = Ok t ->
  passed (RegistrationValidator.validate_email (VStr t) st) = true ->
  (length t <= 254)%nat /\ Spec.email_shape t.
Proof.
  intros Ht%sanitize_input_tight Hp.
  apply (passed_server_outcome _ _ _ _ (validate_email_outcome _ st)) in Hp.
  apply validate_email_iff in Hp as [Hlen Hshape].
  rewrite (tight_chomp t Ht) in Hshape. auto.
Qed.

Lemma register_no_data : register None = Ok no_data /\ register (Some ∅) = Ok no_data.
Proof. split; reflexivity. Qed.

(** [register] on a request with fields, once the three sanitized values
    are known. *)
Lemma register_unfold data fn ln em :
  data <> ∅ ->
  RegistrationValidator.sanitize_input (get_or_empty data (lit "first_name")) = Ok fn ->
  RegistrationValidator.sanitize_input (get_or_empty data (lit "last_name")) = Ok ln ->
  RegistrationValidator.sanitize_input (get_or_empty data (lit "email")) = Ok em ->
  register (Some data) =
  match RegistrationValidator.validate_registration_data
          (sanitized fn ln em data) with
  | Ok (true, _) => Ok {| body := registered fn ln em; status := 201 |}
  | Ok (false, errors) => Ok {| body := refused errors; status := 400 |}
  | Raise e => Raise e
  end.
Proof.
  intros Hne H1 H2 H3. unfold register.
  rewrite bool_decide_eq_false_2 by exact Hne.
  rewrite H1, H2, H3. cbn [and_then].
  destruct (RegistrationValidator.validate_registration_data _)
    as [[[|] errors]|e]; reflexivity.
Qed.

(** X14. When [register] answers 201, the names and the e-mail it echoes
    are the sanitized values of the request and are clean: each name has 2
    to 50 characters, all ASCII letters, spaces, apostrophes or hyphens, and
    the e-mail has at most 254 characters and is local@domain.tld with
    non-empty parts free of whitespace and of [@]; no line feed or other
    control character gets through.  The body holds these three values and
    no password. *)
Theorem register_echoes_clean_fields data resp :
  register (Some data) = Ok resp -> status resp = 201%Z ->
  exists fn ln em,
    RegistrationValidator.sanitize_input (get_or_empty data (lit "first_name")) = Ok fn
    /\ RegistrationValidator.sanitize_input (get_or_empty data (lit "last_name")) = Ok ln
    /\ RegistrationValidator.sanitize_input (get_or_empty data (lit "email")) = Ok em
    /\ body resp = registered fn ln em
    /\ clean_name fn /\ clean_name ln
    /\ (length em <= 254)%nat /\ Spec.email_shape em.
Proof.
  intros Hreg Hst.
  destruct (decide (data = ∅)) as [-> | Hne].
  { injection Hreg as <-. discriminate Hst. }
  destruct (RegistrationValidator.sanitize_input (get_or_empty data (lit "first_name")))
    as [fn|e1] eqn:H1;
    [|unfold register in Hreg; rewrite bool_decide_eq_false_2, H1 in Hreg by exact Hne;
      discriminate Hreg].
  destruct (RegistrationValidator.sanitize_input (get_or_empty data (lit "last_name")))
    as [ln|e2] eqn:H2;
    [|unfold register in Hreg; rewrite bool_decide_eq_false_2, H1, H2 in Hreg by exact Hne;
      discriminate Hreg].
  destruct (RegistrationValidator.sanitize_input (get_or_empty data (lit "email")))
    as [em|e3] eqn:H3;
    [|unfold register in Hreg;
      rewrite bool_decide_eq_false_2, H1, H2, H3 in Hreg by exact Hne;
      discriminate Hreg].
  rewrite (register_unfold data fn ln em Hne H1 H2 H3) in Hreg.
  unfold RegistrationValidator.validate_registration_data in Hreg.
  pose proof (validate_registration_cases (sanitized fn ln em data)
                RegistrationValidator.new) as Hc.
  destruct (RegistrationValidator.validate_registration _ _)
    as [[[valid errors]|e] st'] eqn:Ev; cbn [fst] in Hreg; [|discriminate Hreg].
  destruct valid; injection Hreg as <-; [|discriminate Hst].
  destruct Hc as (_ & _ & Hsafe).
  rewrite (validate_registration_checks _ RegistrationValidator.new Hsafe) in Ev.
  cbv zeta in Ev. injection Ev as Hall _ _.
  unfold server_checks in Hall. cbn [map forallb] in Hall.
  rewrite sanitized_first_name, sanitized_last_name, sanitized_email in Hall.
  apply andb_true_iff in Hall as [Hfn Hall].
  apply andb_true_iff in Hall as [Hln Hall].
  apply andb_true_iff in Hall as [Hem _].
  exists fn, ln, em. do 4 (split; [reflexivity|]).
  split; [apply (sanitized_name_clean _ _ _ _ H1 Hfn)|].
  split; [apply (sanitized_name_clean _ _ _ _ H2 Hln)|].
  apply (sanitized_email_shape _ _ _ H3 Hem).
Qed.


Lemma messages_nil errors : errors <> [] -> refused errors <> refused [].
Proof.
  intros Hne H. apply Hne. destruct errors; [reflexivity | discriminate H].
Qed.








End FlaskViews.

(** * The further properties at concrete inputs *)

Section MoreInstances.

(** "user@example.com" has the form of an address and is accepted. *)
Lemma validate_email_exactly_witness :
  RegistrationValidator.validate_email (VStr (lit "user@example.com"))
    RegistrationValidator.new
  = (Ok true, RegistrationValidator.new).
Proof.
  apply (proj2 validate_email_exactly).
  - vm_compute. lia.
  - exists (lit "user"), (lit "example"), (lit "com").
    split; [reflexivity|]. repeat (split; [discriminate|]).
    repeat constructor; vm_compute; try reflexivity; discriminate.
Defined.

(** "user@example.com", accepted by the form, is accepted by the other
    variant. *)
Lemma form_email_accepted_by_server_witness :
  RegistrationValidator.validate_email (VStr (lit "user@example.com"))
    RegistrationValidator.new
  = (Ok true, RegistrationValidator.new).
Proof.
  apply (form_email_accepted_by_server _ RegistrationForm.new).
  - vm_compute. reflexivity.
  - vm_compute. lia.
Defined.

(** "SecurePass123!", accepted by the first variant, is accepted by the
    form. *)
Lemma server_password_accepted_by_form_witness :
  RegistrationForm.validate_password (VStr (lit "SecurePass123!"))
    RegistrationForm.new
  = (Ok true, RegistrationForm.new).
Proof.
  apply (server_password_accepted_by_form _ RegistrationValidator.new).
  vm_compute. reflexivity.
Defined.

(** The test payload with a malformed e-mail: one error, under [email]. *)
Lemma validate_registration_runs_every_check_witness :
  let data := server_payload (VStr (lit "invalid-email")) in
  let rs := map (fun check => check RegistrationValidator.new)
              (server_checks data) in
  let failed := List.filter (fun kr => negb (passed (snd kr)))
                  (combine server_text_fields rs) in
  RegistrationValidator.validate_registration data RegistrationValidator.new
  = (Ok (forallb passed rs, flat_map server_errors rs),
     {| RegistrationValidator.errors := flat_map server_errors rs |})
  /\ map fst (flat_map server_errors rs) = map fst failed.
Proof.
  apply validate_registration_runs_every_check.
  repeat constructor; vm_compute; reflexivity.
Defined.

(** The form's test payload with a malformed e-mail. *)
Lemma validate_runs_every_check_witness :
  let form_data := form_payload (VStr (lit "invalid-email")) in
  let rs := map (fun check => check RegistrationForm.new)
              (form_checks form_data) in
  RegistrationForm.validate form_data RegistrationForm.new
  = (Ok (forallb passed rs),
     {| RegistrationForm.errors := flat_map form_errors rs;
        RegistrationForm.data := form_data |})
  /\ length (flat_map form_errors rs)
     = length (List.filter (fun r => negb (passed r)) rs).
Proof.
  apply validate_runs_every_check.
  - repeat constructor; vm_compute; reflexivity.
  - vm_compute. reflexivity.
Defined.

(** A registration whose e-mail comes with spaces and a line feed around
    it: the answer is 201 and the e-mail echoed is the bare address. *)
Lemma register_echoes_clean_fields_witness :
  exists fn ln em,
    RegistrationValidator.sanitize_input (VStr (lit "John")) = Ok fn
    /\ RegistrationValidator.sanitize_input (VStr (lit "Doe")) = Ok ln
    /\ RegistrationValidator.sanitize_input
         (VStr (lit " john.doe@example.com " ++ [LF])) = Ok em
    /\ registered (lit "John") (lit "Doe") (lit "john.doe@example.com")
       = registered fn ln em
    /\ clean_name fn /\ clean_name ln
    /\ (length em <= 254)%nat /\ Spec.email_shape em.
Proof.
  apply (register_echoes_clean_fields
           (server_payload (VStr (lit " john.doe@example.com " ++ [LF])))
           {| ExampleFlaskApp.body :=
                registered (lit "John") (lit "Doe")
                  (lit "john.doe@example.com");
              ExampleFlaskApp.status := 201 |}).
  - vm_compute. reflexivity.
  - reflexivity.
Defined.




End MoreInstances.
